(** * Free-space wiper: a model of [Prototype 2/danger.c] and its properties

    The program fills the free space of a mounted filesystem with temporary
    files holding successive overwrite patterns.  It is a single C file:
    [encrypt_chunk], [wipe_free_space] and [main].

    The embedding follows the C text.  Machine integers are [Z] with the
    conversions written out, byte buffers are [list Z] with every element in
    [0, 255], file names are [string]s.  Everything the program obtains from
    outside (the results of [statvfs], [open], [malloc], [rand], the EVP
    cipher, [write] and [remove]) comes from an environment of oracles, one
    stream of answers per primitive, indexed by the number of calls already
    made to that primitive.  What the program does to the outside is
    recorded, in order, as a trace of events.  The [while (1)] loop takes a
    fuel argument; when the fuel is used up the result is [Stuck], carrying
    the trace produced so far.

    A [memcpy] that is asked to copy more bytes than its destination block
    holds writes past the end of the block.  The model keeps the bytes that
    fit, records the copy with both lengths in the trace, and lets the run
    go on until the program hands the block back: [free] of a block that
    has been overrun has no defined outcome and ends the run with
    [Undefined].  The state also counts the cipher contexts that have been
    allocated and not freed. *)

From Stdlib Require Import ZArith List String Ascii Lia Bool DecimalString.
Import ListNotations.
Local Open Scope Z_scope.

(** ** Machine integers *)

Module CInt.

(** Conversion to [size_t] / [unsigned long long] (64 bits, wraps). *)
Definition cast_size_t (z : Z) : Z := z mod 2 ^ 64.

(** Conversion to [int] (32 bits, two's complement). *)
Definition cast_int (z : Z) : Z := (z + 2 ^ 31) mod 2 ^ 32 - 2 ^ 31.

Definition INT_MAX : Z := 2 ^ 31 - 1.
Definition LONG_MAX : Z := 2 ^ 63 - 1.
Definition LONG_MIN : Z := - 2 ^ 63.
Definition SIZE_MAX : Z := 2 ^ 64 - 1.

End CInt.

(** ** The C library pieces the program uses *)

Module Libc.

(** [fcntl.h] flag values (Linux). *)
Definition O_WRONLY : Z := 1.
Definition O_CREAT : Z := 64.
Definition O_EXCL : Z := 128.
Definition O_TRUNC : Z := 512.

(** The [%d] conversion of [printf]. *)
Definition fmt_d (z : Z) : string := NilZero.string_of_int (Z.to_int z).

(** [snprintf(dst, size, ...)]: at most [size - 1] characters of the
    formatted text are stored, followed by the terminating NUL. *)
Definition snprintf (size : nat) (formatted : string) : string :=
  substring 0 (size - 1) formatted.

(** [atoi], as [(int) strtol(s, NULL, 10)]: leading white space, an
    optional sign, then the longest run of decimal digits; the value
    saturates at the bounds of [long] and is then converted to [int]. *)
Definition is_space (c : ascii) : bool :=
  let n := nat_of_ascii c in
  (Nat.eqb n 32 || (Nat.leb 9 n && Nat.leb n 13))%bool.

Definition is_digit (c : ascii) : bool :=
  let n := nat_of_ascii c in (Nat.leb 48 n && Nat.leb n 57)%bool.

Definition digit_value (c : ascii) : Z := Z.of_nat (nat_of_ascii c) - 48.

Fixpoint skip_space (s : string) : string :=
  match s with
  | String c s' => if is_space c then skip_space s' else s
  | EmptyString => s
  end.

Fixpoint digits_value (s : string) (acc : Z) : Z :=
  match s with
  | String c s' =>
      if is_digit c then digits_value s' (10 * acc + digit_value c) else acc
  | EmptyString => acc
  end.

Definition strtol (s : string) : Z :=
  let v :=
    match skip_space s with
    | String "-" s' => - digits_value s' 0
    | String "+" s' => digits_value s' 0
    | s' => digits_value s' 0
    end in
  Z.max CInt.LONG_MIN (Z.min CInt.LONG_MAX v).

Definition atoi (s : string) : Z := CInt.cast_int (strtol s).

(** The text has no number in front: after white space and an optional
    sign the next character is not a digit. *)
Definition leading_digit (s : string) : bool :=
  match s with
  | String c _ => is_digit c
  | EmptyString => false
  end.

Definition numeric_prefix (s : string) : bool :=
  match skip_space s with
  | String "-" s' => leading_digit s'
  | String "+" s' => leading_digit s'
  | s' => leading_digit s'
  end.

(** Storing [src] into the block [dst] from offset [off].  The result is
    the new contents of [dst]; bytes that would land past the end of the
    block are not part of it.  (Where the program can store past the end,
    the caller records the two lengths, and the run is undefined from the
    release of the block on: see [overrun] and [free] below.) *)
Definition store (dst : list Z) (off : nat) (src : list Z) : list Z :=
  firstn (List.length dst)
         (firstn off dst ++ src ++ skipn (off + List.length src) dst).

Definition memset (dst : list Z) (c : Z) (n : nat) : list Z :=
  store dst 0 (repeat (c mod 256) n).

Definition memcpy (dst src : list Z) (n : nat) : list Z :=
  store dst 0 (firstn n src).

End Libc.

(** ** Environment, events and machine state *)

(** What one run of the EVP calls in [encrypt_chunk] answers: whether the
    context was allocated, the return codes of the three calls, and the
    bytes [EVP_EncryptUpdate] and [EVP_EncryptFinal_ex] produced (their
    lengths are [outlen1] and [outlen2]). *)
Record EvpRun := mkEvpRun {
  ctx_ok : bool;
  init_ret : Z;
  update_ret : Z;
  update_out : list Z;
  final_ret : Z;
  final_out : list Z
}.

Record Env := mkEnv {
  (** [statvfs(path, &fs)]: [None] on failure, else [(f_bsize, f_bavail)]. *)
  sys_statvfs : string -> option (Z * Z);
  (** return value of the n-th [open]. *)
  sys_open : nat -> Z;
  (** whether the n-th [malloc] returns a block, and the bytes found in it. *)
  malloc_ok : nat -> bool;
  heap_garbage : nat -> nat -> Z;
  (** value of the n-th [rand()]. *)
  sys_rand : nat -> Z;
  (** the n-th run of the cipher, on key, iv, data and input length. *)
  sys_evp : nat -> list Z -> list Z -> list Z -> Z -> EvpRun;
  (** return value of the n-th [write]. *)
  sys_write : nat -> Z;
  (** return value of the n-th [remove]. *)
  sys_remove : nat -> Z
}.

(** Diagnostic lines, by format string, with their arguments. *)
Inductive msg : Type :=
| MStatvfsFailed
| MDetected (mb : Z)
| MPass (k n : Z)
| MWriting (pattern filename : string)
| MOpenFailed
| MAllocFailed
| MWrote (mb : Z)
| MRemoveFailed
| MRemoved (filename : string)
| MComplete
| MUsage (prog : string)
| MExampleLinux (prog : string)
| MExampleWindows (prog : string).

Inductive event : Type :=
| EvLog (m : msg)                       (* LOG: a line on stdout *)
| EvErr (m : msg)                       (* ERR: a line on stderr *)
| EvPrint (m : msg)                     (* plain printf *)
| EvOpen (filename : string) (flags mode : Z) (ret : Z)
| EvMemcpy (n : Z) (capacity : Z)       (* memcpy of n bytes into a block *)
| EvWrite (fd : Z) (buf : list Z) (count : Z) (ret : Z)
| EvClose (fd : Z)
| EvRemove (filename : string) (ret : Z).

Record State := mkState {
  trace : list event;
  n_open : nat;
  n_malloc : nat;
  n_rand : nat;
  n_evp : nat;
  n_write : nat;
  n_remove : nat;
  (** cipher contexts allocated and not yet freed. *)
  live_ctx : nat
}.

Definition initial_state : State := mkState [] 0 0 0 0 0 0 0.

(** ** Computations *)

(** A computation either finishes with a value, or is still inside the
    write loop when the fuel runs out, or has reached a point from which
    the behaviour of the C program is undefined: it releases a heap block
    past whose end it has written.  From there the model says nothing of
    what the program does (it may abort, as the C library's [free]
    does on a corrupted heap, or go on). *)
Inductive result (A : Type) : Type :=
| Done (a : A) (s : State)
| Stuck (s : State)
| Undefined (s : State).
Arguments Done {A} a s.
Arguments Stuck {A} s.
Arguments Undefined {A} s.

Definition state_of {A} (r : result A) : State :=
  match r with Done _ s => s | Stuck s => s | Undefined s => s end.

Definition finished {A} (r : result A) : bool :=
  match r with Done _ _ => true | Stuck _ => false | Undefined _ => false end.

(** The run has met undefined behaviour. *)
Definition undefined {A} (r : result A) : bool :=
  match r with Undefined _ => true | _ => false end.

Definition C (A : Type) : Type := State -> result A.

Definition ret {A} (a : A) : C A := fun s => Done a s.

Definition bind {A B} (m : C A) (k : A -> C B) : C B :=
  fun s => match m s with
           | Done a s' => k a s'
           | Stuck s' => Stuck s'
           | Undefined s' => Undefined s'
           end.

Notation "x <- m ;; k" := (bind m (fun x => k))
  (at level 61, m at next level, right associativity).
Notation "m ;;; k" := (bind m (fun _ => k))
  (at level 61, right associativity).

(** State updates: one more event, one more answer used. *)
Definition record (e : event) (s : State) : State :=
  mkState (trace s ++ [e]) (n_open s) (n_malloc s) (n_rand s) (n_evp s)
          (n_write s) (n_remove s) (live_ctx s).

Definition used_open (s : State) : State :=
  mkState (trace s) (S (n_open s)) (n_malloc s) (n_rand s) (n_evp s)
          (n_write s) (n_remove s) (live_ctx s).

Definition used_malloc (s : State) : State :=
  mkState (trace s) (n_open s) (S (n_malloc s)) (n_rand s) (n_evp s)
          (n_write s) (n_remove s) (live_ctx s).

Definition used_rand (n : nat) (s : State) : State :=
  mkState (trace s) (n_open s) (n_malloc s) (n_rand s + n) (n_evp s)
          (n_write s) (n_remove s) (live_ctx s).

Definition used_evp (s : State) : State :=
  mkState (trace s) (n_open s) (n_malloc s) (n_rand s) (S (n_evp s))
          (n_write s) (n_remove s) (live_ctx s).

Definition used_write (s : State) : State :=
  mkState (trace s) (n_open s) (n_malloc s) (n_rand s) (n_evp s)
          (S (n_write s)) (n_remove s) (live_ctx s).

Definition used_remove (s : State) : State :=
  mkState (trace s) (n_open s) (n_malloc s) (n_rand s) (n_evp s)
          (n_write s) (S (n_remove s)) (live_ctx s).

(** A cipher context comes to life, or is freed. *)
Definition ctx_acquired (s : State) : State :=
  mkState (trace s) (n_open s) (n_malloc s) (n_rand s) (n_evp s)
          (n_write s) (n_remove s) (S (live_ctx s)).

Definition ctx_released (s : State) : State :=
  mkState (trace s) (n_open s) (n_malloc s) (n_rand s) (n_evp s)
          (n_write s) (n_remove s) (pred (live_ctx s)).

Definition emit (e : event) : C unit := fun s => Done tt (record e s).

Definition LOG (m : msg) : C unit := emit (EvLog m).
Definition ERR (m : msg) : C unit := emit (EvErr m).
Definition printf (m : msg) : C unit := emit (EvPrint m).

Definition open (env : Env) (filename : string) (flags mode : Z) : C Z :=
  fun s =>
    let r := sys_open env (n_open s) in
    Done r (used_open (record (EvOpen filename flags mode r) s)).

(** The block the i-th [malloc] hands out: [size] bytes of whatever the
    heap held. *)
Definition fresh_block (env : Env) (i : nat) (size : nat) : list Z :=
  map (fun j => heap_garbage env i j mod 256) (seq 0 size).

(** [malloc(size)]: [None] is the null pointer. *)
Definition malloc (env : Env) (size : Z) : C (option (list Z)) :=
  fun s =>
    let i := n_malloc s in
    Done (if malloc_ok env i then Some (fresh_block env i (Z.to_nat size))
          else None)
         (used_malloc s).

(** [n] successive values of [rand() % 256], stored as [unsigned char],
    starting with the i-th call of [rand]. *)
Definition rand_block (env : Env) (i : nat) (n : nat) : list Z :=
  map (fun j => sys_rand env (i + j) mod 256) (seq 0 n).

Definition rand_bytes (env : Env) (n : nat) : C (list Z) :=
  fun s => Done (rand_block env (n_rand s) n) (used_rand n s).

Definition evp (env : Env) (key iv data : list Z) (inl : Z) : C EvpRun :=
  fun s => Done (sys_evp env (n_evp s) key iv data inl) (used_evp s).

Definition write (env : Env) (fd : Z) (buf : list Z) (count : Z) : C Z :=
  fun s =>
    let w := sys_write env (n_write s) in
    Done w (used_write (record (EvWrite fd buf count w) s)).

Definition close (fd : Z) : C unit := emit (EvClose fd).

(** [EVP_CIPHER_CTX_new] having returned a context, and
    [EVP_CIPHER_CTX_free]. *)
Definition EVP_CIPHER_CTX_new : C unit := fun s => Done tt (ctx_acquired s).
Definition EVP_CIPHER_CTX_free : C unit := fun s => Done tt (ctx_released s).

(** The position reached in the trace. *)
Definition here : C nat := fun s => Done (List.length (trace s)) s.

(** A [memcpy] of more bytes than the destination block holds. *)
Definition overrun (e : event) : bool :=
  match e with
  | EvMemcpy n capacity => capacity <? n
  | _ => false
  end.

(** [free(p)] of a block allocated at position [since] of the trace: the
    behaviour is undefined if a copy has overrun the block since then;
    otherwise the block is released, which nothing in the program
    observes.  ([free(NULL)] does nothing, and nothing has been copied into
    a null pointer.) *)
Definition free (since : nat) : C unit :=
  fun s => if existsb overrun (skipn since (trace s)) then Undefined s
           else Done tt s.

Definition remove (env : Env) (filename : string) : C Z :=
  fun s =>
    let r := sys_remove env (n_remove s) in
    Done r (used_remove (record (EvRemove filename r) s)).

(** ** The program *)

Import CInt Libc.

(** [encrypt_chunk(data, len, out, key, iv)]: returns [-1] as soon as one
    of the EVP calls fails, else [outlen1 + outlen2]; the second component
    is the contents of [out] afterwards.  The context is freed on the last
    line only: the three [return -1] that follow its allocation leave it
    alive. *)
Definition encrypt_chunk (env : Env) (data : list Z) (len : Z)
    (out key iv : list Z) : C (Z * list Z) :=
  r <- evp env key iv data (cast_int len) ;;
  if negb (ctx_ok r) then ret (-1, out)
  else
    EVP_CIPHER_CTX_new ;;;
    if negb (init_ret r =? 1) then ret (-1, out)
    else
      let outlen1 := Z.of_nat (List.length (update_out r)) in
      let out1 := store out 0 (update_out r) in
      if negb (update_ret r =? 1) then ret (-1, out1)
      else
        let outlen2 := Z.of_nat (List.length (final_out r)) in
        let out2 := store out1 (Z.to_nat outlen1) (final_out r) in
        if negb (final_ret r =? 1) then ret (-1, out2)
        else
          EVP_CIPHER_CTX_free ;;;
          ret (cast_int (outlen1 + outlen2), out2).

Definition patterns : list string := ["zeros"; "ones"; "random"; "encrypted"]%string.

(** The first half of the body of [while (1)]: the buffer is filled
    according to the pattern name, compared with [strcmp]. *)
Definition generate_chunk (env : Env) (pattern : string) (chunk_size : Z)
    (buf outbuf : list Z) : C (list Z * list Z) :=
  if String.eqb pattern "zeros" then
    ret (memset buf 0 (Z.to_nat chunk_size), outbuf)
  else if String.eqb pattern "ones" then
    ret (memset buf 255 (Z.to_nat chunk_size), outbuf)
  else if String.eqb pattern "random" then
    r <- rand_bytes env (Z.to_nat chunk_size) ;;
    ret (store buf 0 r, outbuf)
  else if String.eqb pattern "encrypted" then
    r <- rand_bytes env (Z.to_nat chunk_size) ;;
    let buf1 := store buf 0 r in
    key <- rand_bytes env 32 ;;
    iv <- rand_bytes env 16 ;;
    e <- encrypt_chunk env buf1 chunk_size outbuf key iv ;;
    let enc_size := fst e in
    let outbuf1 := snd e in
    if 0 <? enc_size then
      emit (EvMemcpy enc_size (Z.of_nat (List.length buf1))) ;;;
      ret (memcpy buf1 outbuf1 (Z.to_nat enc_size), outbuf1)
    else ret (buf1, outbuf1)
  else ret (buf, outbuf).

(** [while (1) { ...; w = write(fd, buf, chunk_size); if (w <= 0) break;
    written += w; }], returning [written]. *)
Fixpoint write_loop (fuel : nat) (env : Env) (fd : Z) (pattern : string)
    (chunk_size : Z) (buf outbuf : list Z) (written : Z) : C Z :=
  match fuel with
  | O => fun s => Stuck s
  | S fuel' =>
      b <- generate_chunk env pattern chunk_size buf outbuf ;;
      w <- write env fd (fst b) chunk_size ;;
      if w <=? 0 then ret written
      else write_loop fuel' env fd pattern chunk_size (fst b) (snd b)
                      (cast_size_t (written + w))
  end.

Definition temp_name (path : string) (p pat : Z) : string :=
  (path ++ "/shred_temp_" ++ fmt_d p ++ "_" ++ fmt_d pat ++ ".dat")%string.

(** The part of an iteration that follows the two allocations, made at
    position [since] of the trace: [size_t written = 0; while (1) ...], the
    progress line, [close], the two [free] and the removal of the temp
    file. *)
Definition fill_and_reclaim (fuel : nat) (env : Env) (fd : Z)
    (pattern : string) (chunk_size : Z) (filename : string) (since : nat)
    (buf outbuf : list Z) : C unit :=
  written <- write_loop fuel env fd pattern chunk_size buf outbuf 0 ;;
  LOG (MWrote (written / (1024 * 1024))) ;;;
  close fd ;;;
  free since ;;;
  free since ;;;
  r <- remove env filename ;;
  if negb (r =? 0) then ERR MRemoveFailed else LOG (MRemoved filename).

(** The body of [for (int pat = 0; pat < 4; pat++)]. *)
Definition iteration (fuel : nat) (env : Env) (path : string) (p pat : Z)
    (chunk_size : Z) : C unit :=
  let filename := snprintf 256 (temp_name path p pat) in
  let pattern := nth (Z.to_nat pat) patterns ""%string in
  LOG (MWriting pattern filename) ;;;
  fd <- open env filename (Z.lor (Z.lor O_CREAT O_WRONLY) O_TRUNC) 384 ;;
  if fd <? 0 then ERR MOpenFailed
  else
    buf <- malloc env chunk_size ;;
    outbuf <- malloc env (cast_size_t (chunk_size + 32)) ;;
    since <- here ;;
    match buf, outbuf with
    | Some b, Some o =>
        fill_and_reclaim fuel env fd pattern chunk_size filename since b o
    | _, _ =>
        ERR MAllocFailed ;;;
        close fd ;;;
        free since ;;;
        free since
    end.

(** [for (int i = lo; i < hi; i++) body(i)]. *)
Fixpoint for_upto (n : nat) (i : Z) (body : Z -> C unit) : C unit :=
  match n with
  | O => ret tt
  | S n' => body i ;;; for_upto n' (i + 1) body
  end.

Definition for_int (lo hi : Z) (body : Z -> C unit) : C unit :=
  for_upto (Z.to_nat (hi - lo)) lo body.

Definition pass (fuel : nat) (env : Env) (path : string) (passes : Z)
    (chunk_size : Z) (p : Z) : C unit :=
  LOG (MPass (p + 1) passes) ;;;
  for_int 0 4 (fun pat => iteration fuel env path p pat chunk_size).

Definition wipe_free_space (fuel : nat) (env : Env) (path : string)
    (passes : Z) (chunk_size : Z) : C unit :=
  match sys_statvfs env path with
  | None => ERR MStatvfsFailed
  | Some (f_bsize, f_bavail) =>
      let free_space := cast_size_t (f_bsize * f_bavail) in
      LOG (MDetected (free_space / (1024 * 1024))) ;;;
      for_int 0 passes (pass fuel env path passes chunk_size) ;;;
      LOG MComplete
  end.

(** [main]: [argv] is the argument vector, program name first.  The call
    [srand(time(NULL))] selects the generator's sequence, which here is the
    environment's [sys_rand]. *)
Definition main (fuel : nat) (env : Env) (argv : list string) : C Z :=
  let argc := Z.of_nat (List.length argv) in
  let argv0 := nth 0 argv ""%string in
  if argc <? 2 then
    printf (MUsage argv0) ;;;
    printf (MExampleLinux argv0) ;;;
    printf (MExampleWindows argv0) ;;;
    ret 1
  else
    let path := nth 1 argv ""%string in
    let passes := if 2 <? argc then atoi (nth 2 argv ""%string) else 3 in
    let chunk_size := 512 * 1024 * 1024 in
    wipe_free_space fuel env path passes chunk_size ;;;
    ret 0.

(** ** Reading a trace *)

(** Names of the files the run tried to create, in order: one per fill
    iteration started. *)
Fixpoint opened (tr : list event) : list string :=
  match tr with
  | [] => []
  | EvOpen f _ _ _ :: tr' => f :: opened tr'
  | _ :: tr' => opened tr'
  end.

Definition is_fs_event (e : event) : bool :=
  match e with
  | EvOpen _ _ _ _ | EvWrite _ _ _ _ | EvClose _ | EvRemove _ _ => true
  | _ => false
  end.

(** Buffers handed to [write], in order. *)
Fixpoint written_bufs (tr : list event) : list (list Z) :=
  match tr with
  | [] => []
  | EvWrite _ b _ _ :: tr' => b :: written_bufs tr'
  | _ :: tr' => written_bufs tr'
  end.

(** Names passed to [remove], in order. *)
Fixpoint removed (tr : list event) : list string :=
  match tr with
  | [] => []
  | EvRemove f _ :: tr' => f :: removed tr'
  | _ :: tr' => removed tr'
  end.

(** ** Vocabulary of the properties *)

(** The flags of the [open] call. *)
Definition open_flags : Z := Z.lor (Z.lor O_CREAT O_WRONLY) O_TRUNC.

(** The start of every iteration: the progress line and the [open]. *)
Definition iteration_head (env : Env) (path : string) (p pat : Z) (s : State)
  : list event :=
  let filename := snprintf 256 (temp_name path p pat) in
  [EvLog (MWriting (nth (Z.to_nat pat) patterns ""%string) filename);
   EvOpen filename open_flags 384 (sys_open env (n_open s))].

(** The events a chunk generation adds: none, or one [memcpy]. *)
Definition only_memcpy (tl : list event) : Prop :=
  tl = [] \/ exists n c, tl = [EvMemcpy n c].

(** The disk fills up: from any point on, some later [write] returns zero
    or a negative value. *)
Definition disk_fills (env : Env) : Prop :=
  forall n, exists k, sys_write env (n + k) <= 0.

(** The values [i, i+1, ...] a loop of [n] turns goes through. *)
Fixpoint range_from (n : nat) (i : Z) : list Z :=
  match n with
  | O => []
  | S n' => i :: range_from n' (i + 1)
  end.

(** The files a run of [passes] passes tries to create, in order. *)
Definition expected_files (path : string) (passes : Z) : list string :=
  flat_map (fun p => map (fun pat => snprintf 256 (temp_name path p pat))
                         (range_from 4 0))
           (range_from (Z.to_nat passes) 0).

(** A buffer of [n] bytes, each equal to [c]. *)
Definition all_bytes (c : Z) (n : nat) (b : list Z) : Prop :=
  List.length b = n /\ Forall (fun x => x = c) b.

(** All four EVP steps of a run succeeded. *)
Definition evp_success (r : EvpRun) : Prop :=
  ctx_ok r = true /\ init_ret r = 1 /\ update_ret r = 1 /\ final_ret r = 1.

(** One of them failed. *)
Definition evp_failed (r : EvpRun) : bool :=
  negb (ctx_ok r) || negb (init_ret r =? 1) || negb (update_ret r =? 1)
  || negb (final_ret r =? 1).

(** Output lengths of AES-256-CBC with PKCS padding on [inl] bytes of input:
    the whole blocks from [EVP_EncryptUpdate], one more block from
    [EVP_EncryptFinal_ex]. *)
Definition pkcs_lengths (r : EvpRun) (inl : Z) : Prop :=
  Z.of_nat (List.length (update_out r)) = 16 * (inl / 16) /\
  Z.of_nat (List.length (final_out r)) = 16.

(** The value [main] returned, if it returned. *)
Definition exit_code (r : result Z) : option Z :=
  match r with Done c _ => Some c | Stuck _ => None | Undefined _ => None end.

(** The events with which an iteration ends when its loop has returned
    [written]. *)
Definition reclaim_events (env : Env) (fd : Z) (filename : string)
    (written : Z) (s : State) : list event :=
  [EvLog (MWrote (written / (1024 * 1024)));
   EvClose fd;
   EvRemove filename (sys_remove env (n_remove s));
   if sys_remove env (n_remove s) =? 0 then EvLog (MRemoved filename)
   else EvErr MRemoveFailed].

(** The state in which the buffers are freed: the loop has returned
    [written] in state [s], the total has been logged and the descriptor
    closed. *)
Definition closed_state (fd written : Z) (s : State) : State :=
  record (EvClose fd) (record (EvLog (MWrote (written / (1024 * 1024)))) s).

(** The state in which the iteration then ends, the file removed or the
    failure to remove it logged. *)
Definition reclaimed_state (env : Env) (fd : Z) (filename : string)
    (written : Z) (s : State) : State :=
  record (if sys_remove env (n_remove s) =? 0 then EvLog (MRemoved filename)
          else EvErr MRemoveFailed)
    (used_remove (record (EvRemove filename (sys_remove env (n_remove s)))
                         (closed_state fd written s))).

(** ** Test environments *)

(** Every primitive answers the same thing at every call, except [write],
    which answers from the list and then 0. *)
Definition env_const (statvfs_ok : bool) (open_ret : Z) (alloc : bool)
    (run : EvpRun) (writes : list Z) (remove_ret : Z) : Env :=
  mkEnv (fun _ => if statvfs_ok then Some (4096, 1000) else None)
        (fun _ => open_ret)
        (fun _ => alloc)
        (fun _ _ => 0)
        (fun n => Z.of_nat n * 37 + 11)
        (fun _ _ _ _ _ => run)
        (fun n => nth n writes 0)
        (fun _ => remove_ret).

(** A cipher run whose initialisation fails. *)
Definition evp_fail : EvpRun := mkEvpRun true 0 0 [] 0 [].

(** A successful cipher run with the output lengths of a padded CBC
    encryption. *)
Definition pkcs_run (inl : Z) : EvpRun :=
  mkEvpRun true 1 1 (repeat 7 (Z.to_nat (16 * (inl / 16)))) 1 (repeat 9 16).

(** An environment in which everything succeeds and the cipher is
    [pkcs_run]. *)
Definition env_pkcs (writes : list Z) : Env :=
  mkEnv (fun _ => Some (4096, 1000)) (fun _ => 3) (fun _ => true)
        (fun _ _ => 0) (fun n => Z.of_nat n * 37 + 11)
        (fun _ _ _ _ inl => pkcs_run inl)
        (fun n => nth n writes 0) (fun _ => 0).

(** A target directory name of 250 characters. *)
Definition long_target : string :=
  string_of_list_ascii (repeat "a"%char 250).

(** ** More vocabulary: descriptors, created files, kinds of events *)

(** Descriptors passed to [close], in order. *)
Fixpoint closed (tr : list event) : list Z :=
  match tr with
  | [] => []
  | EvClose fd :: tr' => fd :: closed tr'
  | _ :: tr' => closed tr'
  end.

(** Descriptors obtained: the results of [open] that are not negative. *)
Fixpoint opened_fds (tr : list event) : list Z :=
  match tr with
  | [] => []
  | EvOpen _ _ _ r :: tr' =>
      if r <? 0 then opened_fds tr' else r :: opened_fds tr'
  | _ :: tr' => opened_fds tr'
  end.

(** Names of the files created: those whose [open] did not fail. *)
Fixpoint created (tr : list event) : list string :=
  match tr with
  | [] => []
  | EvOpen f _ _ r :: tr' =>
      if r <? 0 then created tr' else f :: created tr'
  | _ :: tr' => created tr'
  end.

(** Values returned by [write], in order. *)
Fixpoint write_results (tr : list event) : list Z :=
  match tr with
  | [] => []
  | EvWrite _ _ _ w :: tr' => w :: write_results tr'
  | _ :: tr' => write_results tr'
  end.

(** [s'] is [s] after more events, each of them satisfying [E]. *)
Definition adds (E : event -> Prop) (s s' : State) : Prop :=
  exists tl, trace s' = trace s ++ tl /\ Forall E tl.

(** What the write loop on descriptor [fd] may do. *)
Definition loop_event (fd cs : Z) (e : event) : Prop :=
  match e with
  | EvMemcpy _ _ => True
  | EvWrite d b c _ => d = fd /\ c = cs /\ List.length b = Z.to_nat cs
  | _ => False
  end.

(** What an iteration may do once it has called [open], which returned
    [fd] for [filename]. *)
Definition iteration_event (filename : string) (fd cs : Z) (e : event)
  : Prop :=
  match e with
  | EvLog _ | EvErr _ | EvMemcpy _ _ => True
  | EvWrite d b c _ =>
      0 <= fd /\ d = fd /\ c = cs /\ List.length b = Z.to_nat cs
  | EvClose d => 0 <= fd /\ d = fd
  | EvRemove f _ => 0 <= fd /\ f = filename
  | EvOpen _ _ _ _ | EvPrint _ => False
  end.

(** What a run on [path] with [passes] passes may do. *)
Definition run_event (path : string) (passes cs : Z) (e : event) : Prop :=
  match e with
  | EvOpen f flags mode _ =>
      In f (expected_files path passes) /\ flags = open_flags /\ mode = 384
  | EvRemove f _ => In f (expected_files path passes)
  | EvWrite _ b c _ => c = cs /\ List.length b = Z.to_nat cs
  | EvPrint _ => False
  | _ => True
  end.

(** Calls of [rand] and runs of the cipher that generating one chunk of
    the named pattern takes. *)
Definition rand_per_chunk (pattern : string) (cs : Z) : nat :=
  if String.eqb pattern "random" then Z.to_nat cs
  else if String.eqb pattern "encrypted" then (Z.to_nat cs + 32 + 16)%nat
  else 0%nat.

Definition evp_per_chunk (pattern : string) : nat :=
  if String.eqb pattern "encrypted" then 1%nat else 0%nat.

(** ** Vocabulary for comparing two runs *)

(** Two environments that answer alike, except perhaps for what [statvfs]
    reports and for the bytes found in freshly allocated memory. *)
Definition same_oracles (env1 env2 : Env) : Prop :=
  sys_open env1 = sys_open env2 /\
  malloc_ok env1 = malloc_ok env2 /\
  sys_rand env1 = sys_rand env2 /\
  sys_evp env1 = sys_evp env2 /\
  sys_write env1 = sys_write env2 /\
  sys_remove env1 = sys_remove env2.

Definition same_counters (s1 s2 : State) : Prop :=
  n_open s1 = n_open s2 /\ n_malloc s1 = n_malloc s2 /\
  n_rand s1 = n_rand s2 /\ n_evp s1 = n_evp s2 /\
  n_write s1 = n_write s2 /\ n_remove s1 = n_remove s2 /\
  live_ctx s1 = live_ctx s2.

(** Two states that have used as many answers of each kind and whose
    traces are [t1] and [t2] followed by the same events. *)
Definition after_prefix (t1 t2 : list event) (s1 s2 : State) : Prop :=
  same_counters s1 s2 /\
  exists tl, trace s1 = t1 ++ tl /\ trace s2 = t2 ++ tl.

(** Two results of the same kind, with related values and states. *)
Definition rel_result {A B} (S : State -> State -> Prop) (V : A -> B -> Prop)
    (r1 : result A) (r2 : result B) : Prop :=
  match r1, r2 with
  | Done a s1, Done b s2 => V a b /\ S s1 s2
  | Stuck s1, Stuck s2 => S s1 s2
  | Undefined s1, Undefined s2 => S s1 s2
  | _, _ => False
  end.

(** Two computations that take related states to related results. *)
Definition rel_comp {A B} (S : State -> State -> Prop) (V : A -> B -> Prop)
    (m1 : C A) (m2 : C B) : Prop :=
  forall s1 s2, S s1 s2 -> rel_result S V (m1 s1) (m2 s2).

(** Two pointers: both null, or two blocks of [n] bytes. *)
Definition same_block (n : nat) (o1 o2 : option (list Z)) : Prop :=
  match o1, o2 with
  | Some b1, Some b2 => List.length b1 = n /\ List.length b2 = n
  | None, None => True
  | _, _ => False
  end.

(** Two results of [encrypt_chunk]: the same return value, output buffers
    of the same size that agree on as many bytes as the value says. *)
Definition same_encryption (e1 e2 : Z * list Z) : Prop :=
  fst e1 = fst e2 /\
  List.length (snd e1) = List.length (snd e2) /\
  firstn (Z.to_nat (fst e1)) (snd e1) = firstn (Z.to_nat (fst e1)) (snd e2).

(** Two results of the chunk generator: the same fill buffer, of [n]
    bytes, and scratch buffers of the same size. *)
Definition same_chunk (n : nat) (b1 b2 : list Z * list Z) : Prop :=
  fst b1 = fst b2 /\ List.length (fst b1) = n /\
  List.length (snd b1) = List.length (snd b2).

(** [env] with other bytes in freshly allocated memory. *)
Definition with_garbage (g : nat -> nat -> Z) (env : Env) : Env :=
  mkEnv (sys_statvfs env) (sys_open env) (malloc_ok env) g (sys_rand env)
        (sys_evp env) (sys_write env) (sys_remove env).

(** [env] with another report from [statvfs]. *)
Definition with_statvfs (f_bsize f_bavail : Z) (env : Env) : Env :=
  mkEnv (fun _ => Some (f_bsize, f_bavail)) (sys_open env) (malloc_ok env)
        (heap_garbage env) (sys_rand env) (sys_evp env) (sys_write env)
        (sys_remove env).

(** Every run of the cipher fails at one step or another. *)
Definition cipher_always_fails (env : Env) : Prop :=
  forall n key iv data inl,
    evp_failed (sys_evp env n key iv data inl) = true.

(** No chunk of this pattern is ever copied back from the scratch buffer:
    the pattern is not the encrypted one, or the cipher never succeeds. *)
Definition never_copies_back (env : Env) (pattern : string) : Prop :=
  pattern = "encrypted"%string -> cipher_always_fails env.

(** Every run of the cipher succeeds, with the output lengths of a padded
    CBC encryption of [cs] bytes. *)
Definition cipher_always_pads (env : Env) (cs : Z) : Prop :=
  forall n key iv data,
    evp_success (sys_evp env n key iv data cs) /\
    pkcs_lengths (sys_evp env n key iv data cs) cs.

(** The text is a non-negative integer in decimal: digits, at least one,
    and nothing else. *)
Fixpoint all_digits (s : string) : bool :=
  match s with
  | EmptyString => true
  | String c s' => (is_digit c && all_digits s')%bool
  end.

Definition parses_as_nonneg (s : string) : bool :=
  match s with
  | EmptyString => false
  | _ => all_digits s
  end.

(** Sum of a list of integers. *)
Definition sum_Z (l : list Z) : Z := fold_right Z.add 0 l.

(** An environment whose cipher always fails, with the answers of [open]
    taken from a list (and [-1] after it) and those of [malloc] from another
    (and success after it). *)
Definition env_script (opens : list Z) (allocs : list bool)
    (writes : list Z) (remove_ret : Z) : Env :=
  mkEnv (fun _ => Some (4096, 1000))
        (fun n => nth n opens (-1))
        (fun n => nth n allocs true)
        (fun _ _ => 0)
        (fun n => Z.of_nat n * 37 + 11)
        (fun _ _ _ _ _ => evp_fail)
        (fun n => nth n writes 0)
        (fun _ => remove_ret).

Arguments rand_block : simpl never.
Arguments fresh_block : simpl never.

(** ** Basic facts *)

Lemma cast_size_t_small z : 0 <= z <= SIZE_MAX -> cast_size_t z = z.
Proof. unfold cast_size_t, SIZE_MAX. intros H. apply Z.mod_small. lia. Qed.

Lemma cast_int_small z : - 2 ^ 31 <= z <= INT_MAX -> cast_int z = z.
Proof.
  unfold cast_int, INT_MAX. intros H.
  rewrite Z.mod_small by lia. lia.
Qed.

Lemma store_length dst off src : List.length (store dst off src) = List.length dst.
Proof.
  unfold store. apply firstn_length_le.
  rewrite !length_app, length_skipn, length_firstn. lia.
Qed.

Lemma store_full dst src :
  List.length src = List.length dst -> store dst 0 src = src.
Proof.
  intros H. unfold store. simpl.
  rewrite skipn_all2 by lia. rewrite app_nil_r.
  rewrite <- H. apply firstn_all.
Qed.

Lemma rand_block_length env i n : List.length (rand_block env i n) = n.
Proof. unfold rand_block. now rewrite length_map, length_seq. Qed.

Lemma fresh_block_length env i n : List.length (fresh_block env i n) = n.
Proof. unfold fresh_block. now rewrite length_map, length_seq. Qed.

(** [encrypt_chunk] always returns; it uses one answer of the cipher and
    leaves the trace and the other counters alone. *)
Lemma encrypt_chunk_run env data len out key iv s :
  exists e s',
    encrypt_chunk env data len out key iv s = Done e s' /\
    trace s' = trace s /\
    n_open s' = n_open s /\ n_malloc s' = n_malloc s /\
    n_rand s' = n_rand s /\ n_evp s' = S (n_evp s) /\
    n_write s' = n_write s /\ n_remove s' = n_remove s.
Proof.
  unfold encrypt_chunk, bind, evp, EVP_CIPHER_CTX_new, EVP_CIPHER_CTX_free, ret.
  repeat match goal with
         | |- context [if ?c then _ else _] => destruct c
         end; do 2 eexists; (split; [reflexivity|]); cbn; auto 10.
Qed.

Lemma generate_chunk_spec env pattern cs buf outbuf s :
  exists b s' tl,
    generate_chunk env pattern cs buf outbuf s = Done b s' /\
    trace s' = trace s ++ tl /\ only_memcpy tl /\
    n_write s' = n_write s /\
    List.length (fst b) = List.length buf.
Proof.
  unfold generate_chunk.
  destruct (String.eqb pattern "zeros").
  { exists (memset buf 0 (Z.to_nat cs), outbuf), s, []. 
    rewrite app_nil_r. repeat split; try (now left). apply store_length. }
  destruct (String.eqb pattern "ones").
  { exists (memset buf 255 (Z.to_nat cs), outbuf), s, []. 
    rewrite app_nil_r. repeat split; try (now left). apply store_length. }
  destruct (String.eqb pattern "random").
  { do 2 eexists. exists []. unfold bind, rand_bytes, ret. 
    split; [reflexivity|]. simpl. rewrite app_nil_r.
    repeat split; try (now left). apply store_length. }
  destruct (String.eqb pattern "encrypted").
  2:{ exists (buf, outbuf), s, []. 
    rewrite app_nil_r. repeat split; now left. }
  unfold bind at 1 2 3 4. unfold rand_bytes.
  match goal with
  | |- context [encrypt_chunk ?e ?d ?l ?o ?k ?i ?st] =>
      destruct (encrypt_chunk_run e d l o k i st)
        as ([enc out1] & se & He & Htr & _ & _ & _ & _ & Hw & _); rewrite He
  end.
  cbn [trace n_write used_rand] in Htr, Hw.
  cbn [fst snd].
  destruct (0 <? enc).
  - do 2 eexists. eexists [_]. unfold bind, emit, ret. split; [reflexivity|].
    cbn [trace n_write record fst]. rewrite Htr, Hw.
    repeat split.
    + right. do 2 eexists. reflexivity.
    + unfold memcpy. now rewrite !store_length.
  - do 2 eexists. exists []. unfold ret. split; [reflexivity|].
    cbn [fst]. rewrite Htr, Hw, app_nil_r.
    repeat split; try (now left). now rewrite store_length.
Qed.

Lemma opened_app a b : opened (a ++ b) = opened a ++ opened b.
Proof.
  induction a as [|e a IH]; [reflexivity|].
  destruct e; simpl; rewrite IH; reflexivity.
Qed.

Lemma written_bufs_app a b :
  written_bufs (a ++ b) = written_bufs a ++ written_bufs b.
Proof.
  induction a as [|e a IH]; [reflexivity|].
  destruct e; simpl; rewrite IH; reflexivity.
Qed.

Lemma removed_app a b : removed (a ++ b) = removed a ++ removed b.
Proof.
  induction a as [|e a IH]; [reflexivity|].
  destruct e; simpl; rewrite IH; reflexivity.
Qed.

Lemma only_memcpy_removed tl : only_memcpy tl -> removed tl = [].
Proof. intros [->|(n & c & ->)]; reflexivity. Qed.

Lemma only_memcpy_opened tl : only_memcpy tl -> opened tl = [].
Proof. intros [->|(n & c & ->)]; reflexivity. Qed.

Lemma only_memcpy_written tl : only_memcpy tl -> written_bufs tl = [].
Proof. intros [->|(n & c & ->)]; reflexivity. Qed.

(** One turn of the loop, once the chunk has been generated. *)
Lemma write_loop_step fuel env fd pattern cs buf outbuf written s b s1 :
  generate_chunk env pattern cs buf outbuf s = Done b s1 ->
  write_loop (S fuel) env fd pattern cs buf outbuf written s =
    let w := sys_write env (n_write s1) in
    let s2 := used_write (record (EvWrite fd (fst b) cs w) s1) in
    if w <=? 0 then Done written s2
    else write_loop fuel env fd pattern cs (fst b) (snd b)
                    (cast_size_t (written + w)) s2.
Proof.
  intros H. cbn [write_loop]. unfold bind at 1. rewrite H.
  unfold bind, write. cbv zeta.
  destruct (sys_write env (n_write s1) <=? 0); reflexivity.
Qed.

Section LoopTrace.

Variables (env : Env) (fd : Z) (pattern : string) (cs : Z).
Variable P : list Z -> Prop.
Hypothesis generated :
  forall buf outbuf s b s',
    List.length buf = Z.to_nat cs ->
    generate_chunk env pattern cs buf outbuf s = Done b s' -> P (fst b).

(** Whatever the fuel, the loop adds only [memcpy] and [write] events, and
    every buffer written is one the generator produced. *)
Lemma write_loop_trace fuel :
  forall buf outbuf written s,
    List.length buf = Z.to_nat cs ->
    exists tl,
      trace (state_of (write_loop fuel env fd pattern cs buf outbuf written s))
        = trace s ++ tl /\
      opened tl = [] /\ removed tl = [] /\ Forall P (written_bufs tl).
Proof.
  induction fuel as [|fuel IH]; intros buf outbuf written s Hlen.
  - exists []. cbn. rewrite app_nil_r. auto.
  - destruct (generate_chunk_spec env pattern cs buf outbuf s)
      as (b & s1 & tl1 & Hg & Ht & Hm & Hw & Hl).
    rewrite (write_loop_step _ _ _ _ _ _ _ _ _ _ _ Hg). cbv zeta.
    pose proof (generated _ _ _ _ _ Hlen Hg) as HP.
    destruct (sys_write env (n_write s1) <=? 0).
    + eexists (tl1 ++ [_]). cbn. rewrite Ht, <- app_assoc.
      split; [reflexivity|].
      rewrite opened_app, removed_app, written_bufs_app,
        (only_memcpy_opened _ Hm), (only_memcpy_removed _ Hm),
        (only_memcpy_written _ Hm). cbn. auto.
    + destruct (IH (fst b) (snd b)
                   (cast_size_t (written + sys_write env (n_write s1)))
                   (used_write (record (EvWrite fd (fst b) cs
                                 (sys_write env (n_write s1))) s1)))
        as (tl & Htl & Ho & Hr & Hf); [congruence|].
      exists (tl1 ++ [EvWrite fd (fst b) cs (sys_write env (n_write s1))] ++ tl).
      rewrite Htl. cbn [trace used_write record]. rewrite Ht, <- !app_assoc.
      split; [reflexivity|].
      rewrite !opened_app, !removed_app, !written_bufs_app,
        (only_memcpy_opened _ Hm), (only_memcpy_removed _ Hm),
        (only_memcpy_written _ Hm). cbn.
      repeat split; try assumption. constructor; assumption.
Qed.

End LoopTrace.

(** The write loop never releases a block: it returns or is still
    running. *)
Lemma write_loop_defined env fd pattern cs fuel :
  forall buf outbuf written s s',
    write_loop fuel env fd pattern cs buf outbuf written s <> Undefined s'.
Proof.
  induction fuel as [|fuel IH]; intros buf outbuf written s s'.
  - discriminate.
  - destruct (generate_chunk_spec env pattern cs buf outbuf s)
      as (b & s1 & tl1 & Hg & _).
    rewrite (write_loop_step _ _ _ _ _ _ _ _ _ _ _ Hg). cbv zeta.
    destruct (sys_write env (n_write s1) <=? 0); [discriminate|apply IH].
Qed.

Lemma skipn_length_app {A} (l l' : list A) : skipn (List.length l) (l ++ l') = l'.
Proof. induction l as [|x l IH]; [reflexivity|exact IH]. Qed.

(** What follows the loop: the total is logged and the descriptor closed;
    then the program frees the buffers, which is undefined if the loop has
    copied past the end of one, and otherwise goes on to remove the
    file. *)
Lemma fill_and_reclaim_done fuel env fd pattern cs filename b o s w s3 tl :
  write_loop fuel env fd pattern cs b o 0 s = Done w s3 ->
  trace s3 = trace s ++ tl ->
  fill_and_reclaim fuel env fd pattern cs filename (List.length (trace s)) b o s
    = if existsb overrun tl then Undefined (closed_state fd w s3)
      else Done tt (reclaimed_state env fd filename w s3).
Proof.
  intros Hrun Ht. unfold fill_and_reclaim. unfold bind at 1. rewrite Hrun.
  assert (forall l, existsb overrun
            (skipn (List.length (trace s))
               ((trace s3 ++ [EvLog l]) ++ [EvClose fd]))
          = existsb overrun tl) as Hsk.
  { intros l. rewrite Ht, <- !app_assoc, skipn_length_app, existsb_app.
    cbn. apply orb_false_r. }
  unfold reclaimed_state, closed_state.
  unfold bind, LOG, close, emit, free, remove, ERR. cbv zeta.
  cbn [trace record]. rewrite Hsk.
  destruct (existsb overrun tl); [reflexivity|].
  cbn [trace record]. rewrite Hsk. cbn [n_remove record].
  destruct (sys_remove env (n_remove s3) =? 0); reflexivity.
Qed.

Lemma reclaimed_state_trace env fd filename w s :
  trace (reclaimed_state env fd filename w s)
    = trace s ++ reclaim_events env fd filename w s.
Proof.
  unfold reclaimed_state, closed_state, reclaim_events.
  cbn [trace record used_remove]. now rewrite <- !app_assoc.
Qed.

Lemma closed_state_trace fd w s :
  trace (closed_state fd w s)
    = trace s ++ [EvLog (MWrote (w / (1024 * 1024))); EvClose fd].
Proof. unfold closed_state. cbn [trace record]. now rewrite <- !app_assoc. Qed.

Lemma fill_and_reclaim_stuck fuel env fd pattern cs filename since b o s s3 :
  write_loop fuel env fd pattern cs b o 0 s = Stuck s3 ->
  fill_and_reclaim fuel env fd pattern cs filename since b o s = Stuck s3.
Proof.
  intros Hrun. unfold fill_and_reclaim. unfold bind at 1. now rewrite Hrun.
Qed.

(** An iteration, step by step. *)
Lemma iteration_unfold fuel env path p pat cs s :
  let filename := snprintf 256 (temp_name path p pat) in
  let pattern := nth (Z.to_nat pat) patterns ""%string in
  let fd := sys_open env (n_open s) in
  let s1 := used_open (record (EvOpen filename open_flags 384 fd)
                              (record (EvLog (MWriting pattern filename)) s)) in
  let s2 := used_malloc (used_malloc s1) in
  iteration fuel env path p pat cs s =
    if fd <? 0 then Done tt (record (EvErr MOpenFailed) s1)
    else if (malloc_ok env (n_malloc s) && malloc_ok env (S (n_malloc s)))%bool
    then fill_and_reclaim fuel env fd pattern cs filename
           (List.length (trace s2))
           (fresh_block env (n_malloc s) (Z.to_nat cs))
           (fresh_block env (S (n_malloc s)) (Z.to_nat (cast_size_t (cs + 32))))
           s2
    else Done tt (record (EvClose fd) (record (EvErr MAllocFailed) s2)).
Proof.
  cbv zeta. unfold iteration. fold open_flags.
  unfold bind at 1 2. unfold LOG, emit, open. cbv zeta.
  cbn [n_open record].
  destruct (sys_open env (n_open s) <? 0); [reflexivity|].
  unfold bind at 1 2 3. unfold malloc, here. cbv zeta.
  cbn [n_malloc used_malloc used_open record].
  assert (forall st : State,
            (ERR MAllocFailed ;;; close (sys_open env (n_open s)) ;;;
             free (List.length (trace st)) ;;; free (List.length (trace st))) st
            = Done tt (record (EvClose (sys_open env (n_open s)))
                              (record (EvErr MAllocFailed) st))) as Hfail.
  { intros st. unfold bind, ERR, close, emit, free. cbn [trace record].
    rewrite <- !app_assoc, skipn_length_app. cbn [app existsb overrun orb].
    cbn [trace record]. rewrite <- !app_assoc, skipn_length_app. reflexivity. }
  destruct (malloc_ok env (n_malloc s)), (malloc_ok env (S (n_malloc s)));
    cbn [andb]; try apply Hfail.
  reflexivity.
Qed.

(** The four ways an iteration can go: [open] fails; an allocation fails;
    the loop has returned (and then the buffers are freed, which is
    undefined after an overrun); the loop is still running. *)
Lemma iteration_cases fuel env path p pat cs s :
  let filename := snprintf 256 (temp_name path p pat) in
  let pattern := nth (Z.to_nat pat) patterns ""%string in
  let fd := sys_open env (n_open s) in
  let s1 := used_open (record (EvOpen filename open_flags 384 fd)
                              (record (EvLog (MWriting pattern filename)) s)) in
  let s2 := used_malloc (used_malloc s1) in
  let b := fresh_block env (n_malloc s) (Z.to_nat cs) in
  let o := fresh_block env (S (n_malloc s)) (Z.to_nat (cast_size_t (cs + 32))) in
  (fd < 0 /\
   iteration fuel env path p pat cs s = Done tt (record (EvErr MOpenFailed) s1))
  \/
  (0 <= fd /\
   (malloc_ok env (n_malloc s) && malloc_ok env (S (n_malloc s)))%bool = false /\
   iteration fuel env path p pat cs s
     = Done tt (record (EvClose fd) (record (EvErr MAllocFailed) s2)))
  \/
  (0 <= fd /\
   (malloc_ok env (n_malloc s) && malloc_ok env (S (n_malloc s)))%bool = true /\
   exists w s3 tl,
     write_loop fuel env fd pattern cs b o 0 s2 = Done w s3 /\
     trace s3 = trace s2 ++ tl /\
     iteration fuel env path p pat cs s
       = (if existsb overrun tl then Undefined (closed_state fd w s3)
          else Done tt (reclaimed_state env fd filename w s3)))
  \/
  (0 <= fd /\
   (malloc_ok env (n_malloc s) && malloc_ok env (S (n_malloc s)))%bool = true /\
   exists s3,
     write_loop fuel env fd pattern cs b o 0 s2 = Stuck s3 /\
     iteration fuel env path p pat cs s = Stuck s3).
Proof.
  cbv zeta. rewrite iteration_unfold. cbv zeta.
  destruct (Z.ltb_spec (sys_open env (n_open s)) 0) as [Hneg|Hfd]; [left; auto|].
  right.
  destruct (malloc_ok env (n_malloc s) && malloc_ok env (S (n_malloc s)))%bool;
    [right|left; auto].
  match goal with
  | |- context [write_loop fuel env ?fd ?pt cs ?b ?o 0 ?st] =>
      destruct (write_loop_trace env fd pt cs (fun _ => True)
                  (fun _ _ _ _ _ _ _ => I) fuel b o 0 st)
        as (tl & Htl & _); [apply fresh_block_length|];
      destruct (write_loop fuel env fd pt cs b o 0 st) as [w s3|s3|s3] eqn:Hrun
  end; cbn [state_of] in Htl.
  - left. split; [exact Hfd|]. split; [reflexivity|].
    exists w, s3, tl. split; [reflexivity|]. split; [exact Htl|].
    apply (fill_and_reclaim_done _ _ _ _ _ _ _ _ _ _ _ _ Hrun Htl).
  - right. split; [exact Hfd|]. split; [reflexivity|].
    exists s3. split; [reflexivity|]. apply fill_and_reclaim_stuck, Hrun.
  - exfalso. eapply write_loop_defined, Hrun.
Qed.

Section IterationTrace.

Variables (env : Env) (path : string) (p pat : Z) (cs : Z).
Variable P : list Z -> Prop.
Hypothesis generated :
  forall buf outbuf s b s',
    List.length buf = Z.to_nat cs ->
    generate_chunk env (nth (Z.to_nat pat) patterns ""%string) cs buf outbuf s
      = Done b s' ->
    P (fst b).

Lemma iteration_trace fuel s :
  exists tl,
    trace (state_of (iteration fuel env path p pat cs s))
      = trace s ++ iteration_head env path p pat s ++ tl /\
    opened tl = [] /\ Forall P (written_bufs tl).
Proof.
  unfold iteration_head.
  destruct (iteration_cases fuel env path p pat cs s)
    as [(_ & ->)|[(_ & _ & ->)|[(_ & _ & w & s3 & tl & Hrun & Htl & ->)
                               |(_ & _ & s3 & Hrun & ->)]]];
    cbv zeta.
  - exists [EvErr MOpenFailed].
    cbn [state_of trace record used_open]. rewrite <- !app_assoc. cbn. auto.
  - exists [EvErr MAllocFailed; EvClose (sys_open env (n_open s))].
    cbn [state_of trace record used_open used_malloc].
    rewrite <- !app_assoc. cbn. auto.
  - match type of Hrun with
    | write_loop fuel env ?fd ?pt cs ?b ?o 0 ?st = _ =>
        destruct (write_loop_trace env fd pt cs P generated fuel b o 0 st)
          as (tl' & Htl' & Ho & _ & Hf); [apply fresh_block_length|]
    end.
    rewrite Hrun in Htl'. cbn [state_of] in Htl'.
    rewrite Htl in Htl'. apply app_inv_head in Htl'. subst tl'.
    destruct (existsb overrun tl); cbn [state_of];
      [rewrite closed_state_trace|rewrite reclaimed_state_trace];
      eexists (tl ++ _); rewrite Htl;
      cbn [trace record used_open used_malloc];
      rewrite <- !app_assoc; cbn [app]; (split; [reflexivity|]);
      rewrite opened_app, written_bufs_app, Ho; unfold reclaim_events;
      [|destruct (sys_remove env (n_remove s3) =? 0)];
      cbn; rewrite ?app_nil_r; auto.
  - match type of Hrun with
    | write_loop fuel env ?fd ?pt cs ?b ?o 0 ?st = _ =>
        destruct (write_loop_trace env fd pt cs P generated fuel b o 0 st)
          as (tl' & Htl' & Ho & _ & Hf); [apply fresh_block_length|]
    end.
    rewrite Hrun in Htl'. cbn [state_of] in Htl'.
    exists tl'. cbn [state_of]. rewrite Htl'.
    cbn [trace record used_open used_malloc]. rewrite <- !app_assoc. cbn. auto.
Qed.

End IterationTrace.

(** ** Termination of the write loop *)

(** If some later [write] fails, the loop returns, with the same result for
    every large enough fuel. *)
Lemma write_loop_terminates env fd pattern cs :
  forall k buf outbuf written s,
    sys_write env (n_write s + k) <= 0 ->
    exists F w s',
      forall fuel, (F <= fuel)%nat ->
        write_loop fuel env fd pattern cs buf outbuf written s = Done w s'.
Proof.
  induction k as [|k IH]; intros buf outbuf written s Hk;
    destruct (generate_chunk_spec env pattern cs buf outbuf s)
      as (b & s1 & tl1 & Hg & _ & _ & Hw & _);
    destruct (sys_write env (n_write s1) <=? 0) eqn:E.
  1, 3: exists 1%nat; do 2 eexists; intros [|fuel] Hf; [lia|];
    rewrite (write_loop_step _ _ _ _ _ _ _ _ _ _ _ Hg); cbv zeta;
    rewrite E; reflexivity.
  - rewrite Nat.add_0_r, <- Hw in Hk. apply Z.leb_gt in E. lia.
  - destruct (IH (fst b) (snd b)
                (cast_size_t (written + sys_write env (n_write s1)))
                (used_write (record (EvWrite fd (fst b) cs
                              (sys_write env (n_write s1))) s1)))
      as (F & w & s' & HF).
    { cbn [n_write used_write record]. rewrite Hw.
      replace (S (n_write s) + k)%nat with (n_write s + S k)%nat by lia.
      exact Hk. }
    exists (S F), w, s'. intros [|fuel] Hf; [lia|].
    rewrite (write_loop_step _ _ _ _ _ _ _ _ _ _ _ Hg). cbv zeta.
    rewrite E. apply HF. lia.
Qed.

Lemma always_generated env pattern cs :
  forall (buf outbuf : list Z) (s : State) (b : list Z * list Z) (s' : State),
    List.length buf = Z.to_nat cs ->
    generate_chunk env pattern cs buf outbuf s = Done b s' -> True.
Proof. auto. Qed.

(** An iteration opens exactly one file, whatever the fuel. *)
Lemma iteration_opened fuel env path p pat cs s :
  opened (trace (state_of (iteration fuel env path p pat cs s)))
    = opened (trace s) ++ [snprintf 256 (temp_name path p pat)].
Proof.
  destruct (iteration_trace env path p pat cs (fun _ => True)
              (always_generated env _ cs) fuel s) as (tl & Ht & Ho & _).
  rewrite Ht, !opened_app, Ho. reflexivity.
Qed.

(** A failed encryption: [-1], nothing logged, no [rand], no [write]. *)
Lemma encrypt_chunk_failure env data len out key iv s :
  evp_failed (sys_evp env (n_evp s) key iv data (cast_int len)) = true ->
  exists out' s',
    encrypt_chunk env data len out key iv s = Done (-1, out') s' /\
    trace s' = trace s /\ n_rand s' = n_rand s /\
    n_evp s' = S (n_evp s) /\ n_write s' = n_write s.
Proof.
  unfold evp_failed, encrypt_chunk, bind, evp, EVP_CIPHER_CTX_new, ret.
  intros H.
  destruct (negb (ctx_ok _)); [do 2 eexists; split; [reflexivity|cbn; auto]|].
  destruct (negb (init_ret _ =? 1)); [do 2 eexists; split; [reflexivity|cbn; auto]|].
  cbv zeta.
  destruct (negb (update_ret _ =? 1)); [do 2 eexists; split; [reflexivity|cbn; auto]|].
  destruct (negb (final_ret _ =? 1)); [do 2 eexists; split; [reflexivity|cbn; auto]|].
  discriminate H.
Qed.

(** When nothing is copied back, generating a chunk adds no event. *)
Lemma generate_chunk_no_copy env pattern cs buf outbuf s :
  never_copies_back env pattern ->
  exists b s',
    generate_chunk env pattern cs buf outbuf s = Done b s' /\
    trace s' = trace s /\ n_write s' = n_write s.
Proof.
  intros Hno. unfold generate_chunk.
  destruct (String.eqb_spec pattern "zeros") as [->|_].
  { do 2 eexists. split; [reflexivity|auto]. }
  destruct (String.eqb_spec pattern "ones") as [->|_].
  { do 2 eexists. split; [reflexivity|auto]. }
  destruct (String.eqb_spec pattern "random") as [->|_].
  { do 2 eexists. unfold bind, rand_bytes, ret. split; [reflexivity|auto]. }
  destruct (String.eqb_spec pattern "encrypted") as [->|_].
  2:{ do 2 eexists. split; [reflexivity|auto]. }
  specialize (Hno eq_refl).
  unfold bind at 1 2 3 4. unfold rand_bytes.
  match goal with
  | |- context [encrypt_chunk env ?d cs outbuf ?k ?i ?st] =>
      destruct (encrypt_chunk_failure env d cs outbuf k i st)
        as (out' & se & He & Htr & _ & _ & Hw); [apply Hno|rewrite He]
  end.
  cbn [fst snd]. change (0 <? -1) with false. cbv iota.
  do 2 eexists. split; [reflexivity|]. rewrite Htr, Hw. auto.
Qed.

Lemma write_loop_no_copy env fd pattern cs fuel :
  never_copies_back env pattern ->
  forall buf outbuf written s,
    exists tl,
      trace (state_of (write_loop fuel env fd pattern cs buf outbuf written s))
        = trace s ++ tl /\
      existsb overrun tl = false.
Proof.
  intros Hno. induction fuel as [|fuel IH]; intros buf outbuf written s.
  - exists []. cbn. now rewrite app_nil_r.
  - destruct (generate_chunk_no_copy env pattern cs buf outbuf s Hno)
      as (b & s1 & Hg & Ht & Hw).
    rewrite (write_loop_step _ _ _ _ _ _ _ _ _ _ _ Hg). cbv zeta.
    destruct (sys_write env (n_write s1) <=? 0).
    + eexists [_]. cbn [state_of trace used_write record]. rewrite Ht. auto.
    + destruct (IH (fst b) (snd b)
                   (cast_size_t (written + sys_write env (n_write s1)))
                   (used_write (record (EvWrite fd (fst b) cs
                                 (sys_write env (n_write s1))) s1)))
        as (tl & Htl & Hov).
      exists (EvWrite fd (fst b) cs (sys_write env (n_write s1)) :: tl).
      rewrite Htl. cbn [trace used_write record]. rewrite Ht, <- app_assoc.
      split; [reflexivity|exact Hov].
Qed.

Lemma fill_and_reclaim_terminates env fd pattern cs filename b o st :
  never_copies_back env pattern ->
  disk_fills env ->
  exists F s',
    forall fuel, (F <= fuel)%nat ->
      fill_and_reclaim fuel env fd pattern cs filename
                       (List.length (trace st)) b o st = Done tt s'.
Proof.
  intros Hno Hfull.
  destruct (Hfull (n_write st)) as [k Hk].
  destruct (write_loop_terminates env fd pattern cs k b o 0 st Hk)
    as (F & w & s1 & HF).
  destruct (write_loop_no_copy env fd pattern cs F Hno b o 0 st)
    as (tl & Htl & Hov).
  rewrite (HF F (le_n F)) in Htl. cbn [state_of] in Htl.
  exists F, (reclaimed_state env fd filename w s1). intros fuel Hf.
  rewrite (fill_and_reclaim_done _ _ _ _ _ _ _ _ _ _ _ _ (HF fuel Hf) Htl).
  now rewrite Hov.
Qed.

Lemma iteration_terminates env path p pat cs s :
  never_copies_back env (nth (Z.to_nat pat) patterns ""%string) ->
  disk_fills env ->
  exists F s',
    forall fuel, (F <= fuel)%nat ->
      iteration fuel env path p pat cs s = Done tt s'.
Proof.
  intros Hno Hfull.
  assert (forall fuel, iteration fuel env path p pat cs s = _) as E
    by (intros fuel; apply iteration_unfold).
  cbv zeta in E.
  destruct (sys_open env (n_open s) <? 0).
  { exists 0%nat. eexists. intros fuel _. apply E. }
  destruct (malloc_ok env (n_malloc s) && malloc_ok env (S (n_malloc s)))%bool.
  2:{ exists 0%nat. eexists. intros fuel _. apply E. }
  match type of E with
  | forall fuel, _ = fill_and_reclaim fuel env ?fd ?pt cs ?fn _ ?b ?o ?st =>
      destruct (fill_and_reclaim_terminates env fd pt cs fn b o st Hno Hfull)
        as (F & s' & HF)
  end.
  exists F, s'. intros fuel Hf. rewrite E. apply HF, Hf.
Qed.

Lemma cipher_fails_never_copies env pattern :
  cipher_always_fails env -> never_copies_back env pattern.
Proof. intros H _. exact H. Qed.

(** ** The two [for] loops *)

Lemma range_from_length n i : List.length (range_from n i) = n.
Proof. revert i. induction n; intros; simpl; auto. Qed.

Lemma expected_files_length path passes :
  0 <= passes ->
  Z.of_nat (List.length (expected_files path passes)) = passes * 4.
Proof.
  intros H. unfold expected_files.
  assert (forall l : list Z,
    List.length (flat_map (fun p => map (fun pat => snprintf 256 (temp_name path p pat))
                         (range_from 4 0)) l) = (4 * List.length l)%nat) as E.
  { induction l as [|x l IH]; [reflexivity|].
    cbn [flat_map]. rewrite length_app, IH, length_map, range_from_length.
    cbn [List.length]. lia. }
  rewrite E, range_from_length. lia.
Qed.

Section ForTerminates.

Variable body : nat -> Z -> C unit.
Variable names : Z -> list string.
Hypothesis body_terminates :
  forall i s, exists F s',
    (forall fuel, (F <= fuel)%nat -> body fuel i s = Done tt s') /\
    opened (trace s') = opened (trace s) ++ names i.

Lemma for_upto_terminates n :
  forall i s, exists F s',
    (forall fuel, (F <= fuel)%nat ->
       for_upto n i (body fuel) s = Done tt s') /\
    opened (trace s') = opened (trace s) ++ flat_map names (range_from n i).
Proof.
  induction n as [|n IH]; intros i s.
  - exists 0%nat, s. cbn. rewrite app_nil_r. auto.
  - destruct (body_terminates i s) as (F1 & s1 & H1 & O1).
    destruct (IH (i + 1) s1) as (F2 & s2 & H2 & O2).
    exists (Nat.max F1 F2), s2. split.
    + intros fuel Hf. cbn [for_upto]. unfold bind.
      rewrite H1 by lia. apply H2. lia.
    + rewrite O2, O1, <- app_assoc. reflexivity.
Qed.

End ForTerminates.

Lemma pass_terminates env path passes cs p s :
  cipher_always_fails env ->
  disk_fills env ->
  exists F s',
    (forall fuel, (F <= fuel)%nat ->
       pass fuel env path passes cs p s = Done tt s') /\
    opened (trace s') =
      opened (trace s) ++
      map (fun pat => snprintf 256 (temp_name path p pat)) (range_from 4 0).
Proof.
  intros Hfail Hfull. unfold pass, for_int.
  destruct (for_upto_terminates
              (fun fuel pat => iteration fuel env path p pat cs)
              (fun pat => [snprintf 256 (temp_name path p pat)])) 
    with (n := 4%nat) (i := 0) (s := record (EvLog (MPass (p + 1) passes)) s)
    as (F & s' & HF & HO).
  { intros i s0.
    destruct (iteration_terminates env path p i cs s0
                (cipher_fails_never_copies env _ Hfail) Hfull)
      as (F & s' & HF).
    exists F, s'. split; [exact HF|].
    rewrite <- (iteration_opened F env path p i cs s0), HF by lia.
    reflexivity. }
  exists F, s'. split.
  - intros fuel Hf. unfold bind, LOG, emit. apply HF, Hf.
  - rewrite HO. cbn [trace record]. rewrite opened_app. cbn.
    rewrite app_nil_r. reflexivity.
Qed.

(** C3 (amended).  For every pass count P >= 0, a run whose free-space probe
    succeeds, in which no encryption succeeds (so nothing is ever copied back
    into the fill buffer) and whose disk eventually refuses a write, returns,
    and it has then started exactly P * 4 fill iterations: it has tried to
    create the temp files of pass 0 patterns 0..3, pass 1 patterns 0..3, and
    so on, in that order and no other. *)
Theorem run_attempts_every_iteration env path passes cs s :
  0 <= passes ->
  sys_statvfs env path <> None ->
  cipher_always_fails env ->
  disk_fills env ->
  exists F s',
    (forall fuel, (F <= fuel)%nat ->
       wipe_free_space fuel env path passes cs s = Done tt s') /\
    opened (trace s') = opened (trace s) ++ expected_files path passes /\
    Z.of_nat (List.length (expected_files path passes)) = passes * 4.
Proof.
  intros Hp Hprobe Hfail Hfull. unfold wipe_free_space.
  destruct (sys_statvfs env path) as [[bsize bavail]|]; [clear Hprobe|congruence].
  set (s0 := record (EvLog (MDetected (cast_size_t (bsize * bavail) / (1024 * 1024)))) s).
  destruct (for_upto_terminates
              (fun fuel => pass fuel env path passes cs)
              (fun p => map (fun pat => snprintf 256 (temp_name path p pat))
                            (range_from 4 0))
              (fun p s1 => pass_terminates env path passes cs p s1 Hfail Hfull)
              (Z.to_nat (passes - 0)) 0 s0)
    as (F & s' & HF & HO).
  exists F, (record (EvLog MComplete) s'). split; [|split].
  - intros fuel Hf. unfold bind at 1 2. unfold LOG at 1. unfold emit at 1.
    fold s0. unfold for_int. rewrite (HF fuel Hf). reflexivity.
  - cbn [trace record]. rewrite opened_app, HO. subst s0.
    cbn [trace record]. rewrite opened_app. cbn. rewrite !app_nil_r.
    unfold expected_files. now rewrite Z.sub_0_r.
  - apply expected_files_length, Hp.
Qed.

Lemma run_attempts_every_iteration_witness :
  exists F s',
    (forall fuel, (F <= fuel)%nat ->
       wipe_free_space fuel (env_const true 3 true evp_fail [] 0) "/mnt" 2 4
                       initial_state = Done tt s') /\
    opened (trace s') = opened (trace initial_state) ++ expected_files "/mnt" 2 /\
    Z.of_nat (List.length (expected_files "/mnt" 2)) = 2 * 4.
Proof.
  apply run_attempts_every_iteration.
  - lia.
  - discriminate.
  - intros n key iv data inl. reflexivity.
  - intros n. exists 0%nat. simpl. destruct (n + 0)%nat; simpl; lia.
Defined.

(** C3 as stated fails: two passes are a valid pass count and the invocation
    is well formed, yet when the free-space probe fails the run returns
    having started none of the 2 * 4 iterations. *)
Lemma run_attempts_counterexample :
  sys_statvfs (env_const false 3 true evp_fail [] 0) "/mnt" = None /\
  finished (wipe_free_space 5 (env_const false 3 true evp_fail [] 0)
                            "/mnt" 2 4 initial_state) = true /\
  Z.of_nat (List.length (opened (trace (state_of
     (wipe_free_space 5 (env_const false 3 true evp_fail [] 0)
                      "/mnt" 2 4 initial_state)))))
  <> 2 * 4.
Proof.
  split; [reflexivity|]. split; [reflexivity|]. vm_compute. discriminate.
Qed.

(** ** Fixed patterns *)

Lemma memset_full buf c n :
  List.length buf = n -> memset buf c n = repeat (c mod 256) n.
Proof.
  intros H. unfold memset. apply store_full. now rewrite repeat_length.
Qed.

Lemma generate_zeros env cs buf outbuf s b s' :
  List.length buf = Z.to_nat cs ->
  generate_chunk env "zeros" cs buf outbuf s = Done b s' ->
  fst b = repeat 0 (Z.to_nat cs).
Proof.
  intros Hlen H. cbn in H. injection H as <- _.
  cbn [fst]. now rewrite memset_full.
Qed.

Lemma generate_ones env cs buf outbuf s b s' :
  List.length buf = Z.to_nat cs ->
  generate_chunk env "ones" cs buf outbuf s = Done b s' ->
  fst b = repeat 255 (Z.to_nat cs).
Proof.
  intros Hlen H. cbn in H. injection H as <- _.
  cbn [fst]. now rewrite memset_full.
Qed.

Lemma repeat_all_bytes c n : all_bytes c n (repeat c n).
Proof.
  split; [apply repeat_length|].
  apply Forall_forall. intros x Hx. now apply repeat_spec in Hx.
Qed.

(** C7.  In an iteration of the Zeros pattern (index 0) every buffer handed
    to [write] is [chunk_size] bytes all equal to 0x00, and in an iteration
    of the Ones pattern (index 1) all equal to 0xFF; this holds for every
    environment and at every point of the iteration. *)
Theorem fixed_pattern_buffers fuel env path p cs s :
  (exists bufs,
     written_bufs (trace (state_of (iteration fuel env path p 0 cs s)))
       = written_bufs (trace s) ++ bufs /\
     Forall (all_bytes 0 (Z.to_nat cs)) bufs) /\
  (exists bufs,
     written_bufs (trace (state_of (iteration fuel env path p 1 cs s)))
       = written_bufs (trace s) ++ bufs /\
     Forall (all_bytes 255 (Z.to_nat cs)) bufs).
Proof.
  split.
  - destruct (iteration_trace env path p 0 cs (all_bytes 0 (Z.to_nat cs)))
      with (fuel := fuel) (s := s) as (tl & Ht & _ & Hf).
    { intros buf outbuf s0 b s' Hlen Hg.
      rewrite (generate_zeros env cs buf outbuf s0 b s' Hlen Hg).
      apply repeat_all_bytes. }
    exists (written_bufs tl). rewrite Ht, !written_bufs_app. cbn. auto.
  - destruct (iteration_trace env path p 1 cs (all_bytes 255 (Z.to_nat cs)))
      with (fuel := fuel) (s := s) as (tl & Ht & _ & Hf).
    { intros buf outbuf s0 b s' Hlen Hg.
      rewrite (generate_ones env cs buf outbuf s0 b s' Hlen Hg).
      apply repeat_all_bytes. }
    exists (written_bufs tl). rewrite Ht, !written_bufs_app. cbn. auto.
Qed.

(** The buffers are really written: a Zeros iteration on a disk taking two
    chunks of four bytes. *)
Example zeros_iteration_run :
  written_bufs (trace (state_of
    (iteration 5 (env_const true 3 true evp_fail [4; 4] 0) "/mnt" 0 0 4
               initial_state)))
  = [[0; 0; 0; 0]; [0; 0; 0; 0]; [0; 0; 0; 0]].
Proof. reflexivity. Qed.

(** ** Temp file name *)

Lemma substring_whole s n :
  (String.length s <= n)%nat -> substring 0 n s = s.
Proof.
  revert n. induction s as [|c s IH]; intros [|n] H; cbn in *;
    try reflexivity; try lia.
  f_equal. apply IH. lia.
Qed.

Lemma snprintf_fits size s :
  (String.length s < size)%nat -> snprintf size s = s.
Proof. intros H. unfold snprintf. apply substring_whole. lia. Qed.

Lemma open_flags_value :
  open_flags = 577 /\
  Z.land open_flags O_CREAT = O_CREAT /\
  Z.land open_flags O_WRONLY = O_WRONLY /\
  Z.land open_flags O_TRUNC = O_TRUNC /\
  Z.land open_flags O_EXCL = 0.
Proof. repeat split. Qed.

(** Whatever the length of the target, the name used is the first 255
    characters of the formatted path. *)
Lemma iteration_opens_truncated fuel env path p pat cs s :
  exists tl,
    trace (state_of (iteration fuel env path p pat cs s))
      = trace s ++
        [EvLog (MWriting (nth (Z.to_nat pat) patterns ""%string)
                         (substring 0 255 (temp_name path p pat)));
         EvOpen (substring 0 255 (temp_name path p pat)) open_flags 384
                (sys_open env (n_open s))] ++ tl /\
    opened tl = [].
Proof.
  destruct (iteration_trace env path p pat cs (fun _ => True)
              (always_generated env _ cs) fuel s) as (tl & Ht & Ho & _).
  exists tl. split; [exact Ht|exact Ho].
Qed.

(** C9 (amended).  For every iteration with pass index p and pattern index
    pat whose formatted name <target>/shred_temp_<p>_<pat>.dat has at most
    255 characters, the first thing the iteration does to the filesystem is
    to open exactly that path, and it opens no other; the flags are
    O_CREAT | O_WRONLY | O_TRUNC (create, write-only, truncate; O_EXCL is not
    among them) and the mode is 0600. *)
Theorem temp_file_path_and_mode fuel env path p pat cs s :
  (String.length (temp_name path p pat) <= 255)%nat ->
  exists tl,
    trace (state_of (iteration fuel env path p pat cs s))
      = trace s ++
        [EvLog (MWriting (nth (Z.to_nat pat) patterns ""%string)
                         (temp_name path p pat));
         EvOpen (temp_name path p pat)
                (Z.lor (Z.lor O_CREAT O_WRONLY) O_TRUNC) 384
                (sys_open env (n_open s))] ++ tl /\
    opened tl = [] /\
    Z.land (Z.lor (Z.lor O_CREAT O_WRONLY) O_TRUNC) O_EXCL = 0 /\
    temp_name path p pat
      = (path ++ "/shred_temp_" ++ fmt_d p ++ "_" ++ fmt_d pat ++ ".dat")%string.
Proof.
  intros Hlen.
  destruct (iteration_opens_truncated fuel env path p pat cs s)
    as (tl & Ht & Ho).
  rewrite (substring_whole _ 255 Hlen) in Ht.
  exists tl. repeat split; assumption.
Qed.

Lemma temp_file_path_and_mode_witness :
  exists tl,
    trace (state_of (iteration 3 (env_const true 3 true evp_fail [4] 0)
                               "/mnt" 2 3 4 initial_state))
      = [] ++
        [EvLog (MWriting "encrypted" "/mnt/shred_temp_2_3.dat");
         EvOpen "/mnt/shred_temp_2_3.dat" 577 384 3] ++ tl /\
    opened tl = [] /\
    Z.land 577 128 = 0 /\
    temp_name "/mnt" 2 3 = "/mnt/shred_temp_2_3.dat"%string.
Proof.
  apply (temp_file_path_and_mode 3 (env_const true 3 true evp_fail [4] 0)
           "/mnt" 2 3 4 initial_state).
  vm_compute. lia.
Defined.

(** C9 as stated fails for a long target: with a target directory of 250
    characters the formatted name has 269, and the file opened is not at
    that path. *)
Lemma temp_file_path_counterexample :
  opened (trace (state_of
    (iteration 1 (env_const true 3 true evp_fail [] 0) long_target 0 0 4
               initial_state)))
  <> [temp_name long_target 0 0].
Proof.
  intros H.
  apply (f_equal (map String.length)) in H.
  vm_compute in H. discriminate H.
Qed.

(** ** Counting the bytes written *)

Lemma write_loop_counts env fd pattern cs :
  forall K buf outbuf written s fuel,
    0 < cs ->
    0 <= written ->
    written + Z.of_nat K * cs <= SIZE_MAX ->
    (forall i, (i < K)%nat -> sys_write env (n_write s + i) = cs) ->
    sys_write env (n_write s + K) <= 0 ->
    (K < fuel)%nat ->
    exists s',
      write_loop fuel env fd pattern cs buf outbuf written s
        = Done (written + Z.of_nat K * cs) s' /\
      n_write s' = (n_write s + K + 1)%nat.
Proof.
  induction K as [|K IH]; intros buf outbuf written s fuel Hcs Hw0 Hmax Hok Hfail Hfuel;
    (destruct fuel as [|fuel]; [lia|]);
    destruct (generate_chunk_spec env pattern cs buf outbuf s)
      as (b & s1 & tl1 & Hg & _ & _ & Hw & _);
    rewrite (write_loop_step _ _ _ _ _ _ _ _ _ _ _ Hg); cbv zeta; rewrite Hw.
  - rewrite Nat.add_0_r in Hfail.
    destruct (Z.leb_spec (sys_write env (n_write s)) 0) as [_|Hgt]; [|lia].
    eexists. split; [f_equal; lia|].
    cbn [n_write used_write record]. lia.
  - pose proof (Hok 0%nat ltac:(lia)) as H0. rewrite Nat.add_0_r in H0.
    rewrite H0.
    destruct (Z.leb_spec cs 0) as [Hle|_]; [lia|].
    rewrite cast_size_t_small by lia.
    destruct (IH (fst b) (snd b) (written + cs)
                 (used_write (record (EvWrite fd (fst b) cs cs) s1)) fuel)
      as (s' & Hrun & Hn); try lia.
    + intros i Hi. cbn [n_write used_write record]. rewrite Hw.
      replace (S (n_write s) + i)%nat with (n_write s + S i)%nat by lia.
      apply Hok. lia.
    + cbn [n_write used_write record]. rewrite Hw.
      replace (S (n_write s) + K)%nat with (n_write s + S K)%nat by lia.
      exact Hfail.
    + exists s'. split.
      * rewrite Hrun. f_equal. lia.
      * rewrite Hn. cbn [n_write used_write record]. lia.
Qed.

(** X17.  Exhaustion is the expected end of the loop: in an iteration that
    copies nothing back into the fill buffer (any pattern but Encrypted, or
    Encrypted with a cipher that fails), if the next K calls of [write] each
    return [chunk_size] and the one after returns zero or a negative value,
    the write loop started with [written = 0] returns with
    [written = K * chunk_size], having issued exactly K + 1 writes, and the
    iteration goes on to report the total, close the descriptor and ask for
    the removal of the file, and itself returns. *)
Theorem exhaustion_ends_iteration
    env fd pattern cs (K : nat) filename buf outbuf s fuel :
  never_copies_back env pattern ->
  0 < cs ->
  Z.of_nat K * cs <= SIZE_MAX ->
  (forall i, (i < K)%nat -> sys_write env (n_write s + i) = cs) ->
  sys_write env (n_write s + K) <= 0 ->
  (K < fuel)%nat ->
  exists s1,
    write_loop fuel env fd pattern cs buf outbuf 0 s
      = Done (Z.of_nat K * cs) s1 /\
    n_write s1 = (n_write s + K + 1)%nat /\
    exists s2 m,
      fill_and_reclaim fuel env fd pattern cs filename
                       (List.length (trace s)) buf outbuf s
        = Done tt s2 /\
      trace s2 = trace s1 ++
                 [EvLog (MWrote (Z.of_nat K * cs / (1024 * 1024)));
                  EvClose fd;
                  EvRemove filename (sys_remove env (n_remove s1));
                  m].
Proof.
  intros Hno Hcs Hmax Hok Hfail Hfuel.
  destruct (write_loop_counts env fd pattern cs K buf outbuf 0 s fuel)
    as (s1 & Hrun & Hn); try assumption; try lia.
  rewrite Z.add_0_l in Hrun.
  exists s1. split; [exact Hrun|]. split; [exact Hn|].
  destruct (write_loop_no_copy env fd pattern cs fuel Hno buf outbuf 0 s)
    as (tl & Htl & Hov).
  rewrite Hrun in Htl. cbn [state_of] in Htl.
  rewrite (fill_and_reclaim_done _ _ _ _ _ _ _ _ _ _ _ _ Hrun Htl), Hov.
  do 2 eexists. split; [reflexivity|].
  rewrite reclaimed_state_trace. reflexivity.
Qed.

Lemma exhaustion_ends_iteration_witness :
  exists s1,
    write_loop 4 (env_const true 3 true evp_fail [4; 4; 4; -1] 0) 3
               "random" 4 [0; 0; 0; 0] [] 0 initial_state
      = Done (Z.of_nat 3 * 4) s1 /\
    n_write s1 = (n_write initial_state + 3 + 1)%nat /\
    exists s2 m,
      fill_and_reclaim 4 (env_const true 3 true evp_fail [4; 4; 4; -1] 0) 3
                       "random" 4 "/mnt/shred_temp_0_2.dat"
                       (List.length (trace initial_state)) [0; 0; 0; 0] []
                       initial_state
        = Done tt s2 /\
      trace s2 = trace s1 ++
                 [EvLog (MWrote (Z.of_nat 3 * 4 / (1024 * 1024)));
                  EvClose 3;
                  EvRemove "/mnt/shred_temp_0_2.dat"
                    (sys_remove (env_const true 3 true evp_fail [4; 4; 4; -1] 0)
                                (n_remove s1));
                  m].
Proof.
  apply exhaustion_ends_iteration.
  - intros _ n key iv data inl. reflexivity.
  - lia.
  - vm_compute. discriminate.
  - intros [|[|[|i]]] Hi; try reflexivity. lia.
  - vm_compute. discriminate.
  - lia.
Defined.



(** ** The Encrypted pattern *)

Lemma encrypt_chunk_success env data len out key iv s :
  - 2 ^ 31 <= len <= INT_MAX ->
  evp_success (sys_evp env (n_evp s) key iv data len) ->
  exists out',
    encrypt_chunk env data len out key iv s
      = Done (cast_int
                (Z.of_nat (List.length
                             (update_out (sys_evp env (n_evp s) key iv data len)))
                 + Z.of_nat (List.length
                             (final_out (sys_evp env (n_evp s) key iv data len)))),
              out')
             (ctx_released (ctx_acquired (used_evp s))).
Proof.
  intros Hlen (H1 & H2 & H3 & H4).
  unfold encrypt_chunk, bind, evp, EVP_CIPHER_CTX_new, EVP_CIPHER_CTX_free, ret.
  rewrite (cast_int_small len Hlen).
  rewrite H1, H2, H3, H4. cbn [negb Z.eqb Pos.eqb]. cbv zeta.
  eexists. reflexivity.
Qed.

Lemma generate_encrypted_unfold env cs buf outbuf s :
  generate_chunk env "encrypted" cs buf outbuf s =
    (r <- rand_bytes env (Z.to_nat cs) ;;
     let buf1 := store buf 0 r in
     key <- rand_bytes env 32 ;;
     iv <- rand_bytes env 16 ;;
     e <- encrypt_chunk env buf1 cs outbuf key iv ;;
     let enc_size := fst e in
     let outbuf1 := snd e in
     if 0 <? enc_size then
       emit (EvMemcpy enc_size (Z.of_nat (List.length buf1))) ;;;
       ret (memcpy buf1 outbuf1 (Z.to_nat enc_size), outbuf1)
     else ret (buf1, outbuf1)) s.
Proof. reflexivity. Qed.

(** With the output lengths of a padded CBC encryption the copy back is
    longer than the fill buffer. *)
Lemma generate_encrypted_padded env cs buf outbuf s :
  0 < cs <= INT_MAX - 16 ->
  List.length buf = Z.to_nat cs ->
  (forall key iv data,
     evp_success (sys_evp env (n_evp s) key iv data cs) /\
     pkcs_lengths (sys_evp env (n_evp s) key iv data cs) cs) ->
  exists b s',
    generate_chunk env "encrypted" cs buf outbuf s = Done b s' /\
    trace s' = trace s ++ [EvMemcpy (16 * (cs / 16) + 16) cs] /\
    cs < 16 * (cs / 16) + 16.
Proof.
  intros Hcs Hlen Hevp.
  assert (cs < 16 * (cs / 16) + 16) as Hover.
  { pose proof (Z.mod_pos_bound cs 16 ltac:(lia)).
    pose proof (Z.div_mod cs 16 ltac:(lia)). lia. }
  assert (16 * (cs / 16) + 16 <= INT_MAX) as Hfit.
  { pose proof (Z.mod_pos_bound cs 16 ltac:(lia)).
    pose proof (Z.div_mod cs 16 ltac:(lia)). lia. }
  rewrite generate_encrypted_unfold.
  unfold bind at 1 2 3 4. unfold rand_bytes. cbv zeta.
  match goal with
  | |- context [encrypt_chunk env ?d cs outbuf ?k ?i ?st] =>
      destruct (Hevp k i d) as (Hok & L1 & L2);
      destruct (encrypt_chunk_success env d cs outbuf k i st) as [out' He];
      [unfold INT_MAX in *; lia | exact Hok | rewrite He]
  end.
  cbn [n_evp used_rand fst snd]. rewrite L1, L2.
  rewrite (cast_int_small (16 * (cs / 16) + 16))
    by (unfold INT_MAX in *; lia).
  destruct (Z.ltb_spec 0 (16 * (cs / 16) + 16)) as [_|Hneg]; [|lia].
  do 2 eexists. unfold bind, emit, ret. split; [reflexivity|].
  cbn [trace record used_evp used_rand ctx_acquired ctx_released].
  rewrite store_length, Hlen, Z2Nat.id by lia.
  split; [reflexivity|exact Hover].
Qed.

(** C1 (the code breaks it).  Under the Encrypted pattern, whenever the
    cipher succeeds with the output lengths of a padded CBC encryption, the
    [memcpy] back into the fill buffer is asked to copy
    [16 * (chunk_size / 16) + 16] bytes, which is more than the
    [chunk_size] bytes the buffer was allocated with. *)
Theorem encrypted_copy_exceeds_buffer env cs buf outbuf s :
  0 < cs <= INT_MAX - 16 ->
  List.length buf = Z.to_nat cs ->
  (forall key iv data,
     evp_success (sys_evp env (n_evp s) key iv data cs) /\
     pkcs_lengths (sys_evp env (n_evp s) key iv data cs) cs) ->
  exists b s',
    generate_chunk env "encrypted" cs buf outbuf s = Done b s' /\
    trace s' = trace s ++ [EvMemcpy (16 * (cs / 16) + 16) cs] /\
    cs < 16 * (cs / 16) + 16.
Proof. exact (generate_encrypted_padded env cs buf outbuf s). Qed.

Lemma encrypted_copy_exceeds_buffer_witness :
  exists b s',
    generate_chunk (env_pkcs []) "encrypted" 20 (repeat 0 20) (repeat 0 52)
                   initial_state = Done b s' /\
    trace s' = trace initial_state ++ [EvMemcpy (16 * (20 / 16) + 16) 20] /\
    20 < 16 * (20 / 16) + 16.
Proof.
  apply encrypted_copy_exceeds_buffer.
  - vm_compute. split; [reflexivity | discriminate].
  - reflexivity.
  - intros key iv data. vm_compute. repeat split.
Defined.

(** The same on the whole program: one pass with 4-byte chunks; in the
    Encrypted iteration 16 bytes are copied into the 4-byte buffer, and the
    iteration does not get past the release of that buffer: the file is
    closed and never removed. *)
Example encrypted_iteration_run :
  undefined (iteration 3 (env_pkcs [4]) "/mnt" 0 3 4 initial_state) = true /\
  trace (state_of (iteration 3 (env_pkcs [4]) "/mnt" 0 3 4 initial_state))
    = [EvLog (MWriting "encrypted" "/mnt/shred_temp_0_3.dat");
       EvOpen "/mnt/shred_temp_0_3.dat" 577 384 3;
       EvMemcpy 16 4; EvWrite 3 [9; 9; 9; 9] 4 4;
       EvMemcpy 16 4; EvWrite 3 [9; 9; 9; 9] 4 0;
       EvLog (MWrote 0); EvClose 3].
Proof. split; vm_compute; reflexivity. Qed.

(** At the end of the loop the overrun makes the release of the buffer
    undefined: the iteration stops there, after the [close] and before the
    [remove]. *)
Lemma write_loop_overruns env fd cs fuel buf outbuf written s :
  0 < cs <= INT_MAX - 16 ->
  List.length buf = Z.to_nat cs ->
  cipher_always_pads env cs ->
  exists tl,
    trace (state_of (write_loop (S fuel) env fd "encrypted"%string cs
                                buf outbuf written s))
      = trace s ++ tl /\
    existsb overrun tl = true /\
    removed tl = [].
Proof.
  intros Hcs Hlen Hpads.
  destruct (generate_encrypted_padded env cs buf outbuf s Hcs Hlen
              (fun key iv data => Hpads (n_evp s) key iv data))
    as (b & s1 & Hg & Ht & Hover).
  destruct (write_loop_trace env fd "encrypted"%string cs (fun _ => True)
              (always_generated env _ cs) fuel (fst b) (snd b)
              (cast_size_t (written + sys_write env (n_write s1)))
              (used_write (record (EvWrite fd (fst b) cs
                                     (sys_write env (n_write s1))) s1)))
    as (tl & Htl & _ & Hr & _).
  { pose proof (generate_chunk_spec env "encrypted" cs buf outbuf s)
      as (b' & s1' & tl1 & Hg' & _ & _ & _ & Hl).
    rewrite Hg in Hg'. injection Hg' as <- <-. now rewrite Hl. }
  rewrite (write_loop_step _ _ _ _ _ _ _ _ _ _ _ Hg). cbv zeta.
  assert (overrun (EvMemcpy (16 * (cs / 16) + 16) cs) = true) as Hov.
  { cbn. apply Z.ltb_lt. exact Hover. }
  destruct (sys_write env (n_write s1) <=? 0).
  - eexists [_; _]. cbn [state_of trace used_write record].
    rewrite Ht, <- app_assoc. split; [reflexivity|].
    split; [cbn [existsb]; now rewrite Hov|reflexivity].
  - eexists (_ :: _ :: tl). rewrite Htl. cbn [trace used_write record].
    rewrite Ht, <- !app_assoc. split; [reflexivity|].
    split; [cbn [existsb]; now rewrite Hov|exact Hr].
Qed.

(** C8 (the code breaks it).  In an Encrypted iteration whose cipher works,
    with the next K calls of [write] each returning [chunk_size] and the one
    after returning zero or a negative value, the write loop does stop at
    the failed write with [written = K * chunk_size] after K + 1 writes, but
    every chunk has been copied back past the end of the fill buffer: the
    iteration then logs the total and closes the descriptor, and the release
    of the overrun buffer is undefined; it does not return, and the temp
    file is not removed. *)
Theorem exhaustion_after_overrun
    env fd cs (K : nat) filename buf outbuf s fuel :
  0 < cs <= INT_MAX - 16 ->
  List.length buf = Z.to_nat cs ->
  cipher_always_pads env cs ->
  Z.of_nat K * cs <= SIZE_MAX ->
  (forall i, (i < K)%nat -> sys_write env (n_write s + i) = cs) ->
  sys_write env (n_write s + K) <= 0 ->
  (K < fuel)%nat ->
  exists s1,
    write_loop fuel env fd "encrypted" cs buf outbuf 0 s
      = Done (Z.of_nat K * cs) s1 /\
    n_write s1 = (n_write s + K + 1)%nat /\
    fill_and_reclaim fuel env fd "encrypted" cs filename
                     (List.length (trace s)) buf outbuf s
      = Undefined (closed_state fd (Z.of_nat K * cs) s1) /\
    removed (trace (closed_state fd (Z.of_nat K * cs) s1)) = removed (trace s).
Proof.
  intros Hcs Hlen Hpads Hmax Hok Hfail Hfuel.
  destruct (write_loop_counts env fd "encrypted" cs K buf outbuf 0 s fuel)
    as (s1 & Hrun & Hn); try assumption; try lia.
  rewrite Z.add_0_l in Hrun.
  exists s1. split; [exact Hrun|]. split; [exact Hn|].
  destruct fuel as [|fuel]; [lia|].
  destruct (write_loop_overruns env fd cs fuel buf outbuf 0 s Hcs Hlen Hpads)
    as (tl & Htl & Hov & Hr).
  rewrite Hrun in Htl. cbn [state_of] in Htl.
  rewrite (fill_and_reclaim_done _ _ _ _ _ _ _ _ _ _ _ _ Hrun Htl), Hov.
  split; [reflexivity|].
  rewrite closed_state_trace, Htl, !removed_app, Hr. cbn.
  now rewrite !app_nil_r.
Qed.

Lemma exhaustion_after_overrun_witness :
  exists s1,
    write_loop 3 (env_pkcs [20; 20; -1]) 3 "encrypted" 20
               (repeat 0 20) (repeat 0 52) 0 initial_state
      = Done (Z.of_nat 2 * 20) s1 /\
    n_write s1 = (n_write initial_state + 2 + 1)%nat /\
    fill_and_reclaim 3 (env_pkcs [20; 20; -1]) 3 "encrypted" 20
                     "/mnt/shred_temp_0_3.dat"
                     (List.length (trace initial_state))
                     (repeat 0 20) (repeat 0 52) initial_state
      = Undefined (closed_state 3 (Z.of_nat 2 * 20) s1) /\
    removed (trace (closed_state 3 (Z.of_nat 2 * 20) s1))
      = removed (trace initial_state).
Proof.
  apply exhaustion_after_overrun.
  - vm_compute. split; [reflexivity | discriminate].
  - reflexivity.
  - intros n key iv data. vm_compute. repeat split.
  - vm_compute. discriminate.
  - intros [|[|i]] Hi; try reflexivity. lia.
  - vm_compute. discriminate.
  - lia.
Defined.

(** C5 (amended).  Under the Encrypted pattern, if the cipher fails for a
    chunk, nothing is copied back: the buffer holds the random bytes it was
    filled with, and that buffer is still handed to [write], in full.  The
    loop then goes on to the next chunk if that write returned a positive
    count, and ends in the usual way if it did not; the cipher failure
    aborts neither the iteration nor the run. *)
Theorem cipher_failure_writes_random_bytes
    fuel env fd cs buf outbuf written s :
  List.length buf = Z.to_nat cs ->
  (forall key iv data inl,
     evp_failed (sys_evp env (n_evp s) key iv data inl) = true) ->
  exists outbuf' s2,
    trace s2 = trace s ++
               [EvWrite fd (rand_block env (n_rand s) (Z.to_nat cs)) cs
                        (sys_write env (n_write s))] /\
    n_write s2 = S (n_write s) /\
    write_loop (S fuel) env fd "encrypted" cs buf outbuf written s
      = if sys_write env (n_write s) <=? 0 then Done written s2
        else write_loop fuel env fd "encrypted" cs
                        (rand_block env (n_rand s) (Z.to_nat cs)) outbuf'
                        (cast_size_t (written + sys_write env (n_write s))) s2.
Proof.
  intros Hlen Hfail.
  assert (exists outbuf' s1,
            generate_chunk env "encrypted" cs buf outbuf s
              = Done (rand_block env (n_rand s) (Z.to_nat cs), outbuf') s1 /\
            trace s1 = trace s /\ n_write s1 = n_write s)
    as (outbuf' & s1 & Hg & Ht & Hn).
  { rewrite generate_encrypted_unfold.
    unfold bind at 1 2 3 4. unfold rand_bytes. cbv zeta.
    match goal with
    | |- context [encrypt_chunk env ?d cs outbuf ?k ?i ?st] =>
        destruct (encrypt_chunk_failure env d cs outbuf k i st)
          as (out' & se & He & Htr & _ & _ & Hw);
        [apply Hfail | rewrite He]
    end.
    cbn [fst snd]. change (0 <? -1) with false. cbv iota.
    rewrite store_full by (now rewrite rand_block_length).
    do 2 eexists. unfold ret. split; [reflexivity|].
    rewrite Htr, Hw. split; reflexivity. }
  exists outbuf'.
  exists (used_write (record (EvWrite fd (rand_block env (n_rand s) (Z.to_nat cs))
                                cs (sys_write env (n_write s))) s1)).
  cbn [trace n_write used_write record]. rewrite Ht, Hn.
  split; [reflexivity|]. split; [reflexivity|].
  rewrite (write_loop_step _ _ _ _ _ _ _ _ _ _ _ Hg). cbv zeta.
  cbn [fst snd]. rewrite Hn. reflexivity.
Qed.

Lemma cipher_failure_writes_random_bytes_witness :
  exists outbuf' s2,
    trace s2 = trace initial_state ++
               [EvWrite 3 (rand_block (env_const true 3 true evp_fail [4] 0)
                                      (n_rand initial_state) (Z.to_nat 4)) 4
                        (sys_write (env_const true 3 true evp_fail [4] 0)
                                   (n_write initial_state))] /\
    n_write s2 = S (n_write initial_state) /\
    write_loop 2 (env_const true 3 true evp_fail [4] 0) 3 "encrypted" 4
               [0; 0; 0; 0] (repeat 0 36) 0 initial_state
      = if sys_write (env_const true 3 true evp_fail [4] 0)
                     (n_write initial_state) <=? 0
        then Done 0 s2
        else write_loop 1 (env_const true 3 true evp_fail [4] 0) 3 "encrypted" 4
               (rand_block (env_const true 3 true evp_fail [4] 0)
                           (n_rand initial_state) (Z.to_nat 4)) outbuf'
               (cast_size_t (0 + sys_write (env_const true 3 true evp_fail [4] 0)
                                          (n_write initial_state))) s2.
Proof.
  apply cipher_failure_writes_random_bytes.
  - reflexivity.
  - intros key iv data inl. reflexivity.
Defined.

(** C5 as stated fails: every cipher run of this environment fails, and the
    Encrypted iteration still writes its chunks. *)
Lemma cipher_failure_counterexample :
  (forall n key iv data inl,
     evp_failed (sys_evp (env_const true 3 true evp_fail [4] 0) n key iv data inl)
       = true) /\
  written_bufs (trace (state_of
    (iteration 3 (env_const true 3 true evp_fail [4] 0) "/mnt" 0 3 4
               initial_state)))
  <> [].
Proof.
  split; [reflexivity|]. vm_compute. discriminate.
Qed.

(** ** Closing and reclaiming *)

(** The path that reaches the write loop: on a disk that fills, when nothing
    is copied back into the fill buffer, the iteration returns, and it has
    closed the descriptor and asked for the removal of the file it
    opened. *)
Lemma iteration_reclaims env path p pat cs s :
  never_copies_back env (nth (Z.to_nat pat) patterns ""%string) ->
  0 <= sys_open env (n_open s) ->
  malloc_ok env (n_malloc s) = true ->
  malloc_ok env (S (n_malloc s)) = true ->
  disk_fills env ->
  exists F s' tl r msg,
    (forall fuel, (F <= fuel)%nat ->
       iteration fuel env path p pat cs s = Done tt s') /\
    trace s' = trace s ++ iteration_head env path p pat s ++ tl ++
               [EvClose (sys_open env (n_open s));
                EvRemove (snprintf 256 (temp_name path p pat)) r;
                msg] /\
    removed tl = [].
Proof.
  intros Hno Hfd Hb Ho Hfull.
  pose proof (fun fuel => iteration_unfold fuel env path p pat cs s) as E.
  cbv zeta in E. unfold iteration_head. fold open_flags.
  set (pattern := nth (Z.to_nat pat) patterns ""%string) in *.
  set (filename := snprintf 256 (temp_name path p pat)) in *.
  destruct (Z.ltb_spec (sys_open env (n_open s)) 0) as [Hneg|_]; [lia|].
  rewrite Hb, Ho in E. cbn [andb] in E.
  set (st := used_malloc (used_malloc _)) in *.
  set (b := fresh_block env (n_malloc s) (Z.to_nat cs)) in *.
  set (o := fresh_block env (S (n_malloc s)) _) in *.
  destruct (Hfull (n_write st)) as [k Hk].
  destruct (write_loop_terminates env (sys_open env (n_open s)) pattern cs
              k b o 0 st Hk) as (F & w & s1 & HF).
  destruct (write_loop_trace env (sys_open env (n_open s)) pattern cs
              (fun _ => True) (always_generated env pattern cs) F b o 0 st)
    as (tl & Htl & _ & Hr & _); [apply fresh_block_length|].
  destruct (write_loop_no_copy env (sys_open env (n_open s)) pattern cs F
              Hno b o 0 st) as (tl' & Htl' & Hov).
  rewrite (HF F (le_n F)) in Htl, Htl'. cbn [state_of] in Htl, Htl'.
  exists F, (reclaimed_state env (sys_open env (n_open s)) filename w s1),
    (tl ++ [EvLog (MWrote (w / (1024 * 1024)))]),
    (sys_remove env (n_remove s1)),
    (if sys_remove env (n_remove s1) =? 0 then EvLog (MRemoved filename)
     else EvErr MRemoveFailed).
  split; [|split].
  - intros fuel Hf. rewrite E.
    rewrite (fill_and_reclaim_done _ _ _ _ _ _ _ _ _ _ _ _ (HF fuel Hf) Htl').
    now rewrite Hov.
  - rewrite reclaimed_state_trace. unfold reclaim_events. rewrite Htl.
    subst st. cbn [trace record used_malloc used_open].
    rewrite <- !app_assoc. reflexivity.
  - rewrite removed_app, Hr. reflexivity.
Qed.

(** C6 (the code breaks it).  When the temp file was created but one of the
    two buffers could not be allocated, the iteration ends after closing the
    descriptor: nothing removes the file, which stays on disk. *)
Theorem alloc_failure_leaves_temp_file fuel env path p pat cs s :
  0 <= sys_open env (n_open s) ->
  malloc_ok env (n_malloc s) && malloc_ok env (S (n_malloc s)) = false ->
  exists s',
    iteration fuel env path p pat cs s = Done tt s' /\
    trace s' = trace s ++ iteration_head env path p pat s ++
               [EvErr MAllocFailed; EvClose (sys_open env (n_open s))] /\
    removed (trace s') = removed (trace s).
Proof.
  intros Hfd Halloc.
  rewrite iteration_unfold. cbv zeta. unfold iteration_head. fold open_flags.
  destruct (Z.ltb_spec (sys_open env (n_open s)) 0) as [Hneg|_]; [lia|].
  rewrite Halloc. eexists. split; [reflexivity|].
  cbn [trace record used_malloc used_open]. rewrite <- !app_assoc.
  cbn [app]. split; [reflexivity|].
  rewrite removed_app. cbn. now rewrite app_nil_r.
Qed.

Lemma alloc_failure_leaves_temp_file_witness :
  exists s',
    iteration 3 (env_const true 3 false evp_fail [4] 0) "/mnt" 0 0 4
              initial_state = Done tt s' /\
    trace s' = [] ++ [EvLog (MWriting "zeros" "/mnt/shred_temp_0_0.dat");
                      EvOpen "/mnt/shred_temp_0_0.dat" 577 384 3] ++
               [EvErr MAllocFailed; EvClose 3] /\
    removed (trace s') = removed [].
Proof.
  apply (alloc_failure_leaves_temp_file 3
           (env_const true 3 false evp_fail [4] 0) "/mnt" 0 0 4 initial_state).
  - vm_compute. discriminate.
  - reflexivity.
Defined.

(** ** The free-space probe *)

(** C2 (amended).  If [statvfs] fails on the target, the failure is logged
    and [wipe_free_space] returns at once, whatever the pass count and the
    chunk size: no pass is started, no file is opened, written or removed.
    [main] then returns 0. *)
Theorem probe_failure_ends_run fuel env path s :
  sys_statvfs env path = None ->
  (forall passes cs,
     wipe_free_space fuel env path passes cs s
       = Done tt (record (EvErr MStatvfsFailed) s)) /\
  (forall prog rest,
     main fuel env (prog :: path :: rest) s
       = Done 0 (record (EvErr MStatvfsFailed) s)) /\
  opened (trace (record (EvErr MStatvfsFailed) s)) = opened (trace s).
Proof.
  intros H. split; [|split].
  - intros passes cs. unfold wipe_free_space. rewrite H. reflexivity.
  - intros prog rest. unfold main.
    destruct (Z.ltb_spec (Z.of_nat (List.length (prog :: path :: rest))) 2)
      as [Hlt|_]; [cbn [List.length] in Hlt; lia|].
    cbn [nth]. unfold bind, wipe_free_space. rewrite H. reflexivity.
  - cbn [trace record]. rewrite opened_app. cbn. now rewrite app_nil_r.
Qed.

Lemma probe_failure_ends_run_witness :
  (forall passes cs,
     wipe_free_space 5 (env_const false 3 true evp_fail [4] 0) "/mnt" passes cs
                     initial_state
       = Done tt (record (EvErr MStatvfsFailed) initial_state)) /\
  (forall prog rest,
     main 5 (env_const false 3 true evp_fail [4] 0) (prog :: "/mnt"%string :: rest)
          initial_state
       = Done 0 (record (EvErr MStatvfsFailed) initial_state)) /\
  opened (trace (record (EvErr MStatvfsFailed) initial_state))
    = opened (trace initial_state).
Proof.
  apply (probe_failure_ends_run 5 (env_const false 3 true evp_fail [4] 0)
           "/mnt" initial_state).
  reflexivity.
Defined.

(** C2 as stated fails: with a failing probe and three passes asked for, the
    run does not attempt the twelve iterations; it opens no file at all. *)
Lemma probe_failure_counterexample :
  sys_statvfs (env_const false 3 true evp_fail [4] 0) "/mnt" = None /\
  opened (trace (state_of
    (main 5 (env_const false 3 true evp_fail [4] 0)
          ["shred"; "/mnt"; "3"]%string initial_state)))
  <> expected_files "/mnt" 3.
Proof.
  split; [reflexivity|]. vm_compute. discriminate.
Qed.

(** * Further properties of the program *)

(** ** Which events each part of the program can produce *)

Lemma adds_refl E s : adds E s s.
Proof. exists []. rewrite app_nil_r. auto. Qed.

Lemma adds_trans E a b c : adds E a b -> adds E b c -> adds E a c.
Proof.
  intros (t1 & H1 & F1) (t2 & H2 & F2). exists (t1 ++ t2).
  rewrite H2, H1, <- app_assoc. split; [reflexivity|].
  apply Forall_app; auto.
Qed.

Lemma adds_record (E : event -> Prop) e s : E e -> adds E s (record e s).
Proof. intros H. exists [e]. split; [reflexivity|]. auto. Qed.

Lemma adds_weaken (E E' : event -> Prop) s s' :
  (forall e, E e -> E' e) -> adds E s s' -> adds E' s s'.
Proof.
  intros H (tl & Ht & Hf). exists tl. split; [exact Ht|].
  eapply Forall_impl; eauto.
Qed.

Lemma only_memcpy_loop_event fd cs tl :
  only_memcpy tl -> Forall (loop_event fd cs) tl.
Proof. intros [->|(n & c & ->)]; repeat constructor. Qed.

Lemma write_loop_events env fd pattern cs fuel :
  forall buf outbuf written s,
    List.length buf = Z.to_nat cs ->
    adds (loop_event fd cs) s
         (state_of (write_loop fuel env fd pattern cs buf outbuf written s)).
Proof.
  induction fuel as [|fuel IH]; intros buf outbuf written s Hlen.
  - apply adds_refl.
  - destruct (generate_chunk_spec env pattern cs buf outbuf s)
      as (b & s1 & tl1 & Hg & Ht & Hm & Hw & Hl).
    rewrite (write_loop_step _ _ _ _ _ _ _ _ _ _ _ Hg). cbv zeta.
    assert (adds (loop_event fd cs) s
              (used_write (record (EvWrite fd (fst b) cs
                                     (sys_write env (n_write s1))) s1))) as H1.
    { exists (tl1 ++ [EvWrite fd (fst b) cs (sys_write env (n_write s1))]).
      cbn [trace used_write record]. rewrite Ht, <- app_assoc.
      split; [reflexivity|]. apply Forall_app. split.
      - apply only_memcpy_loop_event, Hm.
      - repeat constructor. congruence. }
    destruct (sys_write env (n_write s1) <=? 0); [exact H1|].
    eapply adds_trans; [exact H1|]. apply IH. congruence.
Qed.

Lemma loop_event_iteration_event filename fd cs e :
  0 <= fd -> loop_event fd cs e -> iteration_event filename fd cs e.
Proof. intros Hfd. destruct e; cbn; tauto. Qed.

(** The shape of an iteration's trace: the progress line, the [open], and
    then events of the kinds an iteration may produce. *)
Lemma iteration_shape fuel env path p pat cs s :
  exists tl,
    trace (state_of (iteration fuel env path p pat cs s))
      = trace s ++ iteration_head env path p pat s ++ tl /\
    Forall (iteration_event (snprintf 256 (temp_name path p pat))
                            (sys_open env (n_open s)) cs) tl.
Proof.
  unfold iteration_head.
  destruct (iteration_cases fuel env path p pat cs s)
    as [(_ & ->)|[(Hfd & _ & ->)|[(Hfd & _ & w & s3 & tl & Hrun & Htl & ->)
                                 |(Hfd & _ & s3 & Hrun & ->)]]];
    cbv zeta.
  - exists [EvErr MOpenFailed].
    cbn [state_of trace record used_open]. rewrite <- !app_assoc.
    split; [reflexivity|]. repeat constructor.
  - exists [EvErr MAllocFailed; EvClose (sys_open env (n_open s))].
    cbn [state_of trace record used_open used_malloc].
    rewrite <- !app_assoc. split; [reflexivity|]. repeat constructor; assumption.
  - match type of Hrun with
    | write_loop fuel env ?fd ?pt cs ?b ?o 0 ?st = _ =>
        destruct (write_loop_events env fd pt cs fuel b o 0 st)
          as (tl' & Htl' & Hf); [apply fresh_block_length|]
    end.
    rewrite Hrun in Htl'. cbn [state_of] in Htl'.
    rewrite Htl in Htl'. apply app_inv_head in Htl'. subst tl'.
    assert (Forall (iteration_event (snprintf 256 (temp_name path p pat))
                                    (sys_open env (n_open s)) cs) tl) as Hf'.
    { eapply Forall_impl; [|exact Hf]. intros e.
      apply loop_event_iteration_event; assumption. }
    destruct (existsb overrun tl); cbn [state_of];
      [rewrite closed_state_trace|rewrite reclaimed_state_trace];
      eexists (tl ++ _); rewrite Htl;
      cbn [trace record used_open used_malloc];
      rewrite <- !app_assoc; cbn [app]; (split; [reflexivity|]);
      (apply Forall_app; split; [exact Hf'|]); unfold reclaim_events;
      [|destruct (sys_remove env (n_remove s3) =? 0)];
      repeat constructor; assumption.
  - match type of Hrun with
    | write_loop fuel env ?fd ?pt cs ?b ?o 0 ?st = _ =>
        destruct (write_loop_events env fd pt cs fuel b o 0 st)
          as (tl' & Htl' & Hf); [apply fresh_block_length|]
    end.
    rewrite Hrun in Htl'. cbn [state_of] in Htl'.
    exists tl'. cbn [state_of]. rewrite Htl'.
    cbn [trace record used_open used_malloc]. rewrite <- !app_assoc.
    split; [reflexivity|].
    eapply Forall_impl; [|exact Hf]. intros e.
    apply loop_event_iteration_event; assumption.
Qed.

Lemma iteration_event_not_open filename fd cs tl :
  Forall (iteration_event filename fd cs) tl -> opened tl = [].
Proof.
  induction 1 as [|e tl He _ IH]; [reflexivity|].
  destruct e; cbn in *; try assumption. contradiction.
Qed.

Lemma iteration_event_failed_open filename fd cs tl :
  fd < 0 ->
  Forall (iteration_event filename fd cs) tl ->
  written_bufs tl = [] /\ closed tl = [] /\ removed tl = [].
Proof.
  intros Hfd. induction 1 as [|e tl He _ IH]; [auto|].
  destruct e; cbn in *; try assumption; lia.
Qed.

(** X1.  Within one iteration, after its [open], the program opens nothing
    else; every [write] goes to the descriptor that [open] returned, asks
    for [chunk_size] bytes and is given a buffer of [chunk_size] bytes;
    [close] is called on that descriptor only and [remove] on the name that
    was opened only.  This holds for every environment and at every point
    of the iteration. *)
Theorem iteration_events fuel env path p pat cs s :
  exists tl,
    trace (state_of (iteration fuel env path p pat cs s))
      = trace s ++ iteration_head env path p pat s ++ tl /\
    Forall (iteration_event (snprintf 256 (temp_name path p pat))
                            (sys_open env (n_open s)) cs) tl /\
    opened tl = [].
Proof.
  destruct (iteration_shape fuel env path p pat cs s) as (tl & Ht & Hf).
  exists tl. split; [exact Ht|]. split; [exact Hf|].
  eapply iteration_event_not_open, Hf.
Qed.

(** ** The whole run, at any point *)

Lemma for_upto_adds E body n :
  forall i s,
    (forall j s0, In j (range_from n i) -> adds E s0 (state_of (body j s0))) ->
    adds E s (state_of (for_upto n i body s)).
Proof.
  induction n as [|n IH]; intros i s H.
  - apply adds_refl.
  - cbn [for_upto]. unfold bind.
    pose proof (H i s (or_introl eq_refl)) as Hb.
    destruct (body i s) as [[] s1|s1|s1]; cbn [state_of] in Hb;
      [|exact Hb|exact Hb].
    eapply adds_trans; [exact Hb|]. apply IH.
    intros j s0 Hj. apply H. right. exact Hj.
Qed.

Lemma expected_files_in path passes p pat :
  In p (range_from (Z.to_nat passes) 0) ->
  In pat (range_from 4 0) ->
  In (snprintf 256 (temp_name path p pat)) (expected_files path passes).
Proof.
  intros Hp Hpat. unfold expected_files. apply in_flat_map.
  exists p. split; [exact Hp|].
  apply (in_map (fun pat => snprintf 256 (temp_name path p pat))), Hpat.
Qed.

Lemma iteration_run_events fuel env path passes p pat cs s :
  In p (range_from (Z.to_nat passes) 0) ->
  In pat (range_from 4 0) ->
  adds (run_event path passes cs) s
       (state_of (iteration fuel env path p pat cs s)).
Proof.
  intros Hp Hpat.
  pose proof (expected_files_in path passes p pat Hp Hpat) as Hin.
  destruct (iteration_shape fuel env path p pat cs s) as (tl & Ht & Hf).
  exists (iteration_head env path p pat s ++ tl). split; [exact Ht|].
  apply Forall_app. split.
  - unfold iteration_head. repeat constructor. exact Hin.
  - eapply Forall_impl; [|exact Hf]. intros e He.
    destruct e; cbn in *; try tauto.
    destruct He as [_ ->]. exact Hin.
Qed.

Lemma pass_run_events fuel env path passes cs p s :
  In p (range_from (Z.to_nat passes) 0) ->
  adds (run_event path passes cs) s
       (state_of (pass fuel env path passes cs p s)).
Proof.
  intros Hp. unfold pass, for_int. unfold bind, LOG, emit.
  apply (adds_trans _ _ (record (EvLog (MPass (p + 1) passes)) s));
    [apply adds_record; exact I|].
  apply for_upto_adds. intros pat s0 Hpat.
  apply iteration_run_events; assumption.
Qed.

Lemma wipe_free_space_run_events fuel env path passes cs s :
  adds (run_event path passes cs) s
       (state_of (wipe_free_space fuel env path passes cs s)).
Proof.
  unfold wipe_free_space.
  destruct (sys_statvfs env path) as [[bsize bavail]|].
  - unfold bind at 1 2. unfold LOG at 1. unfold emit at 1.
    apply (adds_trans _ _
             (record (EvLog (MDetected (cast_size_t (bsize * bavail)
                                        / (1024 * 1024)))) s));
      [apply adds_record; exact I|].
    unfold for_int. rewrite Z.sub_0_r.
    match goal with
    | |- context [for_upto ?n 0 ?body ?st] =>
        pose proof (for_upto_adds (run_event path passes cs) body n 0 st) as H;
        destruct (for_upto n 0 body st) as [[] s1|s1|s1]
    end; cbn [state_of] in *.
    + eapply adds_trans.
      * apply H. intros j s0 Hj. apply pass_run_events, Hj.
      * apply (adds_record _ (EvLog MComplete)). exact I.
    + apply H. intros j s0 Hj. apply pass_run_events, Hj.
    + apply H. intros j s0 Hj. apply pass_run_events, Hj.
  - apply (adds_record _ (EvErr MStatvfsFailed)). exact I.
Qed.

(** X2.  Whatever the environment, the pass count and the chunk size, and
    however far the run got, [wipe_free_space] opens and removes only its
    own temp files, the names [<path>/shred_temp_<p>_<pat>.dat] (cut to 255
    characters) with 0 <= p < passes and 0 <= pat < 4; every [open] has the
    flags O_CREAT | O_WRONLY | O_TRUNC and mode 0600, and every [write] asks
    for [chunk_size] bytes from a buffer of that size.  The same holds of
    [main] given a target path: the files are under [argv[1]], the pass
    count is [atoi(argv[2])] or 3, and the chunk size is 512 MiB. *)
Theorem run_touches_only_its_files fuel env path s :
  (forall passes cs,
     exists tl,
       trace (state_of (wipe_free_space fuel env path passes cs s))
         = trace s ++ tl /\
       Forall (run_event path passes cs) tl) /\
  (forall prog rest,
     exists tl,
       trace (state_of (main fuel env (prog :: path :: rest) s))
         = trace s ++ tl /\
       Forall (run_event path
                 (match rest with [] => 3 | arg :: _ => atoi arg end)
                 536870912) tl).
Proof.
  split.
  - intros passes cs. apply wipe_free_space_run_events.
  - intros prog rest. unfold main.
    destruct (Z.ltb_spec (Z.of_nat (List.length (prog :: path :: rest))) 2)
      as [Hlt|_]; [cbn [List.length] in Hlt; lia|].
    cbn [nth]. unfold bind.
    match goal with
    | |- context [wipe_free_space fuel env path ?ps ?c s] =>
        pose proof (wipe_free_space_run_events fuel env path ps c s) as H;
        destruct (wipe_free_space fuel env path ps c s) as [[] s1|s1|s1]
    end; cbn [state_of ret] in *;
      (destruct rest as [|arg rest];
       [destruct (Z.ltb_spec 2 (Z.of_nat (List.length [prog; path])))
          as [Hlt|_]; [cbn [List.length] in Hlt; lia|]
       |destruct (Z.ltb_spec 2 (Z.of_nat (List.length (prog :: path :: arg :: rest))))
          as [_|Hge]; [|cbn [List.length] in Hge; lia]]);
      exact H.
Qed.

(** ** The pass-count argument *)

Lemma digits_value_no_digit s :
  leading_digit s = false -> digits_value s 0 = 0.
Proof.
  destruct s as [|c s]; [reflexivity|]. cbn. now intros ->.
Qed.

Lemma strtol_not_numeric s : numeric_prefix s = false -> strtol s = 0.
Proof.
  unfold numeric_prefix, strtol. intros H.
  assert (match skip_space s with
          | String "-" s' => - digits_value s' 0
          | String "+" s' => digits_value s' 0
          | s' => digits_value s' 0
          end = 0) as ->; [|reflexivity].
  destruct (skip_space s) as [|c s']; [reflexivity|].
  destruct c as [[] [] [] [] [] [] [] []];
    try (now rewrite (digits_value_no_digit _ H));
    try (now apply digits_value_no_digit).
Qed.

Lemma atoi_not_numeric s : numeric_prefix s = false -> atoi s = 0.
Proof. intros H. unfold atoi. now rewrite strtol_not_numeric. Qed.

Lemma Forall_any {A} (l : list A) : Forall (fun _ => True) l.
Proof. apply Forall_forall. auto. Qed.

Lemma extends_intro s s' tl :
  trace s' = trace s ++ tl -> adds (fun _ => True) s s'.
Proof. intros H. exists tl. split; [exact H|apply Forall_any]. Qed.

Lemma bind_extends {A B} (m : C A) (k : A -> C B) s :
  (forall a s', adds (fun _ => True) s' (state_of (k a s'))) ->
  adds (fun _ => True) (state_of (m s)) (state_of (bind m k s)).
Proof.
  intros H. unfold bind. destruct (m s) as [a s'|s'|s']; cbn [state_of].
  - apply H.
  - apply adds_refl.
  - apply adds_refl.
Qed.

Lemma iteration_extends fuel env path p pat cs s :
  adds (fun _ => True) s (state_of (iteration fuel env path p pat cs s)).
Proof.
  destruct (iteration_shape fuel env path p pat cs s) as (tl & Ht & _).
  eapply extends_intro, Ht.
Qed.

Lemma passes_extend fuel env path passes cs n i s :
  adds (fun _ => True) s
       (state_of (for_upto n i (pass fuel env path passes cs) s)).
Proof.
  apply for_upto_adds. intros p s0 _. unfold pass, for_int, bind, LOG, emit.
  eapply adds_trans; [apply (adds_record _ (EvLog (MPass (p + 1) passes))); exact I|].
  apply for_upto_adds. intros pat s1 _. apply iteration_extends.
Qed.

Lemma for_upto_S n i (body : Z -> C unit) :
  for_upto (S n) i body = (body i ;;; for_upto n (i + 1) body).
Proof. reflexivity. Qed.

(** A run of at least one pass whose probe succeeds goes through the first
    iteration: the Zeros iteration of pass 0. *)
Lemma run_starts_first_iteration fuel env path passes cs s bsize bavail :
  0 < passes ->
  sys_statvfs env path = Some (bsize, bavail) ->
  adds (fun _ => True)
    (state_of (iteration fuel env path 0 0 cs
       (record (EvLog (MPass 1 passes))
          (record (EvLog (MDetected (cast_size_t (bsize * bavail)
                                     / (1024 * 1024)))) s))))
    (state_of (wipe_free_space fuel env path passes cs s)).
Proof.
  intros Hp Hprobe. unfold wipe_free_space. rewrite Hprobe. cbv zeta.
  unfold bind at 1. unfold LOG at 1. unfold emit at 1.
  set (s0 := record _ s).
  unfold for_int. rewrite Z.sub_0_r.
  destruct (Z.to_nat passes) as [|n] eqn:E; [lia|].
  rewrite for_upto_S.
  set (rest := fun _ : unit => LOG MComplete).
  eapply adds_trans; [|apply (bind_extends _ rest)].
  2:{ intros [] s'. apply (adds_record _ (EvLog MComplete)). exact I. }
  eapply adds_trans; [|apply bind_extends].
  2:{ intros [] s'. apply passes_extend. }
  unfold pass at 1. unfold bind at 1. unfold LOG at 1. unfold emit at 1.
  change (0 + 1) with 1. unfold for_int.
  change (Z.to_nat (4 - 0)) with 4%nat. rewrite for_upto_S.
  apply bind_extends. intros [] s'.
  apply for_upto_adds. intros pat s1 _. apply iteration_extends.
Qed.

Lemma write_loop_first_write env fd pattern cs fuel buf outbuf written s :
  List.length buf = Z.to_nat cs ->
  exists b rest,
    written_bufs (trace (state_of
      (write_loop (S fuel) env fd pattern cs buf outbuf written s)))
    = written_bufs (trace s) ++ b :: rest.
Proof.
  intros Hlen.
  destruct (generate_chunk_spec env pattern cs buf outbuf s)
    as (b & s1 & tl1 & Hg & Ht & Hm & Hw & Hl).
  rewrite (write_loop_step _ _ _ _ _ _ _ _ _ _ _ Hg). cbv zeta.
  destruct (write_loop_trace env fd pattern cs (fun _ => True)
              (always_generated env pattern cs) fuel (fst b) (snd b)
              (cast_size_t (written + sys_write env (n_write s1)))
              (used_write (record (EvWrite fd (fst b) cs
                                     (sys_write env (n_write s1))) s1)))
    as (tl & Htl & _); [congruence|].
  exists (fst b).
  destruct (sys_write env (n_write s1) <=? 0).
  - exists []. cbn [state_of trace used_write record].
    rewrite Ht, !written_bufs_app, (only_memcpy_written _ Hm), app_nil_r.
    reflexivity.
  - exists (written_bufs tl). rewrite Htl. cbn [trace used_write record].
    rewrite Ht, !written_bufs_app, (only_memcpy_written _ Hm), app_nil_r.
    rewrite <- app_assoc. reflexivity.
Qed.

Lemma reclaim_events_written env fd filename w s :
  written_bufs (reclaim_events env fd filename w s) = [].
Proof.
  unfold reclaim_events. destruct (sys_remove env (n_remove s) =? 0); reflexivity.
Qed.

(** An iteration that got its file and its buffers writes at least one
    chunk. *)
Lemma iteration_first_write fuel env path p pat cs s :
  0 <= sys_open env (n_open s) ->
  malloc_ok env (n_malloc s) = true ->
  malloc_ok env (S (n_malloc s)) = true ->
  exists b rest,
    written_bufs (trace (state_of (iteration (S fuel) env path p pat cs s)))
    = written_bufs (trace s) ++ b :: rest.
Proof.
  intros Hfd Hb Ho.
  destruct (iteration_cases (S fuel) env path p pat cs s)
    as [(Hneg & _)|[(_ & Hal & _)|[(_ & _ & w & s3 & tl & Hrun & Htl & ->)
                                  |(_ & _ & s3 & Hrun & ->)]]];
    cbv zeta in *; [lia|rewrite Hb, Ho in Hal; discriminate| |];
    match type of Hrun with
    | write_loop _ env ?fd ?pt cs ?b ?o 0 ?st = _ =>
        destruct (write_loop_first_write env fd pt cs fuel b o 0 st)
          as (buf & rest & Hw); [apply fresh_block_length|]
    end;
    rewrite Hrun in Hw; cbn [state_of trace used_malloc used_open record] in Hw;
    rewrite !written_bufs_app in Hw; cbn [written_bufs app] in Hw;
    rewrite !app_nil_r in Hw; exists buf, rest.
  - destruct (existsb overrun tl); cbn [state_of];
      [rewrite closed_state_trace|rewrite reclaimed_state_trace];
      rewrite written_bufs_app, Hw, ?reclaim_events_written;
      cbn [written_bufs]; now rewrite app_nil_r.
  - exact Hw.
Qed.

Lemma wipe_nonpositive_passes fuel env path passes cs s :
  passes <= 0 ->
  exists s' tl,
    wipe_free_space fuel env path passes cs s = Done tt s' /\
    trace s' = trace s ++ tl /\
    filter is_fs_event tl = [].
Proof.
  intros Hp. unfold wipe_free_space.
  destruct (sys_statvfs env path) as [[bsize bavail]|].
  - do 2 eexists. unfold bind, LOG, emit, for_int.
    replace (Z.to_nat (passes - 0)) with 0%nat by lia. cbn [for_upto ret].
    split; [reflexivity|]. cbn [trace record]. rewrite <- app_assoc.
    split; [reflexivity|reflexivity].
  - do 2 eexists. unfold ERR, emit. split; [reflexivity|].
    cbn [trace record]. split; reflexivity.
Qed.

Lemma main_with_count fuel env prog path arg rest s :
  main fuel env (prog :: path :: arg :: rest) s
    = (wipe_free_space fuel env path (atoi arg) (512 * 1024 * 1024) ;;; ret 0) s.
Proof.
  unfold main.
  destruct (Z.ltb_spec (Z.of_nat (List.length (prog :: path :: arg :: rest))) 2)
    as [Hlt|_]; [cbn [List.length] in Hlt; lia|].
  destruct (Z.ltb_spec 2 (Z.of_nat (List.length (prog :: path :: arg :: rest))))
    as [_|Hge]; [|cbn [List.length] in Hge; lia].
  reflexivity.
Qed.

(** C4 (amended).  The pass-count argument is never rejected, whatever it
    is: [main] has no failure exit for it (if it returns, it returns 0) and
    runs with the count [atoi] reads.  If the argument has no number in
    front (after white space and an optional sign the next character is not
    a digit; in particular if it is non-numeric) that count is 0; with a
    count of zero or less (a negative number, or no number) the run makes
    no pass: it opens, writes, closes and removes no file.  If [atoi] reads
    a positive count (digits followed by anything, as in 3abc or 2.5) the
    run goes ahead as for that number: once the probe has succeeded it
    opens the first temp file, and if that file and the two buffers are
    obtained it writes to it. *)
Theorem pass_count_is_never_rejected fuel env prog path arg rest s :
  (forall c,
     exit_code (main fuel env (prog :: path :: arg :: rest) s) = Some c ->
     c = 0) /\
  (numeric_prefix arg = false -> atoi arg = 0) /\
  (atoi arg <= 0 ->
   exists s' tl,
     main fuel env (prog :: path :: arg :: rest) s = Done 0 s' /\
     trace s' = trace s ++ tl /\
     filter is_fs_event tl = []) /\
  (0 < atoi arg ->
   sys_statvfs env path <> None ->
   exists more,
     opened (trace (state_of (main fuel env (prog :: path :: arg :: rest) s)))
       = opened (trace s) ++ snprintf 256 (temp_name path 0 0) :: more) /\
  (0 < atoi arg ->
   sys_statvfs env path <> None ->
   0 <= sys_open env (n_open s) ->
   malloc_ok env (n_malloc s) = true ->
   malloc_ok env (S (n_malloc s)) = true ->
   (0 < fuel)%nat ->
   exists b more,
     written_bufs (trace (state_of
       (main fuel env (prog :: path :: arg :: rest) s)))
       = written_bufs (trace s) ++ b :: more).
Proof.
  rewrite main_with_count.
  assert (forall c,
            state_of ((wipe_free_space fuel env path (atoi arg) c ;;; ret 0) s)
            = state_of (wipe_free_space fuel env path (atoi arg) c s)) as Est.
  { intros c. unfold bind.
    destruct (wipe_free_space fuel env path (atoi arg) c s); reflexivity. }
  split; [|split; [|split; [|split]]].
  - intros c. unfold bind.
    destruct (wipe_free_space fuel env path (atoi arg) _ s);
      cbn; congruence.
  - apply atoi_not_numeric.
  - intros Hle.
    destruct (wipe_nonpositive_passes fuel env path (atoi arg)
                (512 * 1024 * 1024) s Hle) as (s' & tl & Hrun & Ht & Hf).
    exists s', tl. unfold bind. rewrite Hrun. auto.
  - intros Hpos Hprobe. rewrite Est.
    destruct (sys_statvfs env path) as [[bsize bavail]|] eqn:E; [|congruence].
    destruct (run_starts_first_iteration fuel env path (atoi arg)
                (512 * 1024 * 1024) s bsize bavail Hpos E) as (t2 & Ht2 & _).
    match type of Ht2 with
    | context [iteration fuel env path 0 0 ?c ?st] =>
        destruct (iteration_shape fuel env path 0 0 c st) as (t1 & Ht1 & _)
    end.
    rewrite Ht2, Ht1. cbn [trace record]. unfold iteration_head.
    rewrite !opened_app. cbn [opened app]. rewrite app_nil_r.
    eexists. rewrite <- !app_assoc. reflexivity.
  - intros Hpos Hprobe Hfd Hb Ho Hfuel. rewrite Est.
    destruct fuel as [|fuel]; [lia|].
    destruct (sys_statvfs env path) as [[bsize bavail]|] eqn:E; [|congruence].
    destruct (run_starts_first_iteration (S fuel) env path (atoi arg)
                (512 * 1024 * 1024) s bsize bavail Hpos E) as (t2 & Ht2 & _).
    match type of Ht2 with
    | context [iteration (S fuel) env path 0 0 ?c ?st] =>
        destruct (iteration_first_write fuel env path 0 0 c st)
          as (b & more & Hw); [exact Hfd|exact Hb|exact Ho|]
    end.
    rewrite Ht2, written_bufs_app, Hw. cbn [trace record].
    rewrite !written_bufs_app. cbn [written_bufs app]. rewrite !app_nil_r.
    exists b. eexists. rewrite <- app_assoc. reflexivity.
Qed.

Lemma pass_count_is_never_rejected_witness :
  (exists s' tl,
     main 1 (env_const true 3 true evp_fail [4] 0)
          ["shred"; "/mnt"; "-5"]%string initial_state = Done 0 s' /\
     trace s' = trace initial_state ++ tl /\
     filter is_fs_event tl = []) /\
  (exists b more,
     written_bufs (trace (state_of
       (main 1 (env_const true 3 true evp_fail [4] 0)
             ["shred"; "/mnt"; "3abc"]%string initial_state)))
       = written_bufs (trace initial_state) ++ b :: more).
Proof.
  split.
  - destruct (pass_count_is_never_rejected 1 (env_const true 3 true evp_fail [4] 0)
                "shred" "/mnt" "-5" [] initial_state) as (_ & _ & H & _).
    apply H. vm_compute. discriminate.
  - destruct (pass_count_is_never_rejected 1 (env_const true 3 true evp_fail [4] 0)
                "shred" "/mnt" "3abc" [] initial_state) as (_ & _ & _ & _ & H).
    apply H.
    + vm_compute. reflexivity.
    + discriminate.
    + vm_compute. discriminate.
    + reflexivity.
    + reflexivity.
    + lia.
Defined.

(** C4 as stated fails: a non-numeric pass count is not rejected; the exit
    status is not a failure indicator. *)
Lemma non_numeric_passes_counterexample :
  numeric_prefix "abc" = false /\
  ~ (exists c,
       exit_code (main 5 (env_const true 3 true evp_fail [4] 0)
                       ["shred"; "/mnt"; "abc"]%string initial_state) = Some c /\
       c <> 0).
Proof.
  split; [reflexivity|].
  intros (c & Hc & Hnz). vm_compute in Hc. congruence.
Qed.

(** A count with a number in front is read up to the first non-digit, and
    the run goes ahead with it. *)
Example atoi_numeric_prefix : atoi "3abc" = 3 /\ atoi " -12x" = -12.
Proof. split; reflexivity. Qed.

(** Counts that are not non-negative integers and are read as numbers all
    the same. *)
Example count_with_trailing_text :
  parses_as_nonneg "3abc" = false /\ atoi "3abc" = 3 /\
  exit_code (main 1 (env_const true (-1) true evp_fail [] 0)
                  ["shred"; "/mnt"; "3abc"]%string initial_state) = Some 0 /\
  opened (trace (state_of
    (main 1 (env_const true (-1) true evp_fail [] 0)
          ["shred"; "/mnt"; "3abc"]%string initial_state)))
    = expected_files "/mnt" 3.
Proof. repeat split; vm_compute; reflexivity. Qed.

Example count_with_fraction :
  parses_as_nonneg "2.5" = false /\ atoi "2.5" = 2 /\
  exit_code (main 1 (env_const true (-1) true evp_fail [] 0)
                  ["shred"; "/mnt"; "2.5"]%string initial_state) = Some 0 /\
  opened (trace (state_of
    (main 1 (env_const true (-1) true evp_fail [] 0)
          ["shred"; "/mnt"; "2.5"]%string initial_state)))
    = expected_files "/mnt" 2.
Proof. repeat split; vm_compute; reflexivity. Qed.

Example negative_count :
  parses_as_nonneg "-5" = false /\ atoi "-5" = -5 /\
  main 1 (env_const true 3 true evp_fail [4] 0)
       ["shred"; "/mnt"; "-5"]%string initial_state
    = Done 0 (record (EvLog MComplete)
               (record (EvLog (MDetected 3)) initial_state)).
Proof. repeat split; vm_compute; reflexivity. Qed.

(** ** The whole run, once it has returned *)

Lemma closed_app a b : closed (a ++ b) = closed a ++ closed b.
Proof.
  induction a as [|e a IH]; [reflexivity|].
  destruct e; simpl; rewrite IH; reflexivity.
Qed.

Lemma opened_fds_app a b : opened_fds (a ++ b) = opened_fds a ++ opened_fds b.
Proof.
  induction a as [|e a IH]; [reflexivity|].
  destruct e as [| | |f fl m r| | | |]; simpl; rewrite IH; try reflexivity.
  destruct (r <? 0); reflexivity.
Qed.

Lemma created_app a b : created (a ++ b) = created a ++ created b.
Proof.
  induction a as [|e a IH]; [reflexivity|].
  destruct e as [| | |f fl m r| | | |]; simpl; rewrite IH; try reflexivity.
  destruct (r <? 0); reflexivity.
Qed.

Lemma loop_event_quiet fd cs tl :
  Forall (loop_event fd cs) tl ->
  closed tl = [] /\ opened_fds tl = [] /\ created tl = [] /\ removed tl = [].
Proof.
  induction 1 as [|e tl He _ IH]; [auto|].
  destruct e; cbn in *; try contradiction; assumption.
Qed.

(** A relation between states that the logging steps and the iterations
    respect is respected by the two loops and by [wipe_free_space], which
    moreover return when the fuel is large enough. *)
Section TerminatingRun.

Variables (env : Env) (path : string) (cs : Z).
Variable R : State -> State -> Prop.
Hypothesis R_refl : forall s, R s s.
Hypothesis R_trans : forall a b c, R a b -> R b c -> R a c.
Hypothesis R_log : forall m s, R s (record (EvLog m) s).
Hypothesis R_err : forall m s, R s (record (EvErr m) s).
Hypothesis iteration_R :
  forall p pat s, exists F s',
    (forall fuel, (F <= fuel)%nat ->
       iteration fuel env path p pat cs s = Done tt s') /\
    R s s'.

Lemma for_upto_R (body : nat -> Z -> C unit) :
  (forall i s, exists F s',
     (forall fuel, (F <= fuel)%nat -> body fuel i s = Done tt s') /\ R s s') ->
  forall n i s, exists F s',
    (forall fuel, (F <= fuel)%nat -> for_upto n i (body fuel) s = Done tt s') /\
    R s s'.
Proof.
  intros Hbody. induction n as [|n IH]; intros i s.
  - exists 0%nat, s. split; [reflexivity|apply R_refl].
  - destruct (Hbody i s) as (F1 & s1 & H1 & R1).
    destruct (IH (i + 1) s1) as (F2 & s2 & H2 & R2).
    exists (Nat.max F1 F2), s2. split; [|eapply R_trans; eassumption].
    intros fuel Hf. cbn [for_upto]. unfold bind.
    rewrite H1 by lia. apply H2. lia.
Qed.

Lemma pass_R passes p s :
  exists F s',
    (forall fuel, (F <= fuel)%nat ->
       pass fuel env path passes cs p s = Done tt s') /\
    R s s'.
Proof.
  destruct (for_upto_R (fun fuel pat => iteration fuel env path p pat cs)
              (iteration_R p) 4 0 (record (EvLog (MPass (p + 1) passes)) s))
    as (F & s' & HF & HR).
  exists F, s'. split.
  - intros fuel Hf. unfold pass, for_int, bind, LOG, emit. apply HF, Hf.
  - eapply R_trans; [apply R_log|exact HR].
Qed.

Lemma wipe_free_space_R passes s :
  exists F s',
    (forall fuel, (F <= fuel)%nat ->
       wipe_free_space fuel env path passes cs s = Done tt s') /\
    R s s'.
Proof.
  unfold wipe_free_space.
  destruct (sys_statvfs env path) as [[bsize bavail]|].
  - set (s0 := record (EvLog (MDetected
                 (cast_size_t (bsize * bavail) / (1024 * 1024)))) s).
    destruct (for_upto_R (fun fuel => pass fuel env path passes cs)
                (pass_R passes) (Z.to_nat (passes - 0)) 0 s0)
      as (F & s' & HF & HR).
    exists F, (record (EvLog MComplete) s'). split.
    + intros fuel Hf. unfold bind at 1 2. unfold LOG at 1. unfold emit at 1.
      fold s0. unfold for_int. rewrite (HF fuel Hf). reflexivity.
    + eapply R_trans; [apply R_log|].
      eapply R_trans; [exact HR|apply R_log].
  - exists 0%nat, (record (EvErr MStatvfsFailed) s).
    split; [reflexivity|apply R_err].
Qed.

End TerminatingRun.

(** An iteration on a disk that fills, when nothing is copied back into the
    fill buffer: it returns; the descriptors it has closed are those it
    obtained; and, unless one of its two allocations failed, the files it
    has asked to remove are those it created. *)
Lemma iteration_outcome env path p pat cs s :
  never_copies_back env (nth (Z.to_nat pat) patterns ""%string) ->
  disk_fills env ->
  exists F s' tl,
    (forall fuel, (F <= fuel)%nat ->
       iteration fuel env path p pat cs s = Done tt s') /\
    trace s' = trace s ++ tl /\
    closed tl = opened_fds tl /\
    (malloc_ok env (n_malloc s) && malloc_ok env (S (n_malloc s)) = true ->
     removed tl = created tl).
Proof.
  intros Hno Hfull.
  pose proof (fun fuel => iteration_unfold fuel env path p pat cs s) as E.
  cbv zeta in E.
  set (pattern := nth (Z.to_nat pat) patterns ""%string) in *.
  set (filename := snprintf 256 (temp_name path p pat)) in *.
  set (fd := sys_open env (n_open s)) in *.
  destruct (Z.ltb_spec fd 0) as [Hneg|Hfd].
  { exists 0%nat. eexists. eexists [_; _; _]. split; [intros fuel _; apply E|].
    cbn [trace record used_open]. rewrite <- !app_assoc.
    split; [reflexivity|]. cbn.
    destruct (Z.ltb_spec fd 0); [auto|lia]. }
  destruct (malloc_ok env (n_malloc s) && malloc_ok env (S (n_malloc s)))%bool.
  2:{ exists 0%nat. eexists. eexists [_; _; _; _].
      split; [intros fuel _; apply E|].
      cbn [trace record used_open used_malloc]. rewrite <- !app_assoc.
      split; [reflexivity|]. cbn.
      destruct (Z.ltb_spec fd 0); [lia|].
      split; [reflexivity|discriminate]. }
  set (st := used_malloc (used_malloc _)) in *.
  set (b := fresh_block env (n_malloc s) (Z.to_nat cs)) in *.
  set (o := fresh_block env (S (n_malloc s)) _) in *.
  destruct (Hfull (n_write st)) as [k Hk].
  destruct (write_loop_terminates env fd pattern cs k b o 0 st Hk)
    as (F & w & s1 & HF).
  destruct (write_loop_events env fd pattern cs F b o 0 st)
    as (tl & Htl & Hev); [apply fresh_block_length|].
  destruct (write_loop_no_copy env fd pattern cs F Hno b o 0 st)
    as (tl' & Htl' & Hov).
  rewrite (HF F (le_n F)) in Htl, Htl'. cbn [state_of] in Htl, Htl'.
  destruct (loop_event_quiet _ _ _ Hev) as (Hc & Ho & Hcr & Hrm).
  exists F, (reclaimed_state env fd filename w s1),
    ([EvLog (MWriting pattern filename); EvOpen filename open_flags 384 fd]
       ++ tl ++ reclaim_events env fd filename w s1).
  split; [|split].
  - intros fuel Hf. rewrite E.
    rewrite (fill_and_reclaim_done _ _ _ _ _ _ _ _ _ _ _ _ (HF fuel Hf) Htl').
    now rewrite Hov.
  - rewrite reclaimed_state_trace, Htl. subst st.
    cbn [trace record used_malloc used_open]. rewrite <- !app_assoc.
    reflexivity.
  - unfold reclaim_events. cbn [app closed opened_fds removed created].
    rewrite closed_app, opened_fds_app, removed_app, created_app,
      Hc, Ho, Hcr, Hrm.
    destruct (sys_remove env (n_remove s1) =? 0); cbn;
      (destruct (Z.ltb_spec fd 0); [lia|]); auto.
Qed.

(** X3.  On a disk that eventually refuses a write, and when no encryption
    succeeds (so that nothing is copied back into the fill buffer),
    [wipe_free_space] returns, whatever the pass count and whatever
    [statvfs], [open], [malloc] and [remove] answer; and when it returns it
    has closed every descriptor that [open] gave it, once each and in the
    order they were obtained, and nothing else. *)
Theorem run_closes_every_descriptor env path passes cs s :
  cipher_always_fails env ->
  disk_fills env ->
  exists F s' tl,
    (forall fuel, (F <= fuel)%nat ->
       wipe_free_space fuel env path passes cs s = Done tt s') /\
    trace s' = trace s ++ tl /\
    closed tl = opened_fds tl.
Proof.
  intros Hfail Hfull.
  destruct (wipe_free_space_R env path cs
              (fun a b => exists tl, trace b = trace a ++ tl /\
                                     closed tl = opened_fds tl))
    with (passes := passes) (s := s) as (F & s' & HF & tl & Ht & Hc).
  - intros a. exists []. now rewrite app_nil_r.
  - intros a b c (t1 & H1 & C1) (t2 & H2 & C2). exists (t1 ++ t2).
    rewrite H2, H1, <- app_assoc, closed_app, opened_fds_app, C1, C2. auto.
  - intros m a. exists [EvLog m]. auto.
  - intros m a. exists [EvErr m]. auto.
  - intros p pat a.
    destruct (iteration_outcome env path p pat cs a
                (cipher_fails_never_copies env _ Hfail) Hfull)
      as (F & s' & tl & HF & Ht & Hc & _).
    exists F, s'. split; [exact HF|]. exists tl. auto.
  - exists F, s', tl. auto.
Qed.

Lemma run_closes_every_descriptor_witness :
  exists F s' tl,
    (forall fuel, (F <= fuel)%nat ->
       wipe_free_space fuel (env_script [3; -1; 5] [true; false] [4; 4] 0)
                       "/mnt" 1 4 initial_state = Done tt s') /\
    trace s' = trace initial_state ++ tl /\
    closed tl = opened_fds tl.
Proof.
  apply run_closes_every_descriptor.
  - intros n key iv data inl. reflexivity.
  - intros n. exists 2%nat. cbn [sys_write env_script].
    destruct n as [|[|n]]; cbn; try lia.
    destruct n as [|[|n]]; cbn; lia.
Defined.

(** X4.  On a disk that eventually refuses a write, when no encryption
    succeeds and no allocation fails, [wipe_free_space] returns, and it has
    then called [remove] on every temp file it created (every file whose
    [open] succeeded), once each and in order, and on nothing else. *)
Theorem run_removes_every_created_file env path passes cs s :
  cipher_always_fails env ->
  disk_fills env ->
  (forall n, malloc_ok env n = true) ->
  exists F s' tl,
    (forall fuel, (F <= fuel)%nat ->
       wipe_free_space fuel env path passes cs s = Done tt s') /\
    trace s' = trace s ++ tl /\
    removed tl = created tl.
Proof.
  intros Hfail Hfull Halloc.
  destruct (wipe_free_space_R env path cs
              (fun a b => exists tl, trace b = trace a ++ tl /\
                                     removed tl = created tl))
    with (passes := passes) (s := s) as (F & s' & HF & tl & Ht & Hc).
  - intros a. exists []. now rewrite app_nil_r.
  - intros a b c (t1 & H1 & C1) (t2 & H2 & C2). exists (t1 ++ t2).
    rewrite H2, H1, <- app_assoc, removed_app, created_app, C1, C2. auto.
  - intros m a. exists [EvLog m]. auto.
  - intros m a. exists [EvErr m]. auto.
  - intros p pat a.
    destruct (iteration_outcome env path p pat cs a
                (cipher_fails_never_copies env _ Hfail) Hfull)
      as (F & s' & tl & HF & Ht & _ & Hr).
    exists F, s'. split; [exact HF|]. exists tl. split; [exact Ht|].
    apply Hr. now rewrite !Halloc.
  - exists F, s', tl. auto.
Qed.

Lemma run_removes_every_created_file_witness :
  exists F s' tl,
    (forall fuel, (F <= fuel)%nat ->
       wipe_free_space fuel (env_script [3; -1; 5] [] [4; 4] 0)
                       "/mnt" 1 4 initial_state = Done tt s') /\
    trace s' = trace initial_state ++ tl /\
    removed tl = created tl.
Proof.
  apply run_removes_every_created_file.
  - intros n key iv data inl. reflexivity.
  - intros n. exists 2%nat. cbn [sys_write env_script].
    destruct n as [|[|n]]; cbn; try lia.
    destruct n as [|[|n]]; cbn; lia.
  - intros n. cbn. destruct n as [|n]; [reflexivity|]. destruct n; reflexivity.
Defined.

(** ** [main] *)

(** X5.  On a disk that eventually refuses a write, and when no encryption
    succeeds, [main] returns for any argument vector, and its exit status
    depends on the number of arguments alone: 1 when there are fewer than
    two (no target path), 0 otherwise, whatever happened during the run. *)
Theorem main_exit_status env argv s :
  cipher_always_fails env ->
  disk_fills env ->
  exists F,
    forall fuel, (F <= fuel)%nat ->
      exit_code (main fuel env argv s)
        = Some (if (List.length argv <? 2)%nat then 1 else 0).
Proof.
  intros Hfail Hfull. unfold main.
  destruct (Z.ltb_spec (Z.of_nat (List.length argv)) 2) as [Hlt|Hge].
  - exists 0%nat. intros fuel _.
    destruct (Nat.ltb_spec (List.length argv) 2) as [_|Hge]; [|lia].
    reflexivity.
  - destruct (Nat.ltb_spec (List.length argv) 2) as [Hlt|_]; [lia|].
    match goal with
    | |- context [wipe_free_space _ env ?pa ?ps ?c] =>
        destruct (wipe_free_space_R env pa c (fun _ _ => True))
          with (passes := ps) (s := s) as (F & s' & HF & _)
    end; auto.
    + intros p pat a.
      destruct (iteration_terminates env (nth 1 argv ""%string) p pat
                  (512 * 1024 * 1024) a
                  (cipher_fails_never_copies env _ Hfail) Hfull)
        as (F & s' & HF).
      exists F, s'. auto.
    + exists F. intros fuel Hf. unfold bind. rewrite (HF fuel Hf). reflexivity.
Qed.

Lemma main_exit_status_witness :
  exists F,
    forall fuel, (F <= fuel)%nat ->
      exit_code (main fuel (env_script [3; -1; 5] [true; false] [4; 4] 1)
                      ["shred"; "/mnt"; "2"]%string initial_state)
        = Some (if (List.length ["shred"; "/mnt"; "2"]%string <? 2)%nat
                then 1 else 0).
Proof.
  apply main_exit_status.
  - intros n key iv data inl. reflexivity.
  - intros n. exists 2%nat. cbn [sys_write env_script].
    destruct n as [|[|n]]; cbn; try lia.
    destruct n as [|[|n]]; cbn; lia.
Defined.

(** X6.  With fewer than two arguments [main] consults nothing: for every
    environment and fuel it prints the three usage lines, built from
    [argv[0]], and returns 1; no file is opened, written, closed or
    removed. *)
Theorem main_usage fuel env argv s :
  (List.length argv < 2)%nat ->
  main fuel env argv s
    = Done 1 (record (EvPrint (MExampleWindows (nth 0 argv ""%string)))
             (record (EvPrint (MExampleLinux (nth 0 argv ""%string)))
             (record (EvPrint (MUsage (nth 0 argv ""%string))) s))) /\
  exists tl,
    trace (state_of (main fuel env argv s)) = trace s ++ tl /\
    filter is_fs_event tl = [].
Proof.
  intros Hlen.
  assert (main fuel env argv s
    = Done 1 (record (EvPrint (MExampleWindows (nth 0 argv ""%string)))
             (record (EvPrint (MExampleLinux (nth 0 argv ""%string)))
             (record (EvPrint (MUsage (nth 0 argv ""%string))) s)))) as E.
  { unfold main.
    destruct (Z.ltb_spec (Z.of_nat (List.length argv)) 2) as [_|Hge]; [|lia].
    reflexivity. }
  split; [exact E|]. rewrite E.
  exists [EvPrint (MUsage (nth 0 argv ""%string));
          EvPrint (MExampleLinux (nth 0 argv ""%string));
          EvPrint (MExampleWindows (nth 0 argv ""%string))].
  cbn [state_of trace record]. rewrite <- !app_assoc. auto.
Qed.

Lemma main_usage_witness :
  main 0 (env_const true 3 true evp_fail [] 0) ["shred"%string] initial_state
    = Done 1 (record (EvPrint (MExampleWindows "shred"))
             (record (EvPrint (MExampleLinux "shred"))
             (record (EvPrint (MUsage "shred")) initial_state))) /\
  exists tl,
    trace (state_of (main 0 (env_const true 3 true evp_fail [] 0)
                          ["shred"%string] initial_state))
      = trace initial_state ++ tl /\
    filter is_fs_event tl = [].
Proof.
  apply (main_usage 0 (env_const true 3 true evp_fail [] 0) ["shred"%string]
           initial_state).
  cbn. lia.
Defined.

(** The files opened by a run that returns. *)
Lemma wipe_free_space_opened env path passes cs s :
  sys_statvfs env path <> None ->
  cipher_always_fails env ->
  disk_fills env ->
  exists F s',
    (forall fuel, (F <= fuel)%nat ->
       wipe_free_space fuel env path passes cs s = Done tt s') /\
    opened (trace s') = opened (trace s) ++ expected_files path passes.
Proof.
  intros Hprobe Hfail Hfull. unfold wipe_free_space.
  destruct (sys_statvfs env path) as [[bsize bavail]|]; [clear Hprobe|congruence].
  set (s0 := record (EvLog (MDetected
               (cast_size_t (bsize * bavail) / (1024 * 1024)))) s).
  destruct (for_upto_terminates
              (fun fuel => pass fuel env path passes cs)
              (fun p => map (fun pat => snprintf 256 (temp_name path p pat))
                            (range_from 4 0))
              (fun p s1 => pass_terminates env path passes cs p s1 Hfail Hfull)
              (Z.to_nat (passes - 0)) 0 s0)
    as (F & s' & HF & HO).
  exists F, (record (EvLog MComplete) s'). split.
  - intros fuel Hf. unfold bind at 1 2. unfold LOG at 1. unfold emit at 1.
    fold s0. unfold for_int. rewrite (HF fuel Hf). reflexivity.
  - cbn [trace record]. rewrite opened_app, HO. subst s0.
    cbn [trace record]. rewrite opened_app. cbn. rewrite !app_nil_r.
    unfold expected_files. now rewrite Z.sub_0_r.
Qed.

(** X7.  Without a pass-count argument the run makes three passes: if the
    probe succeeds, no encryption succeeds and the disk fills, [main]
    returns 0 having tried to create exactly the twelve files of passes 0, 1
    and 2, patterns 0 to 3 each, in that order. *)
Theorem main_default_run env prog path s :
  sys_statvfs env path <> None ->
  cipher_always_fails env ->
  disk_fills env ->
  exists F s',
    (forall fuel, (F <= fuel)%nat ->
       main fuel env [prog; path] s = Done 0 s') /\
    opened (trace s') = opened (trace s) ++ expected_files path 3 /\
    List.length (expected_files path 3) = 12%nat.
Proof.
  intros Hprobe Hfail Hfull.
  destruct (wipe_free_space_opened env path 3 (512 * 1024 * 1024) s
              Hprobe Hfail Hfull) as (F & s' & HF & HO).
  exists F, s'. split; [|split; [exact HO|reflexivity]].
  intros fuel Hf. unfold main.
  destruct (Z.ltb_spec (Z.of_nat (List.length [prog; path])) 2)
    as [Hlt|_]; [cbn [List.length] in Hlt; lia|].
  destruct (Z.ltb_spec 2 (Z.of_nat (List.length [prog; path])))
    as [Hlt|_]; [cbn [List.length] in Hlt; lia|].
  cbn [nth]. unfold bind. rewrite (HF fuel Hf). reflexivity.
Qed.

Lemma main_default_run_witness :
  exists F s',
    (forall fuel, (F <= fuel)%nat ->
       main fuel (env_const true 3 true evp_fail [] 0) ["shred"; "/mnt"]%string
            initial_state = Done 0 s') /\
    opened (trace s') = opened (trace initial_state) ++ expected_files "/mnt" 3 /\
    List.length (expected_files "/mnt" 3) = 12%nat.
Proof.
  apply main_default_run.
  - discriminate.
  - intros n key iv data inl. reflexivity.
  - intros n. exists 0%nat. simpl. destruct (n + 0)%nat; simpl; lia.
Defined.

(** X8.  A pass count that is zero or negative makes [wipe_free_space] do
    nothing but log: after the probe it reports the free space and the
    completion, or the probe failure; it opens, writes, closes and removes
    no file, and it returns whatever the fuel. *)
Theorem nonpositive_passes_touch_nothing fuel env path passes cs s :
  passes <= 0 ->
  exists s' tl,
    wipe_free_space fuel env path passes cs s = Done tt s' /\
    trace s' = trace s ++ tl /\
    filter is_fs_event tl = [] /\
    (List.length tl <= 2)%nat.
Proof.
  intros Hp. unfold wipe_free_space.
  destruct (sys_statvfs env path) as [[bsize bavail]|].
  - do 2 eexists. unfold bind, LOG, emit, for_int.
    replace (Z.to_nat (passes - 0)) with 0%nat by lia. cbn [for_upto ret].
    split; [reflexivity|]. cbn [trace record]. rewrite <- app_assoc.
    split; [reflexivity|]. split; [reflexivity|]. cbn. lia.
  - do 2 eexists. unfold ERR, emit. split; [reflexivity|].
    cbn [trace record]. split; [reflexivity|]. split; [reflexivity|]. cbn. lia.
Qed.

Lemma nonpositive_passes_touch_nothing_witness :
  exists s' tl,
    wipe_free_space 0 (env_const true 3 true evp_fail [4] 0) "/mnt" (-5) 4
                    initial_state = Done tt s' /\
    trace s' = trace initial_state ++ tl /\
    filter is_fs_event tl = [] /\
    (List.length tl <= 2)%nat.
Proof.
  apply nonpositive_passes_touch_nothing. lia.
Defined.

(** ** An iteration whose [open] fails *)

(** X9.  If [open] fails, the iteration logs the failure and is over: it
    returns whatever the fuel, and it has called neither [malloc] nor
    [rand] nor the cipher nor [write] nor [remove]; only the answer of
    [open] has been used up. *)
Theorem open_failure_skips_iteration fuel env path p pat cs s :
  sys_open env (n_open s) < 0 ->
  exists s',
    iteration fuel env path p pat cs s = Done tt s' /\
    trace s' = trace s ++ iteration_head env path p pat s ++ [EvErr MOpenFailed] /\
    n_open s' = S (n_open s) /\
    n_malloc s' = n_malloc s /\ n_rand s' = n_rand s /\ n_evp s' = n_evp s /\
    n_write s' = n_write s /\ n_remove s' = n_remove s.
Proof.
  intros Hfd. rewrite iteration_unfold. cbv zeta.
  unfold iteration_head. fold open_flags.
  destruct (Z.ltb_spec (sys_open env (n_open s)) 0) as [_|Hge]; [|lia].
  eexists. split; [reflexivity|].
  cbn [trace record used_open n_open n_malloc n_rand n_evp n_write n_remove].
  rewrite <- !app_assoc. repeat split.
Qed.

Lemma open_failure_skips_iteration_witness :
  exists s',
    iteration 0 (env_const true (-1) true evp_fail [4] 0) "/mnt" 0 2 4
              initial_state = Done tt s' /\
    trace s' = trace initial_state ++
               iteration_head (env_const true (-1) true evp_fail [4] 0)
                              "/mnt" 0 2 initial_state ++ [EvErr MOpenFailed] /\
    n_open s' = S (n_open initial_state) /\
    n_malloc s' = n_malloc initial_state /\
    n_rand s' = n_rand initial_state /\ n_evp s' = n_evp initial_state /\
    n_write s' = n_write initial_state /\
    n_remove s' = n_remove initial_state.
Proof.
  apply open_failure_skips_iteration. cbn. lia.
Defined.

(** ** The total written *)

Lemma write_loop_sums env fd pattern cs :
  forall ws buf outbuf written s fuel,
    0 <= written < 2 ^ 64 ->
    (forall i, (i < List.length ws)%nat ->
       sys_write env (n_write s + i) = nth i ws 0) ->
    Forall (fun w => 0 < w) ws ->
    sys_write env (n_write s + List.length ws) <= 0 ->
    (List.length ws < fuel)%nat ->
    exists s',
      write_loop fuel env fd pattern cs buf outbuf written s
        = Done (cast_size_t (written + sum_Z ws)) s' /\
      n_write s' = (n_write s + List.length ws + 1)%nat.
Proof.
  induction ws as [|w ws IH];
    intros buf outbuf written s fuel Hw0 Hok Hpos Hfail Hfuel;
    (destruct fuel as [|fuel]; [cbn [List.length] in Hfuel; lia|]);
    destruct (generate_chunk_spec env pattern cs buf outbuf s)
      as (b & s1 & tl1 & Hg & _ & _ & Hw & _);
    rewrite (write_loop_step _ _ _ _ _ _ _ _ _ _ _ Hg); cbv zeta; rewrite Hw.
  - cbn [List.length] in Hfail. rewrite Nat.add_0_r in Hfail.
    destruct (Z.leb_spec (sys_write env (n_write s)) 0) as [_|Hgt]; [|lia].
    eexists. split.
    + cbn [sum_Z fold_right]. rewrite Z.add_0_r.
      unfold cast_size_t. now rewrite Z.mod_small.
    + cbn [n_write used_write record List.length]. lia.
  - pose proof (Hok 0%nat ltac:(cbn [List.length]; lia)) as H0.
    rewrite Nat.add_0_r in H0. cbn [nth] in H0. rewrite H0.
    pose proof (Forall_inv Hpos) as Hwpos. cbv beta in Hwpos.
    pose proof (Forall_inv_tail Hpos) as Hpos'.
    destruct (Z.leb_spec w 0) as [Hle|_]; [lia|].
    destruct (IH (fst b) (snd b) (cast_size_t (written + w))
                 (used_write (record (EvWrite fd (fst b) cs w) s1)) fuel)
      as (s' & Hrun & Hn).
    + unfold cast_size_t. apply Z.mod_pos_bound. lia.
    + intros i Hi. cbn [n_write used_write record]. rewrite Hw.
      replace (S (n_write s) + i)%nat with (n_write s + S i)%nat by lia.
      rewrite (Hok (S i)); [reflexivity|cbn [List.length]; lia].
    + exact Hpos'.
    + cbn [n_write used_write record]. rewrite Hw.
      replace (S (n_write s) + List.length ws)%nat
        with (n_write s + List.length (w :: ws))%nat
        by (cbn [List.length]; lia).
      exact Hfail.
    + cbn [List.length] in Hfuel. lia.
    + exists s'. split.
      * rewrite Hrun. f_equal. unfold cast_size_t. cbn [sum_Z fold_right].
        fold (sum_Z ws). rewrite Zplus_mod_idemp_l. f_equal. lia.
      * rewrite Hn. cbn [n_write used_write record List.length]. lia.
Qed.

(** X10.  Whatever the sizes of the successful writes, the total the loop
    returns is the sum of the counts they returned (partial writes count
    for what they wrote), reduced modulo 2^64 as [size_t] arithmetic does;
    the loop stops at the first write that returns zero or less, which adds
    nothing. *)
Theorem written_is_sum_of_returns env fd pattern cs ws buf outbuf s fuel :
  (forall i, (i < List.length ws)%nat ->
     sys_write env (n_write s + i) = nth i ws 0) ->
  Forall (fun w => 0 < w) ws ->
  sys_write env (n_write s + List.length ws) <= 0 ->
  (List.length ws < fuel)%nat ->
  exists s',
    write_loop fuel env fd pattern cs buf outbuf 0 s
      = Done (sum_Z ws mod 2 ^ 64) s' /\
    n_write s' = (n_write s + List.length ws + 1)%nat.
Proof.
  intros Hok Hpos Hfail Hfuel.
  destruct (write_loop_sums env fd pattern cs ws buf outbuf 0 s fuel)
    as (s' & Hrun & Hn); try assumption; [lia|].
  exists s'. split; [|exact Hn]. rewrite Hrun. reflexivity.
Qed.

Lemma written_is_sum_of_returns_witness :
  exists s',
    write_loop 4 (env_const true 3 true evp_fail [4; 1; 3; 0] 0) 3 "ones" 4
               [0; 0; 0; 0] [] 0 initial_state
      = Done (sum_Z [4; 1; 3] mod 2 ^ 64) s' /\
    n_write s' = (n_write initial_state + List.length [4; 1; 3] + 1)%nat.
Proof.
  apply written_is_sum_of_returns.
  - intros [|[|[|i]]] Hi; try reflexivity. cbn in Hi. lia.
  - repeat constructor.
  - cbn. lia.
  - cbn. lia.
Defined.

(** The total wraps: two writes of [2^63] bytes are recorded as 0. *)
Example written_wraps :
  exists s',
    write_loop 3 (env_const true 3 true evp_fail [2 ^ 63; 2 ^ 63; 0] 0) 3
               "zeros" 4 [0; 0; 0; 0] [] 0 initial_state = Done 0 s'.
Proof. eexists. reflexivity. Qed.

(** ** The Random pattern *)

Lemma rand_block_bytes env i n :
  Forall (fun x => 0 <= x < 256) (rand_block env i n).
Proof.
  unfold rand_block. apply Forall_forall. intros x Hx.
  apply in_map_iff in Hx. destruct Hx as (j & <- & _).
  apply Z.mod_pos_bound. lia.
Qed.

Lemma generate_random env cs buf outbuf s :
  List.length buf = Z.to_nat cs ->
  generate_chunk env "random" cs buf outbuf s
    = Done (rand_block env (n_rand s) (Z.to_nat cs), outbuf)
           (used_rand (Z.to_nat cs) s).
Proof.
  intros Hlen.
  change (generate_chunk env "random" cs buf outbuf s)
    with ((r <- rand_bytes env (Z.to_nat cs) ;; ret (store buf 0 r, outbuf)) s).
  unfold bind, rand_bytes, ret.
  rewrite store_full by (now rewrite rand_block_length). reflexivity.
Qed.

Lemma write_loop_random env fd cs fuel :
  forall buf outbuf written s,
    List.length buf = Z.to_nat cs ->
    exists m tl,
      trace (state_of (write_loop fuel env fd "random" cs buf outbuf written s))
        = trace s ++ tl /\
      written_bufs tl
        = map (fun k => rand_block env (n_rand s + k * Z.to_nat cs) (Z.to_nat cs))
              (seq 0 m).
Proof.
  induction fuel as [|fuel IH]; intros buf outbuf written s Hlen.
  - exists 0%nat, []. cbn. now rewrite app_nil_r.
  - rewrite (write_loop_step _ _ _ _ _ _ _ _ _ _ _
               (generate_random env cs buf outbuf s Hlen)).
    cbv zeta. cbn [fst snd n_write used_rand].
    set (w := sys_write env (n_write s)).
    set (blk := rand_block env (n_rand s) (Z.to_nat cs)).
    destruct (w <=? 0).
    + exists 1%nat, [EvWrite fd blk cs w]. cbn. rewrite Nat.add_0_r. auto.
    + destruct (IH blk outbuf (cast_size_t (written + w))
                   (used_write (record (EvWrite fd blk cs w)
                                       (used_rand (Z.to_nat cs) s))))
        as (m & tl & Ht & Hb); [apply rand_block_length|].
      exists (S m), (EvWrite fd blk cs w :: tl). rewrite Ht.
      cbn [trace used_write record used_rand n_rand] in *.
      rewrite <- app_assoc. split; [reflexivity|].
      cbn [written_bufs seq map]. rewrite Hb, <- seq_shift, map_map.
      f_equal.
      * subst blk. f_equal. lia.
      * apply map_ext. intros k. f_equal. lia.
Qed.

(** X11.  In an iteration of the Random pattern (index 2) the buffers
    handed to [write] are cut, one after the other and without overlap,
    from the sequence of values [rand()] returns: the k-th buffer holds the
    values of calls [k * chunk_size] to [(k + 1) * chunk_size - 1] counted
    from the start of the iteration, each reduced modulo 256 (so each byte
    is in 0..255).  No value of [rand()] is used twice or skipped. *)
Theorem random_buffers_follow_rand fuel env path p cs s :
  exists m,
    written_bufs (trace (state_of (iteration fuel env path p 2 cs s)))
      = written_bufs (trace s) ++
        map (fun k => rand_block env (n_rand s + k * Z.to_nat cs) (Z.to_nat cs))
            (seq 0 m) /\
    Forall (Forall (fun x => 0 <= x < 256))
      (map (fun k => rand_block env (n_rand s + k * Z.to_nat cs) (Z.to_nat cs))
           (seq 0 m)).
Proof.
  assert (forall m,
    Forall (Forall (fun x => 0 <= x < 256))
      (map (fun k => rand_block env (n_rand s + k * Z.to_nat cs) (Z.to_nat cs))
           (seq 0 m))) as Hbytes.
  { intros m. apply Forall_forall. intros b Hb.
    apply in_map_iff in Hb. destruct Hb as (k & <- & _).
    apply rand_block_bytes. }
  destruct (iteration_cases fuel env path p 2 cs s)
    as [(_ & ->)|[(_ & _ & ->)|[(_ & _ & w & s3 & tl & Hrun & Htl & ->)
                               |(_ & _ & s3 & Hrun & ->)]]];
    cbv zeta.
  - exists 0%nat. cbn [state_of trace record used_open].
    rewrite !written_bufs_app. cbn. rewrite !app_nil_r. auto.
  - exists 0%nat. cbn [state_of trace record used_open used_malloc].
    rewrite !written_bufs_app. cbn. rewrite !app_nil_r. auto.
  - change (nth (Z.to_nat 2) patterns ""%string) with "random"%string in Hrun.
    match type of Hrun with
    | write_loop fuel env ?fd _ cs ?b ?o 0 ?st = _ =>
        destruct (write_loop_random env fd cs fuel b o 0 st)
          as (m & tl' & Htl' & Hb); [apply fresh_block_length|]
    end.
    rewrite Hrun in Htl'. cbn [state_of] in Htl'.
    rewrite Htl in Htl'. apply app_inv_head in Htl'. subst tl'.
    cbn [n_rand used_malloc used_open record] in Hb.
    exists m. split; [|apply Hbytes].
    destruct (existsb overrun tl); cbn [state_of];
      [rewrite closed_state_trace|rewrite reclaimed_state_trace];
      rewrite Htl; cbn [trace record used_open used_malloc];
      rewrite !written_bufs_app, Hb; unfold reclaim_events;
      [|destruct (sys_remove env (n_remove s3) =? 0)];
      cbn; rewrite !app_nil_r; reflexivity.
  - change (nth (Z.to_nat 2) patterns ""%string) with "random"%string in Hrun.
    match type of Hrun with
    | write_loop fuel env ?fd _ cs ?b ?o 0 ?st = _ =>
        destruct (write_loop_random env fd cs fuel b o 0 st)
          as (m & tl' & Htl' & Hb); [apply fresh_block_length|]
    end.
    rewrite Hrun in Htl'. cbn [state_of] in Htl'.
    cbn [n_rand trace used_malloc used_open record] in Hb, Htl'.
    exists m. split; [|apply Hbytes].
    cbn [state_of]. rewrite Htl', !written_bufs_app, Hb. cbn.
    rewrite !app_nil_r. reflexivity.
Qed.

(** ** What a chunk costs *)

Lemma generate_chunk_cost env pattern cs buf outbuf s :
  exists b s',
    generate_chunk env pattern cs buf outbuf s = Done b s' /\
    n_rand s' = (n_rand s + rand_per_chunk pattern cs)%nat /\
    n_evp s' = (n_evp s + evp_per_chunk pattern)%nat /\
    n_write s' = n_write s.
Proof.
  unfold generate_chunk, rand_per_chunk, evp_per_chunk.
  destruct (String.eqb_spec pattern "zeros") as [->|_].
  { do 2 eexists. split; [reflexivity|]. cbn. lia. }
  destruct (String.eqb_spec pattern "ones") as [->|_].
  { do 2 eexists. split; [reflexivity|]. cbn. lia. }
  destruct (String.eqb_spec pattern "random") as [->|_].
  { do 2 eexists. unfold bind, rand_bytes, ret. split; [reflexivity|].
    cbn. lia. }
  destruct (String.eqb_spec pattern "encrypted") as [->|_].
  2:{ do 2 eexists. split; [reflexivity|]. cbn. lia. }
  unfold bind at 1 2 3 4. unfold rand_bytes.
  match goal with
  | |- context [encrypt_chunk ?e ?d ?l ?o ?k ?i ?st] =>
      destruct (encrypt_chunk_run e d l o k i st)
        as ([enc out1] & se & He & _ & _ & _ & Hr & Hv & Hw & _); rewrite He
  end.
  cbn [n_rand n_evp n_write used_rand] in Hr, Hv, Hw.
  cbn [fst snd].
  destruct (0 <? enc); do 2 eexists; unfold bind, emit, ret;
    (split; [reflexivity|]);
    cbn [n_rand n_evp n_write record]; rewrite Hr, Hv, Hw; lia.
Qed.

Lemma write_loop_cost env fd pattern cs fuel :
  forall buf outbuf written s,
    let s' := state_of (write_loop fuel env fd pattern cs buf outbuf written s) in
    (n_write s <= n_write s')%nat /\
    n_rand s' = (n_rand s + (n_write s' - n_write s) * rand_per_chunk pattern cs)%nat /\
    n_evp s' = (n_evp s + (n_write s' - n_write s) * evp_per_chunk pattern)%nat.
Proof.
  induction fuel as [|fuel IH]; intros buf outbuf written s; cbv zeta.
  - cbn. rewrite Nat.sub_diag. lia.
  - destruct (generate_chunk_cost env pattern cs buf outbuf s)
      as (b & s1 & Hg & Hr & He & Hw).
    rewrite (write_loop_step _ _ _ _ _ _ _ _ _ _ _ Hg). cbv zeta.
    destruct (sys_write env (n_write s1) <=? 0).
    + cbn [state_of n_write n_rand n_evp used_write record].
      rewrite Hr, He, Hw.
      replace (S (n_write s) - n_write s)%nat with 1%nat by lia. lia.
    + specialize (IH (fst b) (snd b)
                     (cast_size_t (written + sys_write env (n_write s1)))
                     (used_write (record (EvWrite fd (fst b) cs
                                   (sys_write env (n_write s1))) s1))).
      cbv zeta in IH. cbn [n_write n_rand n_evp used_write record] in IH.
      destruct IH as (Hle & Hr' & He').
      rewrite Hw in *.
      match goal with
      | |- context [state_of ?r] => set (s' := state_of r) in *
      end.
      replace (n_write s' - n_write s)%nat
        with (S (n_write s' - S (n_write s)))%nat by lia.
      rewrite !Nat.mul_succ_l. lia.
Qed.

(** X12.  What writing costs, for every pattern and at every point of an
    iteration: if the iteration has issued m writes, it has called [rand]
    m * chunk_size times under the Random pattern, m * (chunk_size + 48)
    times under the Encrypted pattern (the data, then 32 key bytes and 16
    IV bytes, drawn anew for each chunk), and never under Zeros and Ones;
    the cipher has run m times under Encrypted and never otherwise. *)
Theorem chunk_costs fuel env path p pat cs s :
  let pattern := nth (Z.to_nat pat) patterns ""%string in
  let s' := state_of (iteration fuel env path p pat cs s) in
  (n_write s <= n_write s')%nat /\
  n_rand s' = (n_rand s + (n_write s' - n_write s) * rand_per_chunk pattern cs)%nat /\
  n_evp s' = (n_evp s + (n_write s' - n_write s) * evp_per_chunk pattern)%nat.
Proof.
  cbv zeta.
  destruct (iteration_cases fuel env path p pat cs s)
    as [(_ & ->)|[(_ & _ & ->)|[(_ & _ & w & s3 & tl & Hrun & _ & ->)
                               |(_ & _ & s3 & Hrun & ->)]]];
    cbv zeta.
  - cbn [state_of n_write n_rand n_evp record used_open].
    rewrite Nat.sub_diag. lia.
  - cbn [state_of n_write n_rand n_evp record used_open used_malloc].
    rewrite Nat.sub_diag. lia.
  - match type of Hrun with
    | write_loop fuel env ?fd ?pt cs ?b ?o 0 ?st = _ =>
        pose proof (write_loop_cost env fd pt cs fuel b o 0 st) as H
    end.
    cbv zeta in H. rewrite Hrun in H.
    cbn [state_of n_write n_rand n_evp record used_open used_malloc] in H.
    destruct (existsb overrun tl); unfold reclaimed_state, closed_state;
      cbn [state_of n_write n_rand n_evp record used_remove]; exact H.
  - match type of Hrun with
    | write_loop fuel env ?fd ?pt cs ?b ?o 0 ?st = _ =>
        pose proof (write_loop_cost env fd pt cs fuel b o 0 st) as H
    end.
    cbv zeta in H. rewrite Hrun in H.
    cbn [state_of n_write n_rand n_evp record used_open used_malloc] in H.
    exact H.
Qed.

(** ** The return value of [encrypt_chunk] *)

Lemma evp_failed_false r : evp_failed r = false -> evp_success r.
Proof.
  unfold evp_failed, evp_success. intros H.
  repeat (apply orb_false_elim in H; destruct H as [H ?]).
  repeat match goal with
         | H : negb _ = false |- _ => apply negb_false_iff in H
         | H : (_ =? _) = true |- _ => apply Z.eqb_eq in H
         end.
  auto.
Qed.

(** X13.  For a chunk length [len] with 0 <= len <= INT_MAX - 16,
    [encrypt_chunk] returns -1 if any of its four EVP steps fails
    (allocation of the context, initialisation, update, finalisation), and
    then only; when all succeed, with the output lengths of a padded CBC
    encryption, it returns a positive length.  So the caller's test
    [enc_size > 0] is true exactly when the encryption succeeded.  In both
    cases exactly one cipher run is used, nothing is logged and no other
    primitive is called.  The cipher context is freed on success only: when
    the context was obtained and a later step fails, the function returns
    without freeing it, and one more context is left allocated. *)
Theorem encrypt_chunk_return env data len out key iv s :
  0 <= len <= INT_MAX - 16 ->
  evp_failed (sys_evp env (n_evp s) key iv data len) = true \/
  pkcs_lengths (sys_evp env (n_evp s) key iv data len) len ->
  exists e s',
    encrypt_chunk env data len out key iv s = Done e s' /\
    fst e = (if evp_failed (sys_evp env (n_evp s) key iv data len) then -1
             else 16 * (len / 16) + 16) /\
    (0 <? fst e) = negb (evp_failed (sys_evp env (n_evp s) key iv data len)) /\
    trace s' = trace s /\
    n_open s' = n_open s /\ n_malloc s' = n_malloc s /\
    n_rand s' = n_rand s /\ n_evp s' = S (n_evp s) /\
    n_write s' = n_write s /\ n_remove s' = n_remove s /\
    live_ctx s'
      = (if (ctx_ok (sys_evp env (n_evp s) key iv data len)
             && evp_failed (sys_evp env (n_evp s) key iv data len))%bool
         then S (live_ctx s) else live_ctx s).
Proof.
  intros Hlen H.
  destruct (encrypt_chunk_run env data len out key iv s)
    as (e & s' & He & Hrest).
  exists e, s'. split; [exact He|].
  assert (fst e = (if evp_failed (sys_evp env (n_evp s) key iv data len) then -1
                   else 16 * (len / 16) + 16) /\
          live_ctx s'
            = (if (ctx_ok (sys_evp env (n_evp s) key iv data len)
                   && evp_failed (sys_evp env (n_evp s) key iv data len))%bool
               then S (live_ctx s) else live_ctx s)) as [Hf Hl].
  { revert He.
    unfold encrypt_chunk, bind, evp, EVP_CIPHER_CTX_new, EVP_CIPHER_CTX_free, ret.
    rewrite cast_int_small by (unfold INT_MAX in *; lia).
    unfold evp_failed in *.
    destruct (ctx_ok (sys_evp env (n_evp s) key iv data len));
      cbn [negb andb orb] in *;
      [|intros He; injection He as <- <-; split; reflexivity].
    destruct (init_ret (sys_evp env (n_evp s) key iv data len) =? 1);
      cbn [negb andb orb] in *;
      [|intros He; injection He as <- <-; split; reflexivity].
    cbv zeta.
    destruct (update_ret (sys_evp env (n_evp s) key iv data len) =? 1);
      cbn [negb andb orb] in *;
      [|intros He; injection He as <- <-; split; reflexivity].
    destruct (final_ret (sys_evp env (n_evp s) key iv data len) =? 1);
      cbn [negb andb orb] in *;
      [|intros He; injection He as <- <-; split; reflexivity].
    destruct H as [H|(L1 & L2)]; [discriminate H|].
    intros He; injection He as <- <-. cbn [fst live_ctx ctx_released ctx_acquired
                                          used_evp Nat.pred].
    rewrite L1, L2.
    assert (0 <= 16 * (len / 16) <= len) as Hb.
    { pose proof (Z.mod_pos_bound len 16 ltac:(lia)).
      pose proof (Z.div_mod len 16 ltac:(lia)). lia. }
    rewrite !cast_int_small by (unfold INT_MAX in *; lia).
    split; reflexivity. }
  split; [exact Hf|]. split.
  - rewrite Hf.
    destruct (evp_failed (sys_evp env (n_evp s) key iv data len));
      [reflexivity|].
    cbn [negb]. apply Z.ltb_lt.
    pose proof (Z.mod_pos_bound len 16 ltac:(lia)).
    pose proof (Z.div_mod len 16 ltac:(lia)). lia.
  - destruct Hrest as (Htr & Ho & Hm & Hr & Hv & Hw & Hrm).
    repeat (split; [assumption|]). exact Hl.
Qed.

Lemma encrypt_chunk_return_witness :
  exists e s',
    encrypt_chunk (env_pkcs []) [1; 2; 3] 3 (repeat 0 35) [] [] initial_state
      = Done e s' /\
    fst e = (if evp_failed (sys_evp (env_pkcs []) (n_evp initial_state)
                                    [] [] [1; 2; 3] 3)
             then -1 else 16 * (3 / 16) + 16) /\
    (0 <? fst e)
      = negb (evp_failed (sys_evp (env_pkcs []) (n_evp initial_state)
                                  [] [] [1; 2; 3] 3)) /\
    trace s' = trace initial_state /\
    n_open s' = n_open initial_state /\ n_malloc s' = n_malloc initial_state /\
    n_rand s' = n_rand initial_state /\ n_evp s' = S (n_evp initial_state) /\
    n_write s' = n_write initial_state /\ n_remove s' = n_remove initial_state /\
    live_ctx s'
      = (if (ctx_ok (sys_evp (env_pkcs []) (n_evp initial_state)
                             [] [] [1; 2; 3] 3)
             && evp_failed (sys_evp (env_pkcs []) (n_evp initial_state)
                                    [] [] [1; 2; 3] 3))%bool
         then S (live_ctx initial_state) else live_ctx initial_state).
Proof.
  apply encrypt_chunk_return.
  - vm_compute. split; discriminate.
  - right. vm_compute. split; reflexivity.
Defined.

(** A cipher whose initialisation fails after the context was obtained: the
    context is not freed. *)
Example encrypt_chunk_leaks_context :
  exists out' s',
    encrypt_chunk (env_const true 3 true evp_fail [] 0) [1; 2; 3] 3
                  (repeat 0 35) [] [] initial_state = Done (-1, out') s' /\
    live_ctx s' = 1%nat.
Proof. do 2 eexists. split; reflexivity. Qed.

(** ** An iteration from [open] to [remove] *)

Lemma generate_chunk_frame env pattern cs buf outbuf s :
  exists b s',
    generate_chunk env pattern cs buf outbuf s = Done b s' /\
    n_open s' = n_open s /\ n_malloc s' = n_malloc s /\
    n_write s' = n_write s /\ n_remove s' = n_remove s.
Proof.
  unfold generate_chunk.
  repeat match goal with
         | |- context [if String.eqb ?a ?b then _ else _] =>
             destruct (String.eqb a b);
             [try (do 2 eexists; unfold bind, rand_bytes, ret;
                   split; [reflexivity|]; cbn; auto)|]
         end;
    try (do 2 eexists; split; [reflexivity|]; cbn; auto).
  unfold bind at 1 2 3 4. unfold rand_bytes.
  match goal with
  | |- context [encrypt_chunk ?e ?d ?l ?o ?k ?i ?st] =>
      destruct (encrypt_chunk_run e d l o k i st)
        as ([enc out1] & se & He & _ & Ho & Hm & _ & _ & Hw & Hr); rewrite He
  end.
  cbn [n_open n_malloc n_write n_remove used_rand] in Ho, Hm, Hw, Hr.
  cbn [fst snd].
  destruct (0 <? enc); do 2 eexists; unfold bind, emit, ret;
    (split; [reflexivity|]);
    cbn [n_open n_malloc n_write n_remove record]; auto.
Qed.

Lemma write_loop_frame env fd pattern cs fuel :
  forall buf outbuf written s,
    n_remove (state_of (write_loop fuel env fd pattern cs buf outbuf written s))
      = n_remove s.
Proof.
  induction fuel as [|fuel IH]; intros buf outbuf written s; [reflexivity|].
  destruct (generate_chunk_frame env pattern cs buf outbuf s)
    as (b & s1 & Hg & _ & _ & _ & Hr).
  rewrite (write_loop_step _ _ _ _ _ _ _ _ _ _ _ Hg). cbv zeta.
  destruct (sys_write env (n_write s1) <=? 0); [exact Hr|].
  rewrite IH. exact Hr.
Qed.

(** X14.  An iteration whose [open] and two allocations succeed, in which
    nothing is copied back into the fill buffer (any pattern but Encrypted,
    or Encrypted with a cipher that fails), and whose writes return the
    positive counts [ws] and then fail: the iteration returns; after the
    open it only writes on that descriptor; then it reports the total in
    MiB, rounded down, closes the descriptor, calls [remove] on the file it
    opened and logs the removal, or, if [remove] returned non-zero, an
    error, which is not fatal either. *)
Theorem iteration_reports_and_reclaims env path p pat cs ws s fuel :
  never_copies_back env (nth (Z.to_nat pat) patterns ""%string) ->
  0 <= sys_open env (n_open s) ->
  malloc_ok env (n_malloc s) = true ->
  malloc_ok env (S (n_malloc s)) = true ->
  (forall i, (i < List.length ws)%nat ->
     sys_write env (n_write s + i) = nth i ws 0) ->
  Forall (fun w => 0 < w) ws ->
  sys_write env (n_write s + List.length ws) <= 0 ->
  (List.length ws < fuel)%nat ->
  exists s' tl,
    iteration fuel env path p pat cs s = Done tt s' /\
    trace s' = trace s ++ iteration_head env path p pat s ++ tl ++
               [EvLog (MWrote (sum_Z ws mod 2 ^ 64 / (1024 * 1024)));
                EvClose (sys_open env (n_open s));
                EvRemove (snprintf 256 (temp_name path p pat))
                         (sys_remove env (n_remove s));
                if sys_remove env (n_remove s) =? 0
                then EvLog (MRemoved (snprintf 256 (temp_name path p pat)))
                else EvErr MRemoveFailed] /\
    Forall (loop_event (sys_open env (n_open s)) cs) tl.
Proof.
  intros Hno Hfd Hb Ho Hok Hpos Hfail Hfuel.
  rewrite iteration_unfold. cbv zeta. unfold iteration_head. fold open_flags.
  set (pattern := nth (Z.to_nat pat) patterns ""%string) in *.
  set (filename := snprintf 256 (temp_name path p pat)).
  set (fd := sys_open env (n_open s)) in *.
  destruct (Z.ltb_spec fd 0) as [Hneg|_]; [lia|].
  rewrite Hb, Ho. cbn [andb].
  set (st := used_malloc (used_malloc _)).
  set (b := fresh_block env (n_malloc s) (Z.to_nat cs)).
  set (o := fresh_block env (S (n_malloc s)) _).
  destruct (write_loop_sums env fd pattern cs ws b o 0 st fuel)
    as (s1 & Hrun & Hn); try assumption; [lia|].
  pose proof (write_loop_frame env fd pattern cs fuel b o 0 st) as Hrm.
  destruct (write_loop_events env fd pattern cs fuel b o 0 st)
    as (tl & Htl & Hev); [apply fresh_block_length|].
  destruct (write_loop_no_copy env fd pattern cs fuel Hno b o 0 st)
    as (tl' & Htl' & Hov).
  rewrite Hrun in Htl, Htl', Hrm. cbn [state_of] in Htl, Htl', Hrm.
  rewrite (fill_and_reclaim_done _ _ _ _ _ _ _ _ _ _ _ _ Hrun Htl'), Hov.
  exists (reclaimed_state env fd filename (cast_size_t (0 + sum_Z ws)) s1), tl.
  split; [reflexivity|]. split; [|exact Hev].
  rewrite reclaimed_state_trace, Htl. unfold reclaim_events. rewrite Hrm.
  subst st. cbn [trace n_remove record used_malloc used_open].
  unfold cast_size_t. rewrite Z.add_0_l, <- !app_assoc. reflexivity.
Qed.

Lemma iteration_reports_and_reclaims_witness :
  exists s' tl,
    iteration 3 (env_const true 3 true evp_fail [2097152; 1048577] 1)
              "/mnt" 0 1 2097152 initial_state = Done tt s' /\
    trace s' = trace initial_state ++
               iteration_head (env_const true 3 true evp_fail [2097152; 1048577] 1)
                              "/mnt" 0 1 initial_state ++ tl ++
               [EvLog (MWrote (sum_Z [2097152; 1048577] mod 2 ^ 64 / (1024 * 1024)));
                EvClose 3;
                EvRemove (snprintf 256 (temp_name "/mnt" 0 1)) 1;
                if 1 =? 0
                then EvLog (MRemoved (snprintf 256 (temp_name "/mnt" 0 1)))
                else EvErr MRemoveFailed] /\
    Forall (loop_event 3 2097152) tl.
Proof.
  apply (iteration_reports_and_reclaims
           (env_const true 3 true evp_fail [2097152; 1048577] 1)
           "/mnt" 0 1 2097152 [2097152; 1048577] initial_state 3).
  - intros _ n key iv data inl. reflexivity.
  - cbn. lia.
  - reflexivity.
  - reflexivity.
  - intros [|[|i]] Hi; reflexivity.
  - repeat constructor.
  - cbn. lia.
  - cbn. lia.
Defined.

(** ** Two runs compared *)

Lemma cast_int_le x : 0 <= x -> cast_int x <= x.
Proof.
  intros H. unfold cast_int.
  pose proof (Z.mod_le (x + 2 ^ 31) (2 ^ 32) ltac:(lia) ltac:(lia)). lia.
Qed.

(** Storing the same bytes at the same place in two blocks of the same
    size that agree up to that place makes them agree up to the end of
    what was stored. *)
Lemma store_agree o1 o2 off src :
  List.length o1 = List.length o2 ->
  firstn off o1 = firstn off o2 ->
  firstn (off + List.length src) (store o1 off src)
    = firstn (off + List.length src) (store o2 off src).
Proof.
  intros Hlen Hpre.
  destruct (Nat.le_gt_cases off (List.length o1)) as [Hle|Hgt].
  - unfold store. rewrite !firstn_firstn, <- Hlen, <- Hpre.
    set (m := Nat.min (off + List.length src) (List.length o1)).
    assert (List.length (firstn off o1 ++ src) = (off + List.length src)%nat)
      as HA by (rewrite length_app, length_firstn; lia).
    rewrite !(app_assoc (firstn off o1) src).
    rewrite !firstn_app, HA.
    replace (m - (off + List.length src))%nat with 0%nat by lia.
    reflexivity.
  - rewrite !firstn_all2 in Hpre by lia. now subst o2.
Qed.

Section Related.

Variables env1 env2 : Env.
Hypothesis Hsame : same_oracles env1 env2.
Variables t1 t2 : list event.

Local Abbreviation S := (after_prefix t1 t2).

Lemma after_prefix_record e s1 s2 : S s1 s2 -> S (record e s1) (record e s2).
Proof.
  intros (Hc & tl & E1 & E2). split.
  - exact Hc.
  - exists (tl ++ [e]). cbn [trace record]. rewrite E1, E2, <- !app_assoc. auto.
Qed.

Lemma after_prefix_used (f : State -> State) s1 s2 :
  (forall s, trace (f s) = trace s) ->
  (forall a b, same_counters a b -> same_counters (f a) (f b)) ->
  S s1 s2 -> S (f s1) (f s2).
Proof.
  intros Ht Hc (Hcnt & tl & E1 & E2). split; [apply Hc, Hcnt|].
  exists tl. rewrite !Ht. auto.
Qed.

Ltac used_step :=
  apply after_prefix_used;
  [reflexivity
  |intros a b (? & ? & ? & ? & ? & ? & ?); repeat split; cbn; congruence
  |].

Lemma rel_ret {A B} (V : A -> B -> Prop) a b :
  V a b -> rel_comp S V (ret a) (ret b).
Proof. intros H s1 s2 HS. split; assumption. Qed.

Lemma rel_bind {A A' B B'} (V : A -> A' -> Prop) (W : B -> B' -> Prop)
    (m1 : C A) (m2 : C A') (k1 : A -> C B) (k2 : A' -> C B') :
  rel_comp S V m1 m2 ->
  (forall a a', V a a' -> rel_comp S W (k1 a) (k2 a')) ->
  rel_comp S W (bind m1 k1) (bind m2 k2).
Proof.
  intros Hm Hk s1 s2 HS. unfold bind. specialize (Hm s1 s2 HS).
  destruct (m1 s1), (m2 s2); cbn in Hm; try contradiction.
  - destruct Hm as [Hv HS']. apply Hk; assumption.
  - exact Hm.
  - exact Hm.
Qed.

Lemma rel_emit e : rel_comp S eq (emit e) (emit e).
Proof.
  intros s1 s2 HS. split; [reflexivity|]. apply after_prefix_record, HS.
Qed.

Lemma rel_open f fl m : rel_comp S eq (open env1 f fl m) (open env2 f fl m).
Proof.
  intros s1 s2 HS. unfold open. cbv zeta.
  destruct Hsame as (Ho & _). destruct HS as [Hc HS']. pose proof Hc as Hc'.
  destruct Hc' as (E & _). rewrite Ho, E. split; [reflexivity|].
  used_step. apply after_prefix_record. split; assumption.
Qed.

Lemma rel_malloc size :
  rel_comp S (same_block (Z.to_nat size)) (malloc env1 size) (malloc env2 size).
Proof.
  intros s1 s2 HS. unfold malloc. cbv zeta.
  destruct Hsame as (_ & Hm & _). pose proof HS as [(_ & E & _) _].
  rewrite Hm, E. split.
  - destruct (malloc_ok env2 (n_malloc s2)); cbn; [|exact I].
    now rewrite !fresh_block_length.
  - used_step. exact HS.
Qed.

Lemma rel_rand_bytes n :
  rel_comp S (fun a b => a = b /\ List.length a = n)
           (rand_bytes env1 n) (rand_bytes env2 n).
Proof.
  intros s1 s2 HS. unfold rand_bytes.
  destruct Hsame as (_ & _ & Hr & _). pose proof HS as [(_ & _ & E & _) _].
  unfold rand_block. rewrite Hr, E. split.
  - split; [reflexivity|]. now rewrite length_map, length_seq.
  - used_step. exact HS.
Qed.

Lemma rel_evp key iv data inl :
  rel_comp S eq (evp env1 key iv data inl) (evp env2 key iv data inl).
Proof.
  intros s1 s2 HS. unfold evp.
  destruct Hsame as (_ & _ & _ & He & _). pose proof HS as [(_ & _ & _ & E & _) _].
  rewrite He, E. split; [reflexivity|]. used_step. exact HS.
Qed.

Lemma rel_write fd buf count :
  rel_comp S eq (write env1 fd buf count) (write env2 fd buf count).
Proof.
  intros s1 s2 HS. unfold write. cbv zeta.
  destruct Hsame as (_ & _ & _ & _ & Hw & _).
  pose proof HS as [(_ & _ & _ & _ & E & _) _].
  rewrite Hw, E. split; [reflexivity|].
  used_step. apply after_prefix_record, HS.
Qed.

Lemma rel_remove f : rel_comp S eq (remove env1 f) (remove env2 f).
Proof.
  intros s1 s2 HS. unfold remove. cbv zeta.
  destruct Hsame as (_ & _ & _ & _ & _ & Hr).
  pose proof HS as [(_ & _ & _ & _ & _ & E & _) _].
  rewrite Hr, E. split; [reflexivity|].
  used_step. apply after_prefix_record, HS.
Qed.

Lemma rel_ctx_new : rel_comp S eq EVP_CIPHER_CTX_new EVP_CIPHER_CTX_new.
Proof.
  intros s1 s2 HS. unfold EVP_CIPHER_CTX_new. split; [reflexivity|].
  used_step. exact HS.
Qed.

Lemma rel_ctx_free : rel_comp S eq EVP_CIPHER_CTX_free EVP_CIPHER_CTX_free.
Proof.
  intros s1 s2 HS. unfold EVP_CIPHER_CTX_free. split; [reflexivity|].
  used_step. exact HS.
Qed.

(** The two runs are at the same distance from the end of their
    prefixes. *)
Lemma rel_here :
  rel_comp S (fun n1 n2 => exists k, n1 = (List.length t1 + k)%nat /\
                                     n2 = (List.length t2 + k)%nat)
           here here.
Proof.
  intros s1 s2 HS. unfold here. split; [|exact HS].
  destruct HS as (_ & tl & E1 & E2). exists (List.length tl).
  now rewrite E1, E2, !length_app.
Qed.

Lemma skipn_past {A} (l l' : list A) k :
  skipn (List.length l + k) (l ++ l') = skipn k l'.
Proof.
  rewrite skipn_app, skipn_all2 by lia.
  cbn [app]. f_equal. lia.
Qed.

Lemma rel_free n1 n2 :
  (exists k, n1 = (List.length t1 + k)%nat /\ n2 = (List.length t2 + k)%nat) ->
  rel_comp S eq (free n1) (free n2).
Proof.
  intros (k & -> & ->) s1 s2 HS. unfold free.
  pose proof HS as (_ & tl & E1 & E2).
  rewrite E1, E2, !skipn_past.
  destruct (existsb overrun (skipn k tl)); [exact HS|].
  split; [reflexivity|exact HS].
Qed.

Lemma rel_encrypt_chunk data len out1 out2 key iv :
  List.length out1 = List.length out2 ->
  rel_comp S same_encryption
    (encrypt_chunk env1 data len out1 key iv)
    (encrypt_chunk env2 data len out2 key iv).
Proof.
  intros Hlen. unfold encrypt_chunk.
  apply (rel_bind eq); [apply rel_evp|]. intros r ? <-.
  destruct (negb (ctx_ok r)).
  { apply rel_ret. split; [reflexivity|split; [exact Hlen|reflexivity]]. }
  eapply rel_bind; [apply rel_ctx_new|]. intros _ _ _.
  destruct (negb (init_ret r =? 1)).
  { apply rel_ret. split; [reflexivity|split; [exact Hlen|reflexivity]]. }
  cbv zeta.
  destruct (negb (update_ret r =? 1)).
  { apply rel_ret.
    split; [reflexivity|split; [cbn [snd]; now rewrite !store_length|reflexivity]]. }
  destruct (negb (final_ret r =? 1)).
  { apply rel_ret.
    split; [reflexivity|split; [cbn [snd]; now rewrite !store_length|reflexivity]]. }
  eapply rel_bind; [apply rel_ctx_free|]. intros _ _ _.
  apply rel_ret. split; [reflexivity|split]; cbn [fst snd].
  - now rewrite !store_length.
  - set (u := update_out r). set (f := final_out r).
    rewrite Nat2Z.id.
    assert (firstn (List.length u + List.length f)
                   (store (store out1 0 u) (List.length u) f)
            = firstn (List.length u + List.length f)
                     (store (store out2 0 u) (List.length u) f)) as H.
    { apply store_agree; [now rewrite !store_length|].
      apply (store_agree out1 out2 0 u Hlen). reflexivity. }
    set (n := Z.to_nat (cast_int (Z.of_nat (List.length u)
                                  + Z.of_nat (List.length f)))).
    assert (n <= List.length u + List.length f)%nat as Hn.
    { subst n.
      pose proof (cast_int_le (Z.of_nat (List.length u)
                               + Z.of_nat (List.length f)) ltac:(lia)).
      lia. }
    replace n with (Nat.min n (List.length u + List.length f)) by lia.
    rewrite <- !firstn_firstn, H. reflexivity.
Qed.

Lemma rel_generate_chunk pattern cs buf1 buf2 o1 o2 :
  In pattern patterns ->
  List.length buf1 = Z.to_nat cs ->
  List.length buf2 = Z.to_nat cs ->
  List.length o1 = List.length o2 ->
  rel_comp S (same_chunk (Z.to_nat cs))
    (generate_chunk env1 pattern cs buf1 o1)
    (generate_chunk env2 pattern cs buf2 o2).
Proof.
  intros Hin Hb1 Hb2 Ho.
  destruct Hin as [<-|[<-|[<-|[<-|[]]]]].
  - change (rel_comp S (same_chunk (Z.to_nat cs))
              (ret (memset buf1 0 (Z.to_nat cs), o1))
              (ret (memset buf2 0 (Z.to_nat cs), o2))).
    apply rel_ret. rewrite !memset_full by assumption.
    repeat split; cbn [fst snd]; [apply repeat_length|assumption].
  - change (rel_comp S (same_chunk (Z.to_nat cs))
              (ret (memset buf1 255 (Z.to_nat cs), o1))
              (ret (memset buf2 255 (Z.to_nat cs), o2))).
    apply rel_ret. rewrite !memset_full by assumption.
    repeat split; cbn [fst snd]; [apply repeat_length|assumption].
  - change (rel_comp S (same_chunk (Z.to_nat cs))
              (r <- rand_bytes env1 (Z.to_nat cs) ;; ret (store buf1 0 r, o1))
              (r <- rand_bytes env2 (Z.to_nat cs) ;; ret (store buf2 0 r, o2))).
    eapply rel_bind; [apply rel_rand_bytes|]. intros r ? [<- Hr].
    apply rel_ret. rewrite !store_full by congruence.
    repeat split; cbn [fst snd]; assumption.
  - intros s1 s2 HS. rewrite !generate_encrypted_unfold. revert s1 s2 HS.
    change (rel_comp S (same_chunk (Z.to_nat cs))
      (r <- rand_bytes env1 (Z.to_nat cs) ;;
       let buf1' := store buf1 0 r in
       key <- rand_bytes env1 32 ;;
       iv <- rand_bytes env1 16 ;;
       e <- encrypt_chunk env1 buf1' cs o1 key iv ;;
       let enc_size := fst e in
       let outbuf1 := snd e in
       if 0 <? enc_size then
         emit (EvMemcpy enc_size (Z.of_nat (List.length buf1'))) ;;;
         ret (memcpy buf1' outbuf1 (Z.to_nat enc_size), outbuf1)
       else ret (buf1', outbuf1))
      (r <- rand_bytes env2 (Z.to_nat cs) ;;
       let buf1' := store buf2 0 r in
       key <- rand_bytes env2 32 ;;
       iv <- rand_bytes env2 16 ;;
       e <- encrypt_chunk env2 buf1' cs o2 key iv ;;
       let enc_size := fst e in
       let outbuf1 := snd e in
       if 0 <? enc_size then
         emit (EvMemcpy enc_size (Z.of_nat (List.length buf1'))) ;;;
         ret (memcpy buf1' outbuf1 (Z.to_nat enc_size), outbuf1)
       else ret (buf1', outbuf1))).
    eapply rel_bind; [apply rel_rand_bytes|]. intros r ? [<- Hr].
    cbv zeta. rewrite !store_full by congruence.
    eapply rel_bind; [apply rel_rand_bytes|]. intros key ? [<- _].
    eapply rel_bind; [apply rel_rand_bytes|]. intros iv ? [<- _].
    eapply rel_bind; [apply rel_encrypt_chunk, Ho|].
    intros e1 e2 (Hf & Hl & Hp). rewrite <- Hf.
    destruct (0 <? fst e1).
    + eapply rel_bind; [apply rel_emit|]. intros _ _ _.
      apply rel_ret. unfold memcpy. rewrite Hp.
      repeat split; cbn [fst snd]; [|assumption].
      now rewrite store_length.
    + apply rel_ret. repeat split; cbn [fst snd]; assumption.
Qed.

Lemma rel_write_loop fd pattern cs fuel :
  In pattern patterns ->
  forall buf1 buf2 o1 o2 written,
    List.length buf1 = Z.to_nat cs ->
    List.length buf2 = Z.to_nat cs ->
    List.length o1 = List.length o2 ->
    rel_comp S eq
      (write_loop fuel env1 fd pattern cs buf1 o1 written)
      (write_loop fuel env2 fd pattern cs buf2 o2 written).
Proof.
  intros Hin. induction fuel as [|fuel IH];
    intros buf1 buf2 o1 o2 written Hb1 Hb2 Ho.
  - intros s1 s2 HS. exact HS.
  - cbn [write_loop].
    eapply rel_bind; [apply rel_generate_chunk; assumption|].
    intros b1 b2 (Hf & Hl & Hs). rewrite <- Hf.
    eapply rel_bind; [apply rel_write|]. intros w ? <-.
    destruct (w <=? 0); [apply rel_ret; reflexivity|].
    apply IH; congruence.
Qed.

Lemma rel_fill_and_reclaim fd pattern cs filename fuel n1 n2 buf1 buf2 o1 o2 :
  In pattern patterns ->
  (exists k, n1 = (List.length t1 + k)%nat /\ n2 = (List.length t2 + k)%nat) ->
  List.length buf1 = Z.to_nat cs ->
  List.length buf2 = Z.to_nat cs ->
  List.length o1 = List.length o2 ->
  rel_comp S eq
    (fill_and_reclaim fuel env1 fd pattern cs filename n1 buf1 o1)
    (fill_and_reclaim fuel env2 fd pattern cs filename n2 buf2 o2).
Proof.
  intros Hin Hn Hb1 Hb2 Ho. unfold fill_and_reclaim.
  eapply rel_bind; [apply rel_write_loop; assumption|]. intros w ? <-.
  eapply rel_bind; [apply rel_emit|]. intros _ _ _.
  eapply rel_bind; [apply rel_emit|]. intros _ _ _.
  eapply rel_bind; [apply rel_free, Hn|]. intros _ _ _.
  eapply rel_bind; [apply rel_free, Hn|]. intros _ _ _.
  eapply rel_bind; [apply rel_remove|]. intros r ? <-.
  destruct (negb (r =? 0)); apply rel_emit.
Qed.

Lemma pattern_in_patterns pat :
  In pat (range_from 4 0) -> In (nth (Z.to_nat pat) patterns ""%string) patterns.
Proof.
  cbn. intros [<-|[<-|[<-|[<-|[]]]]]; cbn; auto.
Qed.

Lemma rel_iteration fuel path p pat cs :
  In pat (range_from 4 0) ->
  rel_comp S eq (iteration fuel env1 path p pat cs)
                (iteration fuel env2 path p pat cs).
Proof.
  intros Hpat. unfold iteration. cbv zeta.
  eapply rel_bind; [apply rel_emit|]. intros _ _ _.
  eapply rel_bind; [apply rel_open|]. intros fd ? <-.
  destruct (fd <? 0); [apply rel_emit|].
  eapply rel_bind; [apply rel_malloc|]. intros b1 b2 Hb.
  eapply rel_bind; [apply rel_malloc|]. intros o1 o2 Ho.
  eapply rel_bind; [apply rel_here|]. intros n1 n2 Hn.
  destruct b1 as [b1|], b2 as [b2|]; cbn in Hb; try contradiction;
    destruct o1 as [o1|], o2 as [o2|]; cbn in Ho; try contradiction;
    try (eapply rel_bind; [apply rel_emit|]; intros _ _ _;
         eapply rel_bind; [apply rel_emit|]; intros _ _ _;
         eapply rel_bind; [apply rel_free, Hn|]; intros _ _ _;
         apply rel_free, Hn).
  destruct Hb, Ho.
  apply rel_fill_and_reclaim; try assumption; [|congruence].
  apply pattern_in_patterns, Hpat.
Qed.

Lemma rel_for_upto (body1 body2 : Z -> C unit) n :
  forall i,
    (forall j, In j (range_from n i) -> rel_comp S eq (body1 j) (body2 j)) ->
    rel_comp S eq (for_upto n i body1) (for_upto n i body2).
Proof.
  induction n as [|n IH]; intros i H.
  - apply rel_ret. reflexivity.
  - cbn [for_upto]. eapply rel_bind; [apply H; left; reflexivity|].
    intros _ _ _. apply IH. intros j Hj. apply H. right. exact Hj.
Qed.

Lemma rel_passes fuel path passes cs :
  rel_comp S eq
    (for_int 0 passes (pass fuel env1 path passes cs))
    (for_int 0 passes (pass fuel env2 path passes cs)).
Proof.
  unfold for_int. apply rel_for_upto. intros p _. unfold pass.
  eapply rel_bind; [apply rel_emit|]. intros _ _ _.
  unfold for_int. apply rel_for_upto. intros pat Hpat.
  apply rel_iteration, Hpat.
Qed.

End Related.

Lemma after_prefix_nil s1 s2 : after_prefix [] [] s1 s2 -> s1 = s2.
Proof.
  intros ((? & ? & ? & ? & ? & ? & ?) & tl & E1 & E2).
  destruct s1, s2. cbn in *. congruence.
Qed.

Lemma after_prefix_refl s : after_prefix [] [] s s.
Proof. split; [repeat split|]. exists (trace s). auto. Qed.

Lemma rel_result_nil {A} (r1 r2 : result A) :
  rel_result (after_prefix [] []) eq r1 r2 -> r1 = r2.
Proof.
  destruct r1, r2; cbn; try contradiction.
  - intros [-> H]. now rewrite (after_prefix_nil _ _ H).
  - intros H. now rewrite (after_prefix_nil _ _ H).
  - intros H. now rewrite (after_prefix_nil _ _ H).
Qed.

Lemma rel_wipe_free_space env1 env2 fuel path passes cs :
  same_oracles env1 env2 ->
  sys_statvfs env1 path = sys_statvfs env2 path ->
  rel_comp (after_prefix [] []) eq
    (wipe_free_space fuel env1 path passes cs)
    (wipe_free_space fuel env2 path passes cs).
Proof.
  intros Hsame Hprobe. unfold wipe_free_space. rewrite Hprobe.
  destruct (sys_statvfs env2 path) as [[bsize bavail]|]; [|apply rel_emit].
  cbv zeta.
  eapply rel_bind; [apply rel_emit|]. intros _ _ _.
  eapply rel_bind; [apply rel_passes, Hsame|]. intros _ _ _.
  apply rel_emit.
Qed.

(** X15.  What freshly allocated memory holds has no influence on the run:
    two environments that differ only in the bytes found in [malloc]ed
    blocks give the same result, state and trace, for [wipe_free_space] and
    for [main], whatever the fuel.  In particular every buffer written to
    disk is the same: no uninitialised byte of the heap reaches a file. *)
Theorem heap_contents_never_matter env1 env2 fuel s :
  same_oracles env1 env2 ->
  sys_statvfs env1 = sys_statvfs env2 ->
  (forall path passes cs,
     wipe_free_space fuel env1 path passes cs s
       = wipe_free_space fuel env2 path passes cs s) /\
  (forall argv, main fuel env1 argv s = main fuel env2 argv s).
Proof.
  intros Hsame Hprobe.
  assert (forall path passes cs,
            wipe_free_space fuel env1 path passes cs s
              = wipe_free_space fuel env2 path passes cs s) as Hw.
  { intros path passes cs. apply rel_result_nil.
    apply rel_wipe_free_space; [exact Hsame|now rewrite Hprobe|].
    apply after_prefix_refl. }
  split; [exact Hw|].
  intros argv. unfold main. cbv zeta.
  destruct (Z.of_nat (List.length argv) <? 2); [reflexivity|].
  unfold bind. rewrite Hw. reflexivity.
Qed.

Lemma heap_contents_never_matter_witness :
  (forall path passes cs,
     wipe_free_space 4 (env_pkcs [4; 0; 4]) path passes cs initial_state
       = wipe_free_space 4 (with_garbage (fun _ _ => 77) (env_pkcs [4; 0; 4]))
                         path passes cs initial_state) /\
  (forall argv,
     main 4 (env_pkcs [4; 0; 4]) argv initial_state
       = main 4 (with_garbage (fun _ _ => 77) (env_pkcs [4; 0; 4])) argv
              initial_state).
Proof.
  apply heap_contents_never_matter.
  - repeat split.
  - reflexivity.
Defined.

Lemma rel_wipe_after_probe
    env1 env2 fuel path passes cs s bsize1 bavail1 bsize2 bavail2 :
  same_oracles env1 env2 ->
  sys_statvfs env1 path = Some (bsize1, bavail1) ->
  sys_statvfs env2 path = Some (bsize2, bavail2) ->
  rel_result
    (after_prefix
       (trace s ++ [EvLog (MDetected (cast_size_t (bsize1 * bavail1)
                                      / (1024 * 1024)))])
       (trace s ++ [EvLog (MDetected (cast_size_t (bsize2 * bavail2)
                                      / (1024 * 1024)))]))
    eq
    (wipe_free_space fuel env1 path passes cs s)
    (wipe_free_space fuel env2 path passes cs s).
Proof.
  intros Hsame H1 H2. unfold wipe_free_space. rewrite H1, H2. cbv zeta.
  set (e1 := EvLog (MDetected (cast_size_t (bsize1 * bavail1) / (1024 * 1024)))).
  set (e2 := EvLog (MDetected (cast_size_t (bsize2 * bavail2) / (1024 * 1024)))).
  assert (rel_comp (after_prefix (trace s ++ [e1]) (trace s ++ [e2])) eq
            (for_int 0 passes (pass fuel env1 path passes cs) ;;; LOG MComplete)
            (for_int 0 passes (pass fuel env2 path passes cs) ;;; LOG MComplete))
    as Hrel.
  { eapply rel_bind; [apply rel_passes, Hsame|]. intros _ _ _. apply rel_emit. }
  apply (Hrel (record e1 s) (record e2 s)).
  split; [repeat split|]. exists []. cbn [trace record].
  now rewrite !app_nil_r.
Qed.

(** X16.  The free-space figure is only reported: two environments that
    differ only in what a successful [statvfs] reports give runs that
    differ only in the figure on the first line logged; every event after
    it is the same, and both runs get equally far. *)
Theorem free_space_figure_is_only_logged
    env1 env2 fuel path passes cs s bsize1 bavail1 bsize2 bavail2 :
  same_oracles env1 env2 ->
  sys_statvfs env1 path = Some (bsize1, bavail1) ->
  sys_statvfs env2 path = Some (bsize2, bavail2) ->
  exists tl,
    trace (state_of (wipe_free_space fuel env1 path passes cs s))
      = trace s ++
        EvLog (MDetected (cast_size_t (bsize1 * bavail1) / (1024 * 1024))) :: tl /\
    trace (state_of (wipe_free_space fuel env2 path passes cs s))
      = trace s ++
        EvLog (MDetected (cast_size_t (bsize2 * bavail2) / (1024 * 1024))) :: tl /\
    finished (wipe_free_space fuel env1 path passes cs s)
      = finished (wipe_free_space fuel env2 path passes cs s).
Proof.
  intros Hsame H1 H2.
  pose proof (rel_wipe_after_probe env1 env2 fuel path passes cs s
                bsize1 bavail1 bsize2 bavail2 Hsame H1 H2) as H.
  destruct (wipe_free_space fuel env1 path passes cs s) as [[] s1|s1|s1],
           (wipe_free_space fuel env2 path passes cs s) as [[] s2|s2|s2];
    cbn [rel_result] in H; try contradiction;
    [destruct H as [_ H]| |];
    destruct H as (_ & tl & T1 & T2); exists tl;
    cbn [state_of finished]; rewrite T1, T2, <- !app_assoc; auto.
Qed.

Lemma free_space_figure_is_only_logged_witness :
  exists tl,
    trace (state_of (wipe_free_space 4 (env_pkcs [4; 0; 4]) "/mnt" 1 4
                                     initial_state))
      = trace initial_state ++
        EvLog (MDetected (cast_size_t (4096 * 1000) / (1024 * 1024))) :: tl /\
    trace (state_of (wipe_free_space 4 (with_statvfs 512 7 (env_pkcs [4; 0; 4]))
                                     "/mnt" 1 4 initial_state))
      = trace initial_state ++
        EvLog (MDetected (cast_size_t (512 * 7) / (1024 * 1024))) :: tl /\
    finished (wipe_free_space 4 (env_pkcs [4; 0; 4]) "/mnt" 1 4 initial_state)
      = finished (wipe_free_space 4 (with_statvfs 512 7 (env_pkcs [4; 0; 4]))
                                  "/mnt" 1 4 initial_state).
Proof.
  apply free_space_figure_is_only_logged.
  - repeat split.
  - reflexivity.
  - reflexivity.
Defined.
